(** * Imaging-Protocol-Assist: the review agent and the feedback loop

    A shallow embedding of [agents/agent3_reviewer.py], of the feedback
    loop of [main.py] and of the extraction and conversion steps of
    [agents/fhir_converter.py], together with the properties of the
    confidence-gated loop, the JSON recovery chains, the field normaliser,
    the feedback coercion and the files a run leaves.

    Conventions of the embedding.
    - A Python [str] is a [string]: the UTF-8 bytes of the text.  The
      whitespace class used by [strip], [splitlines] and the regular
      expression class [\s] is the ASCII part of Python's (codes 9-13, 28-31
      and 32); [lower] acts on the ASCII letters.  The model agrees with the
      code on texts without other Unicode spaces or cased letters.
    - A Python [float] is a [pyfloat]: a rational, an infinity or NaN.
      Comparisons, [min] and [max] follow Python (every comparison with NaN
      is false).  The subtraction rounds its exact result with the rounding
      of the runtime, a parameter whose instance for the code is
      [round_binary64]; the sign of a zero is not kept.  [Json.loads] gives
      a decimal numeral its exact value, which the runtime with binary64
      floats rounds.
    - The values that flow through the code (results of [json.loads],
      feedback, tool output) are [pyval]s; a [dict] is an association list
      in insertion order, since the code depends on the order in which
      duplicate keys overwrite each other.
    - A Python exception is the [Raise] result of the [res] monad.
    - A file is a path with a text; writing a text the encoding of the file
      does not have raises [UnicodeEncodeError].
    - What the code prints on standard output is not modelled. *)

From Stdlib Require Import String Ascii List ZArith QArith Qminmax Qround Qpower Lqa Lia
  Bool Arith DecimalString.
From Equations Require Import Equations.
Import ListNotations.

Set Implicit Arguments.
Set Warnings "-register-all".
Set Default Goal Selector "!".

Close Scope Q_scope.
Open Scope string_scope.
Open Scope list_scope.

(* ===================================================================== *)
(** * Python values                                                        *)
(* ===================================================================== *)

(** ** Floats *)

Inductive pyfloat : Type :=
| FNaN
| FInf (negative : bool)
| FFin (q : Q).

Definition Qlt_bool (x y : Q) : bool := negb (Qle_bool y x).

(** [a < b] on floats. *)
Definition flt (a b : pyfloat) : bool :=
  match a, b with
  | FNaN, _ | _, FNaN => false
  | FInf true, FInf true => false
  | FInf true, _ => true
  | _, FInf true => false
  | FInf false, _ => false
  | FFin _, FInf false => true
  | FFin x, FFin y => Qlt_bool x y
  end.

(** [a >= b] on floats. *)
Definition fge (a b : pyfloat) : bool :=
  match a, b with
  | FNaN, _ | _, FNaN => false
  | _, _ => negb (flt a b)
  end.

(** [a <= b] on floats. *)
Definition fle (a b : pyfloat) : bool :=
  match a, b with
  | FNaN, _ | _, FNaN => false
  | _, _ => negb (flt b a)
  end.

(** [a - b] on floats.  The difference of two finite floats is the exact
    difference rounded to a float by [round], the rounding of the
    platform's arithmetic (to the nearest float, an infinity on overflow);
    the cases with an infinity or NaN are those of IEEE 754. *)
Definition fsub_rounded (round : Q -> pyfloat) (a b : pyfloat) : pyfloat :=
  match a, b with
  | FNaN, _ | _, FNaN => FNaN
  | FInf s, FInf t => if Bool.eqb s t then FNaN else FInf s
  | FInf s, FFin _ => FInf s
  | FFin _, FInf t => FInf (negb t)
  | FFin x, FFin y => round (x - y)%Q
  end.

(** ** Binary64 *)

(** The rounding of IEEE 754 binary64 arithmetic, which is the one of the
    Python [float]: to the nearest float, to the one with an even
    significand when two are as near. *)

(** The integer nearest to a rational, the even one of two that are as
    near. *)
Definition round_half_even (x : Q) : Z :=
  let f := Qfloor x in
  match (x - inject_Z f ?= 1 # 2)%Q with
  | Lt => f
  | Gt => (f + 1)%Z
  | Eq => if Z.even f then f else (f + 1)%Z
  end.

Definition pow2 (e : Z) : Q := (2 ^ e)%Q.

(** The integer part of the binary logarithm of a positive rational. *)
Definition ilog2 (q : Q) : Z :=
  let l := (Z.log2 (Qnum q) - Z.log2 (Zpos (Qden q)))%Z in
  if Qle_bool (pow2 l) q then l else (l - 1)%Z.

(** The exponent of the last place of the binary64 floats around a
    positive rational: 53 significant bits, and the exponents of the
    subnormal numbers at the bottom. *)
Definition binary64_exponent (q : Q) : Z := Z.max (ilog2 q - 52) (-1074).

(** The binary64 float nearest to a positive rational, the one with an
    even significand of two that are as near; the infinity from
    [2^1024] on. *)
Definition round_positive (q : Q) : pyfloat :=
  let e := binary64_exponent q in
  let v := (inject_Z (round_half_even (q / pow2 e)) * pow2 e)%Q in
  if Qle_bool (pow2 1024) v then FInf false else FFin (Qred v).

Definition fneg (f : pyfloat) : pyfloat :=
  match f with
  | FNaN => FNaN
  | FInf s => FInf (negb s)
  | FFin q => FFin (- q)%Q
  end.

(** Rounding to binary64, to nearest, ties to even. *)
Definition round_binary64 (q : Q) : pyfloat :=
  match (q ?= 0)%Q with
  | Eq => FFin 0%Q
  | Gt => round_positive q
  | Lt => fneg (round_positive (- q)%Q)
  end.

(** The value of the float nearest to a positive rational, before the
    test for overflow. *)
Definition rounded_value (q : Q) : Q :=
  (inject_Z (round_half_even (q / pow2 (binary64_exponent q)))
   * pow2 (binary64_exponent q))%Q.

(** The builtins [min(a, b)] and [max(a, b)]: the first argument is kept
    unless the second one compares strictly below (above) it. *)
Definition py_min (a b : pyfloat) : pyfloat := if flt b a then b else a.
Definition py_max (a b : pyfloat) : pyfloat := if flt a b then b else a.

(** The expression [max(0.0, min(1.0, v))], which the source writes out at
    each of its three clamping sites. *)
Definition clamp01 (v : pyfloat) : pyfloat :=
  py_max (FFin 0) (py_min (FFin 1) v).

(** A float that is a finite number of the unit interval. *)
Definition in_unit_interval (f : pyfloat) : Prop :=
  match f with
  | FFin q => (0 <= q /\ q <= 1)%Q
  | _ => False
  end.

(** ** Values *)

Inductive pyval : Type :=
| PNone
| PBool (b : bool)
| PInt (z : Z)
| PFloat (f : pyfloat)
| PStr (s : string)
| PList (items : list pyval)
| PDict (entries : list (string * pyval)).

Definition pydict : Type := list (string * pyval).

(** ** Exceptions *)

Inductive exn : Type :=
| JSONDecodeError
| AttributeError
| TypeError
| KeyError
| IndexError
| ValueError
| UnicodeEncodeError
| OverflowError
| RecursionError
| RuntimeError.

Inductive res (A : Type) : Type :=
| Ok (a : A)
| Raise (e : exn).
Arguments Ok {A} a.
Arguments Raise {A} e.

Definition bind {A B : Type} (r : res A) (k : A -> res B) : res B :=
  match r with
  | Ok a => k a
  | Raise e => Raise e
  end.

Notation "x <- r ;; k" := (bind r (fun x => k))
  (at level 61, r at next level, right associativity).
Notation "' p <- r ;; k" := (bind r (fun x => let p := x in k))
  (at level 61, p pattern, r at next level, right associativity).

(** [try: body  except json.JSONDecodeError: handler]. *)
Definition except_JSONDecodeError {A : Type} (body handler : res A) : res A :=
  match body with
  | Raise JSONDecodeError => handler
  | other => other
  end.

(** [try: body  except Exception: handler] (also the bare [except:]). *)
Definition except_Exception {A : Type} (body handler : res A) : res A :=
  match body with
  | Raise _ => handler
  | other => other
  end.

(** ** Dictionaries *)

Fixpoint dict_get (d : pydict) (k : string) : option pyval :=
  match d with
  | [] => None
  | (k', v) :: rest => if String.eqb k' k then Some v else dict_get rest k
  end.

(** [d[k] = v]: an existing key keeps its position, a new one goes last. *)
Fixpoint dict_set (d : pydict) (k : string) (v : pyval) : pydict :=
  match d with
  | [] => [(k, v)]
  | (k', v') :: rest =>
      if String.eqb k' k then (k', v) :: rest
      else (k', v') :: dict_set rest k v
  end.

Definition dict_keys (d : pydict) : list string := map fst d.

(** [d.get(k, default)]. *)
Definition dict_get_default (d : pydict) (k : string) (default : pyval) : pyval :=
  match dict_get d k with
  | Some v => v
  | None => default
  end.

(** [obj.get(k, default)] on an arbitrary value: only a dict has [get]. *)
Definition py_get (obj : pyval) (k : string) (default : pyval) : res pyval :=
  match obj with
  | PDict d => Ok (dict_get_default d k default)
  | _ => Raise AttributeError
  end.

(** [obj[k]] with a string key [k]. *)
Definition py_getitem (obj : pyval) (k : string) : res pyval :=
  match obj with
  | PDict d =>
      match dict_get d k with
      | Some v => Ok v
      | None => Raise KeyError
      end
  | _ => Raise TypeError
  end.

(** [v == s] for a string literal [s]. *)
Definition py_eq_str (v : pyval) (s : string) : bool :=
  match v with
  | PStr t => String.eqb t s
  | _ => false
  end.

(** Truthiness, as tested by [not x] and [x or y]. *)
Definition py_truthy (v : pyval) : bool :=
  match v with
  | PNone => false
  | PBool b => b
  | PInt z => negb (Z.eqb z 0)
  | PFloat (FFin q) => negb (Qeq_bool q 0)
  | PFloat _ => true
  | PStr s => negb (String.eqb s "")
  | PList l => match l with [] => false | _ => true end
  | PDict d => match d with [] => false | _ => true end
  end.

(** The largest magnitude an [int] may have to convert to a float:
    from [2^1024 - 2^970] on the conversion raises [OverflowError]. *)
Definition float_overflow_bound : Z := (2 ^ 1024 - 2 ^ 970)%Z.

Definition float_of_int (z : Z) : res pyfloat :=
  if (float_overflow_bound <=? Z.abs z)%Z then Raise OverflowError
  else Ok (FFin (inject_Z z)).

(** The numeric value of an operand of float arithmetic or comparison;
    a bool is an int. *)
Definition float_operand (v : pyval) : res pyfloat :=
  match v with
  | PFloat f => Ok f
  | PInt z => float_of_int z
  | PBool b => Ok (FFin (if b then 1 else 0))
  | _ => Raise TypeError
  end.

(** [v >= threshold] against a float literal.  Python compares an int with
    a float exactly, so no overflow can occur here. *)
Definition py_ge_float (v : pyval) (threshold : pyfloat) : res bool :=
  match v with
  | PFloat f => Ok (fge f threshold)
  | PInt z => Ok (fge (FFin (inject_Z z)) threshold)
  | PBool b => Ok (fge (FFin (if b then 1 else 0)) threshold)
  | _ => Raise TypeError
  end.

(* ===================================================================== *)
(** * Text operations                                                      *)
(* ===================================================================== *)

Definition code (c : ascii) : N := N_of_ascii c.

Definition is_char (c : ascii) (s : string) : bool :=
  match s with
  | String d EmptyString => Ascii.eqb c d
  | _ => false
  end.

Definition chars (s : string) : list ascii := list_ascii_of_string s.
Definition of_chars (cs : list ascii) : string := string_of_list_ascii cs.

Definition quote : ascii := "034"%char.
Definition backslash : ascii := "092"%char.
Definition LF : ascii := "010"%char.
Definition CR : ascii := "013"%char.

(** [nl] is the one-character string holding a line feed; [q s] is [s]
    between double quotes. *)
Definition nl : string := String LF EmptyString.
Definition q (s : string) : string := String quote (s ++ String quote EmptyString).

(** Python's whitespace, ASCII part: TAB LF VT FF CR, FS GS RS US, SPACE. *)
Definition is_space (c : ascii) : bool :=
  let n := code c in
  ((9 <=? n) && (n <=? 13) || (28 <=? n) && (n <=? 32))%N.

Definition is_digit (c : ascii) : bool :=
  let n := code c in ((48 <=? n) && (n <=? 57))%N.

Definition lower_char (c : ascii) : ascii :=
  let n := code c in
  if ((65 <=? n) && (n <=? 90))%N then ascii_of_N (n + 32) else c.

Fixpoint ltrim (cs : list ascii) : list ascii :=
  match cs with
  | [] => []
  | c :: rest => if is_space c then ltrim rest else cs
  end.

Fixpoint rtrim (cs : list ascii) : list ascii :=
  match cs with
  | [] => []
  | c :: rest =>
      match rtrim rest with
      | [] => if is_space c then [] else [c]
      | kept => c :: kept
      end
  end.

(** [s.strip()] and [s.lower()]. *)
Definition str_strip (s : string) : string := of_chars (rtrim (ltrim (chars s))).
Definition str_lower (s : string) : string := of_chars (map lower_char (chars s)).

Fixpoint starts_with (prefix cs : list ascii) : bool :=
  match prefix, cs with
  | [], _ => true
  | p :: prefix', c :: cs' => Ascii.eqb p c && starts_with prefix' cs'
  | _ :: _, [] => false
  end.

Fixpoint count_spaces (cs : list ascii) : nat :=
  match cs with
  | c :: rest => if is_space c then S (count_spaces rest) else 0
  | [] => 0
  end.

(** [s.split(",")]: one more part than there are commas. *)
Fixpoint split_comma_from (cur cs : list ascii) : list (list ascii) :=
  match cs with
  | [] => [rev cur]
  | c :: rest =>
      if is_char c "," then rev cur :: split_comma_from [] rest
      else split_comma_from (c :: cur) rest
  end.

Definition str_split_comma (s : string) : list string :=
  map of_chars (split_comma_from [] (chars s)).

(** The line boundaries of [splitlines] in the ASCII range:
    LF, VT, FF, FS, GS, RS, and CR with or without a following LF. *)
Definition is_line_boundary (c : ascii) : bool :=
  let n := code c in
  ((n =? 10) || (n =? 11) || (n =? 12) || (n =? 28) || (n =? 29) || (n =? 30))%N.

Fixpoint splitlines_from (cur cs : list ascii) : list (list ascii) :=
  match cs with
  | [] => match cur with [] => [] | _ => [rev cur] end
  | c :: rest =>
      if Ascii.eqb c CR then
        match rest with
        | n :: rest' =>
            if Ascii.eqb n LF then rev cur :: splitlines_from [] rest'
            else rev cur :: splitlines_from [] rest
        | [] => [rev cur]
        end
      else if is_line_boundary c then rev cur :: splitlines_from [] rest
      else splitlines_from (c :: cur) rest
  end.

Definition str_splitlines (s : string) : list string :=
  map of_chars (splitlines_from [] (chars s)).

(** [s.replace(LF, " ").replace(CR, "")]. *)
Fixpoint flatten_newlines (cs : list ascii) : list ascii :=
  match cs with
  | [] => []
  | c :: rest =>
      if Ascii.eqb c LF then " "%char :: flatten_newlines rest
      else if Ascii.eqb c CR then flatten_newlines rest
      else c :: flatten_newlines rest
  end.

(** ** The three regular expressions of [extract_json_from_text] *)

Definition fence : list ascii := chars "```".

Definition at_line_end (cs : list ascii) : bool :=
  match cs with
  | [] => true
  | c :: _ => Ascii.eqb c LF
  end.

(** Length of the match of [^```(?:json)?\s*|\s*```$] (flag MULTILINE)
    starting at the head of [cs]; 0 when the pattern does not match there
    (a match is never empty).  [line_start] tells whether the position is
    the start of the text or follows a line feed.  The first alternative
    is tried first and cannot fail once the fence is seen at a line start;
    in the second one the greedy [\s*] has to stop exactly where the
    whitespace stops, because a backquote is no whitespace. *)
Definition fence_match_len (line_start : bool) (cs : list ascii) : nat :=
  if line_start && starts_with fence cs then
    let after_fence := skipn 3 cs in
    if starts_with (chars "json") after_fence
    then 7 + count_spaces (skipn 4 after_fence)
    else 3 + count_spaces after_fence
  else
    let k := count_spaces cs in
    let after_spaces := skipn k cs in
    if starts_with fence after_spaces && at_line_end (skipn 3 after_spaces)
    then k + 3
    else 0.

(** [re.sub] with the empty replacement: matches are looked for from left
    to right, each new search starting where the previous match ended;
    [skip] counts the characters of the current match still to be dropped. *)
Fixpoint sub_fences (line_start : bool) (skip : nat) (cs : list ascii) : list ascii :=
  match cs with
  | [] => []
  | c :: rest =>
      match skip with
      | S k => sub_fences (Ascii.eqb c LF) k rest
      | O =>
          match fence_match_len line_start cs with
          | O => c :: sub_fences (Ascii.eqb c LF) 0 rest
          | S k => sub_fences (Ascii.eqb c LF) k rest
          end
      end
  end.

(** [re.sub(r"^```(?:json)?\s*|\s*```$", "", s, flags=re.MULTILINE)]. *)
Definition strip_code_fences (s : string) : string :=
  of_chars (sub_fences true 0 (chars s)).

Fixpoint from_first_lbrace (cs : list ascii) : option (list ascii) :=
  match cs with
  | [] => None
  | c :: rest => if is_char c "{" then Some cs else from_first_lbrace rest
  end.

(** The longest prefix of [cs] that ends with a closing brace. *)
Fixpoint through_last_rbrace (cs : list ascii) : option (list ascii) :=
  match cs with
  | [] => None
  | c :: rest =>
      match through_last_rbrace rest with
      | Some p => Some (c :: p)
      | None => if is_char c "}" then Some [c] else None
      end
  end.

(** [re.search(r"\{[\s\S]*\}", s)]: the leftmost opening brace up to the
    last closing brace after it; [None] when there is no such span. *)
Definition search_brace_block (s : string) : option string :=
  match from_first_lbrace (chars s) with
  | Some (b :: rest) => option_map (fun p => of_chars (b :: p)) (through_last_rbrace rest)
  | _ => None
  end.

Definition closer_after_spaces (cs : list ascii) : bool :=
  match ltrim cs with
  | c :: _ => is_char c "}" || is_char c "]"
  | [] => false
  end.

(** A comma is dropped when only whitespace separates it from a closing
    brace or bracket.  The whitespace and the closer the match also covers
    are put back by the replacement [\1] and can start no further match. *)
Fixpoint drop_trailing_commas (cs : list ascii) : list ascii :=
  match cs with
  | [] => []
  | c :: rest =>
      if is_char c "," && closer_after_spaces rest
      then drop_trailing_commas rest
      else c :: drop_trailing_commas rest
  end.

(** [candidate.replace(LF, " ").replace(CR, "")]. *)
Definition text_flatten (s : string) : string := of_chars (flatten_newlines (chars s)).

(** [re.sub(r',(\s*[}\]])', r'\1', s)]. *)
Definition remove_trailing_commas (s : string) : string :=
  of_chars (drop_trailing_commas (chars s)).

(** The brace counter of the last repair stage: the prefix of [cs] up to
    the closing brace that brings [brace_count] back to zero. *)
Fixpoint balanced_prefix (brace_count : Z) (cs : list ascii) : option (list ascii) :=
  match cs with
  | [] => None
  | c :: rest =>
      if is_char c "{" then
        option_map (cons c) (balanced_prefix (brace_count + 1) rest)
      else if is_char c "}" then
        if (brace_count - 1 =? 0)%Z then Some [c]
        else option_map (cons c) (balanced_prefix (brace_count - 1) rest)
      else option_map (cons c) (balanced_prefix brace_count rest)
  end.

(* ===================================================================== *)
(** * The JSON decoder                                                     *)
(* ===================================================================== *)

(** A model of [json.loads] of the Python standard library, in its default
    configuration: any JSON value is accepted at top level, surrounded by
    the JSON whitespace (space, TAB, LF, CR); [NaN], [Infinity] and
    [-Infinity] are accepted; control characters are refused inside
    strings; of duplicate keys the last value wins.  The text is cut into
    tokens, and the tokens drive a stack machine, so that the decoder is
    total by structural recursion.  [None] stands for [JSONDecodeError]. *)
Module Json.

Inductive token : Type :=
| TLBrace | TRBrace | TLBracket | TRBracket | TColon | TComma
| TValue (v : pyval).

Definition is_json_space (c : ascii) : bool :=
  let n := code c in ((n =? 32) || (n =? 9) || (n =? 10) || (n =? 13))%N.

(** *** Strings *)

Definition hex_digit (c : ascii) : option N :=
  let n := code c in
  if ((48 <=? n) && (n <=? 57))%N then Some (n - 48)%N
  else if ((97 <=? n) && (n <=? 102))%N then Some (n - 87)%N
  else if ((65 <=? n) && (n <=? 70))%N then Some (n - 55)%N
  else None.

Definition hex4 (a b c d : ascii) : option N :=
  match hex_digit a, hex_digit b, hex_digit c, hex_digit d with
  | Some x, Some y, Some z, Some w => Some (((x * 16 + y) * 16 + z) * 16 + w)%N
  | _, _, _, _ => None
  end.

(** The UTF-8 bytes of a code point (a lone surrogate is encoded like any
    other three-byte code point). *)
Definition utf8 (u : N) : list ascii :=
  let cont (x : N) := ascii_of_N (128 + x mod 64)%N in
  if (u <? 128)%N then [ascii_of_N u]
  else if (u <? 2048)%N then [ascii_of_N (192 + u / 64)%N; cont u]
  else if (u <? 65536)%N then
    [ascii_of_N (224 + u / 4096)%N; cont (u / 64)%N; cont u]
  else [ascii_of_N (240 + u / 262144)%N; cont (u / 4096)%N; cont (u / 64)%N; cont u].

Definition simple_escape (c : ascii) : option ascii :=
  if Ascii.eqb c quote then Some quote
  else if Ascii.eqb c backslash then Some backslash
  else if is_char c "/" then Some "/"%char
  else if is_char c "b" then Some "008"%char
  else if is_char c "f" then Some "012"%char
  else if is_char c "n" then Some LF
  else if is_char c "r" then Some CR
  else if is_char c "t" then Some "009"%char
  else None.

Definition is_high_surrogate (u : N) : bool := ((55296 <=? u) && (u <=? 56319))%N.
Definition is_low_surrogate (u : N) : bool := ((56320 <=? u) && (u <=? 57343))%N.

(** The low surrogate escape that may follow a high surrogate. *)
Definition low_surrogate_escape (cs : list ascii) : option N :=
  match cs with
  | b :: u :: h1 :: h2 :: h3 :: h4 :: _ =>
      if Ascii.eqb b backslash && is_char u "u" then
        match hex4 h1 h2 h3 h4 with
        | Some lo => if is_low_surrogate lo then Some lo else None
        | None => None
        end
      else None
  | _ => None
  end.

(** Scans a string body, the opening quote already consumed: the decoded
    string (kept reversed in [buf]) and the number of characters consumed,
    closing quote included. *)
Fixpoint scan_string (buf : list ascii) (used : nat) (cs : list ascii)
  : option (string * nat) :=
  match cs with
  | [] => None
  | c :: rest =>
      if Ascii.eqb c quote then Some (of_chars (rev buf), S used)
      else if Ascii.eqb c backslash then
        match rest with
        | [] => None
        | e :: rest1 =>
            if is_char e "u" then
              match rest1 with
              | h1 :: h2 :: h3 :: h4 :: rest2 =>
                  match hex4 h1 h2 h3 h4 with
                  | None => None
                  | Some hi =>
                      match (if is_high_surrogate hi then low_surrogate_escape rest2 else None),
                            rest2 with
                      | Some lo, _ :: _ :: _ :: _ :: _ :: _ :: rest3 =>
                          let u := (65536 + (hi - 55296) * 1024 + (lo - 56320))%N in
                          scan_string (rev (utf8 u) ++ buf) (used + 12) rest3
                      | _, _ => scan_string (rev (utf8 hi) ++ buf) (used + 6) rest2
                      end
                  end
              | _ => None
              end
            else
              match simple_escape e with
              | Some d => scan_string (d :: buf) (used + 2) rest1
              | None => None
              end
        end
      else if (code c <? 32)%N then None
      else scan_string (c :: buf) (S used) rest
  end.

(** *** Numbers *)

Definition is_number_char (c : ascii) : bool :=
  is_digit c || is_char c "-" || is_char c "+" || is_char c "."
  || is_char c "e" || is_char c "E".

Fixpoint take_while (p : ascii -> bool) (cs : list ascii) : list ascii :=
  match cs with
  | c :: rest => if p c then c :: take_while p rest else []
  | [] => []
  end.

Fixpoint drop_while (p : ascii -> bool) (cs : list ascii) : list ascii :=
  match cs with
  | c :: rest => if p c then drop_while p rest else cs
  | [] => []
  end.

Definition digits_value (ds : list ascii) : Z :=
  fold_left (fun acc d => (acc * 10 + Z.of_N (code d - 48))%Z) ds 0%Z.

(** The integer part: a single zero, or digits that start with no zero. *)
Definition valid_int_part (ds : list ascii) : bool :=
  match ds with
  | [] => false
  | [_] => true
  | d :: _ => negb (is_char d "0")
  end.

(** The float nearest to the rational [m * 10^e], as far as the model goes:
    the exact value, or an infinity from the overflow threshold on. *)
Definition float_of_decimal (m e : Z) : pyfloat :=
  let v := match e with
           | Zneg p => Qred (m # (10 ^ p))
           | _ => inject_Z (m * 10 ^ e)
           end in
  if Qle_bool (inject_Z float_overflow_bound) v then FInf false
  else if Qle_bool v (inject_Z (- float_overflow_bound)) then FInf true
  else FFin v.

(** A maximal run of number characters read against the number grammar:
    an optional minus sign and the integer part, then optionally a point
    with one digit or more, then optionally [e] or [E], an optional sign and
    one digit or more.  A run the grammar does not match in full is an
    error: the characters that may follow a number are no number
    characters. *)
Definition number_of_run (run : list ascii) : option pyval :=
  let '(negative, r1) :=
    match run with
    | c :: r => if is_char c "-" then (true, r) else (false, run)
    | [] => (false, run)
    end in
  let sign (z : Z) := if negative then (- z)%Z else z in
  let ip := take_while is_digit r1 in
  let r2 := drop_while is_digit r1 in
  if negb (valid_int_part ip) then None else
  let '(fp, r3, has_frac) :=
    match r2 with
    | c :: r =>
        if is_char c "." then (take_while is_digit r, drop_while is_digit r, true)
        else ([], r2, false)
    | [] => ([], r2, false)
    end in
  if has_frac && match fp with [] => true | _ => false end then None else
  let mantissa := sign (digits_value (ip ++ fp)) in
  let shift := Z.of_nat (length fp) in
  match r3 with
  | [] =>
      if has_frac then Some (PFloat (float_of_decimal mantissa (- shift)))
      else Some (PInt mantissa)
  | c :: r =>
      if is_char c "e" || is_char c "E" then
        let '(eneg, r4) :=
          match r with
          | s :: r' =>
              if is_char s "-" then (true, r')
              else if is_char s "+" then (false, r')
              else (false, r)
          | [] => (false, r)
          end in
        match r4 with
        | [] => None
        | _ =>
            if forallb is_digit r4 then
              let e := digits_value r4 in
              let e := if eneg then (- e)%Z else e in
              Some (PFloat (float_of_decimal mantissa (e - shift)))
            else None
        end
      else None
  end.

(** *** Tokens *)

Definition literals : list (string * pyval) :=
  [ ("null", PNone); ("true", PBool true); ("false", PBool false);
    ("NaN", PFloat FNaN); ("Infinity", PFloat (FInf false));
    ("-Infinity", PFloat (FInf true)) ].

Fixpoint literal_at (table : list (string * pyval)) (cs : list ascii)
  : option (token * nat) :=
  match table with
  | [] => None
  | (word, v) :: table' =>
      if starts_with (chars word) cs then Some (TValue v, String.length word)
      else literal_at table' cs
  end.

(** The token that starts at the head of [cs] (not a whitespace) and its
    length. *)
Definition scan_token (cs : list ascii) : option (token * nat) :=
  match cs with
  | [] => None
  | c :: rest =>
      if is_char c "{" then Some (TLBrace, 1)
      else if is_char c "}" then Some (TRBrace, 1)
      else if is_char c "[" then Some (TLBracket, 1)
      else if is_char c "]" then Some (TRBracket, 1)
      else if is_char c ":" then Some (TColon, 1)
      else if is_char c "," then Some (TComma, 1)
      else if Ascii.eqb c quote then
        match scan_string [] 1 rest with
        | Some (s, n) => Some (TValue (PStr s), n)
        | None => None
        end
      else
        match literal_at literals cs with
        | Some t => Some t
        | None =>
            let run := take_while is_number_char cs in
            match number_of_run run with
            | Some v => Some (TValue v, length run)
            | None => None
            end
        end
  end.

Fixpoint tokens_from (skip : nat) (cs : list ascii) : option (list token) :=
  match cs with
  | [] => Some []
  | c :: rest =>
      match skip with
      | S k => tokens_from k rest
      | O =>
          if is_json_space c then tokens_from 0 rest
          else
            match scan_token cs with
            | Some (t, n) => option_map (cons t) (tokens_from (pred n) rest)
            | None => None
            end
      end
  end.

(** *** The stack machine *)

(** An open container: an array with the items read so far, or an object
    with its entries and, once read, the key whose value is awaited. *)
Inductive frame : Type :=
| InArray (items : list pyval)
| InObject (entries : pydict) (key : option string).

Inductive phase : Type :=
| WantValue          (* a value must come *)
| WantValueOrClose   (* just after an opening bracket *)
| WantKeyOrClose     (* just after an opening brace *)
| WantKey            (* after a comma inside an object *)
| WantColon
| AfterValue         (* inside a container: a comma or the closer *)
| Done (v : pyval).

(** A finished value goes to the innermost open container, or is the
    result when there is none. *)
Definition deliver (v : pyval) (stack : list frame) : option (phase * list frame) :=
  match stack with
  | [] => Some (Done v, [])
  | InArray items :: below => Some (AfterValue, InArray (items ++ [v]) :: below)
  | InObject entries (Some k) :: below =>
      Some (AfterValue, InObject (dict_set entries k v) None :: below)
  | InObject _ None :: _ => None
  end.

Definition start_value (t : token) (stack : list frame) : option (phase * list frame) :=
  match t with
  | TValue v => deliver v stack
  | TLBracket => Some (WantValueOrClose, InArray [] :: stack)
  | TLBrace => Some (WantKeyOrClose, InObject [] None :: stack)
  | _ => None
  end.

Definition take_key (t : token) (stack : list frame) : option (phase * list frame) :=
  match t, stack with
  | TValue (PStr k), InObject entries None :: below =>
      Some (WantColon, InObject entries (Some k) :: below)
  | _, _ => None
  end.

Definition step (st : phase * list frame) (t : token) : option (phase * list frame) :=
  let '(ph, stack) := st in
  match ph with
  | WantValue => start_value t stack
  | WantValueOrClose =>
      match t, stack with
      | TRBracket, InArray items :: below => deliver (PList items) below
      | _, _ => start_value t stack
      end
  | WantKeyOrClose =>
      match t, stack with
      | TRBrace, InObject entries None :: below => deliver (PDict entries) below
      | _, _ => take_key t stack
      end
  | WantKey => take_key t stack
  | WantColon =>
      match t with
      | TColon => Some (WantValue, stack)
      | _ => None
      end
  | AfterValue =>
      match t, stack with
      | TComma, InArray _ :: _ => Some (WantValue, stack)
      | TComma, InObject _ None :: _ => Some (WantKey, stack)
      | TRBracket, InArray items :: below => deliver (PList items) below
      | TRBrace, InObject entries None :: below => deliver (PDict entries) below
      | _, _ => None
      end
  | Done _ => None
  end.

Fixpoint run (st : phase * list frame) (ts : list token) : option pyval :=
  match ts with
  | [] => match st with
          | (Done v, []) => Some v
          | _ => None
          end
  | t :: ts' =>
      match step st t with
      | Some st' => run st' ts'
      | None => None
      end
  end.

Definition decode (s : string) : option pyval :=
  match tokens_from 0 (chars s) with
  | Some ts => run (WantValue, []) ts
  | None => None
  end.

Definition loads (s : string) : res pyval :=
  match decode s with
  | Some v => Ok v
  | None => Raise JSONDecodeError
  end.

(** *** A bounded recursion *)

(** The decoder reads the text from left to right and calls itself for
    each value nested in an array or an object, so a nesting deeper than
    the recursion the interpreter allows ends in a [RecursionError], raised
    where the nesting gets too deep, before an error further on is seen. *)

(** The tokens up to the first character that starts none, and whether
    the whole text was cut into tokens. *)
Fixpoint tokens_before_error (skip : nat) (cs : list ascii) : list token * bool :=
  match cs with
  | [] => ([], true)
  | c :: rest =>
      match skip with
      | S k => tokens_before_error k rest
      | O =>
          if is_json_space c then tokens_before_error 0 rest
          else
            match scan_token cs with
            | Some (t, n) =>
                let '(ts, complete) := tokens_before_error (pred n) rest in
                (t :: ts, complete)
            | None => ([], false)
            end
      end
  end.

Fixpoint run_limited (limit : nat) (complete : bool) (st : phase * list frame)
    (ts : list token) : res pyval :=
  match ts with
  | [] => match st with
          | (Done v, []) => if complete then Ok v else Raise JSONDecodeError
          | _ => Raise JSONDecodeError
          end
  | t :: ts' =>
      match step st t with
      | Some st' =>
          if (limit <? length (snd st'))%nat then Raise RecursionError
          else run_limited limit complete st' ts'
      | None => Raise JSONDecodeError
      end
  end.

(** [json.loads] where the interpreter allows [limit] values nested in one
    another. *)
Definition loads_limited (limit : nat) (s : string) : res pyval :=
  let '(ts, complete) := tokens_before_error 0 (chars s) in
  run_limited limit complete (WantValue, []) ts.

End Json.

(* ===================================================================== *)
(** * agents/agent3_reviewer.py                                            *)
(* ===================================================================== *)

(** The services of the Python runtime the module calls and that are left
    uninterpreted: the decoder and encoder of the [json] module, the
    builtin [str] and the builtin [float] on a string argument ([None]
    stands for its [ValueError]).  [json_dumps] is [json.dumps] with
    [indent=2], [json_dumps_unicode] the same with [ensure_ascii=False].
    [Json.loads] is the instance of [json_loads] used wherever a concrete
    text is evaluated.  [float_round] is the rounding of the float
    arithmetic: the float, or the infinity, that stands for an exact
    result.  [locale_encodes] tells whether the default text encoding of
    the platform, the one of a file opened without [encoding], has all the
    characters of a text. *)
Class PyRuntime : Type := {
  json_loads : string -> res pyval;
  json_dumps : pyval -> string;
  json_dumps_unicode : pyval -> string;
  py_str : pyval -> string;
  float_of_str : string -> option pyfloat;
  float_round : Q -> pyfloat;
  locale_encodes : string -> bool
}.

(** [a - b] on floats. *)
Definition fsub `{PyRuntime} (a b : pyfloat) : pyfloat :=
  fsub_rounded float_round a b.

(** The external collaborators of the review agent: the rule evaluation
    tool, the completion service, the hallucination analysis and the clock.
    They are taken as functions of their arguments that return normally and
    leave their arguments alone. *)
Class Collaborators : Type := {
  run_renal_tool : pyval -> pyval;
  call_llm : string -> string;
  detect_and_score_statements : pyval -> pyval -> pyval -> pyval;
  utcnow_isoformat : string
}.

(** ** FIELD_ALIASES, normalize_fields *)

Definition FIELD_ALIASES : list (string * string) :=
  [ ("potassium_meq_l", "potassium_mmol_l");
    ("k_meq_l", "potassium_mmol_l");
    ("k_mmol_l", "potassium_mmol_l");
    ("potassium", "potassium_mmol_l");
    ("serum_potassium", "potassium_mmol_l");
    ("bun", "bun_mg_dl");
    ("bun_mmol_l", "bun_mg_dl");
    ("bun_mgdl", "bun_mg_dl");
    ("creatinine", "creatinine_mg_dl");
    ("creatinine_mgdl", "creatinine_mg_dl");
    ("serum_creatinine", "creatinine_mg_dl");
    ("cr", "creatinine_mg_dl");
    ("gfr", "egfr_ckd_epi");
    ("egfr", "egfr_ckd_epi");
    ("estimated_gfr", "egfr_ckd_epi");
    ("body_mass_index", "bmi");
    ("body_mass_idx", "bmi") ].

Fixpoint alias_lookup (table : list (string * string)) (k : string) : option string :=
  match table with
  | [] => None
  | (a, c) :: rest => if String.eqb a k then Some c else alias_lookup rest k
  end.

(** The key under which [normalize_fields] files the key [k]:
    [FIELD_ALIASES.get(key_lower, key_lower)] with
    [key_lower = k.lower().strip()]. *)
Definition canonical_key (k : string) : string :=
  let key_lower := str_strip (str_lower k) in
  match alias_lookup FIELD_ALIASES key_lower with
  | Some canonical => canonical
  | None => key_lower
  end.

(** The body of the loop of [normalize_fields]:
    [normalized[canonical] = v]. *)
Definition file_entry (normalized : pydict) (kv : string * pyval) : pydict :=
  dict_set normalized (canonical_key (fst kv)) (snd kv).

Definition normalize_fields (patient_dict : pydict) : pydict :=
  fold_left file_entry patient_dict [].

Definition now_iso `{Collaborators} : string := utcnow_isoformat ++ "Z".

(** ** load_patient_data *)

(** [dict(zip(header, values))]. *)
Definition dict_of_zip (header values : list string) : pydict :=
  fold_left (fun d kv => dict_set d (fst kv) (PStr (snd kv))) (combine header values) [].

(** [load_patient_data], from the text read from the file at [path]. *)
Definition load_patient_data `{PyRuntime} (file_text : string) : res pyval :=
  let text := str_strip file_text in
  except_JSONDecodeError
    (json_loads text)
    (let parts := map str_strip (str_split_comma text) in
     let raw := Ok (PDict [("raw_text", PStr text)]) in
     if (1 <? length parts)%nat then
       match float_of_str (hd "" parts) with
       | Some _ => raw
       | None =>
           match str_splitlines text with
           | line0 :: line1 :: _ =>
               let header := map str_strip (str_split_comma line0) in
               let values := map str_strip (str_split_comma line1) in
               Ok (PDict (dict_of_zip header values))
           | _ => Raise IndexError
           end
       end
     else raw).

(** ** extract_json_from_text *)

Definition SAFE_DEFAULT : pyval :=
  PDict [ ("confidence", PFloat (FFin (1 # 2)));
          ("feedback", PStr "JSON parsing error in review");
          ("approved", PBool false) ].

(** The text after [text.strip()] and the removal of the code fences. *)
Definition stripped_text (text : string) : string :=
  strip_code_fences (str_strip text).

(** The span the brace counter cuts out of [candidate], with its trailing
    commas removed; [None] when the count never returns to zero. *)
Definition first_balanced_object (candidate : string) : option string :=
  match from_first_lbrace (chars candidate) with
  | Some cs =>
      option_map (fun p => remove_trailing_commas (of_chars p)) (balanced_prefix 0 cs)
  | None => None
  end.

(** The innermost [try] of the repair chain.  [find] cannot miss the
    brace, since the candidate starts with one; when the counter never
    returns to zero the loop ends and control leaves the [try] normally. *)
Definition brace_count_stage `{PyRuntime} (candidate : string) : res pyval :=
  match from_first_lbrace (chars candidate) with
  | None => Ok PNone
  | Some _ =>
      match first_balanced_object candidate with
      | Some partial => except_JSONDecodeError (json_loads partial) (Ok SAFE_DEFAULT)
      | None => Ok SAFE_DEFAULT
      end
  end.

Definition extract_json_from_text `{PyRuntime} (text : string) : res pyval :=
  if String.eqb text "" then Ok PNone else
  let stripped := stripped_text text in
  except_JSONDecodeError (json_loads stripped)
    match search_brace_block stripped with
    | Some candidate =>
        except_JSONDecodeError (json_loads candidate)
          (except_JSONDecodeError (json_loads (remove_trailing_commas candidate))
             (except_JSONDecodeError
                (json_loads (remove_trailing_commas
                               (text_flatten candidate)))
                (brace_count_stage candidate)))
    | None => Ok PNone
    end.

(** ** score_agent2 *)

(** The builtin [float(v)]. *)
Definition py_float `{PyRuntime} (v : pyval) : res pyfloat :=
  match v with
  | PFloat f => Ok f
  | PInt z => float_of_int z
  | PBool b => Ok (FFin (if b then 1 else 0))
  | PStr s =>
      match float_of_str s with
      | Some f => Ok f
      | None => Raise ValueError
      end
  | PNone | PList _ | PDict _ => Raise TypeError
  end.

Definition score_prompt `{PyRuntime} (agent2_output patient_data renal_out : pyval) : string :=
  "You are evaluating the quality of imaging protocol recommendations from another agent." ++ nl
  ++ "Given patient data and renal tool results, assess the correctness and appropriateness of Agent 2's output." ++ nl
  ++ "Return ONLY JSON with a single key 'agent2_confidence' between 0 and 1." ++ nl ++ nl
  ++ "Patient data:" ++ nl ++ json_dumps patient_data ++ nl ++ nl
  ++ "Renal tool output:" ++ nl ++ json_dumps renal_out ++ nl ++ nl
  ++ "Agent 2 output:" ++ nl ++ json_dumps agent2_output ++ nl ++ nl
  ++ "Example:" ++ nl ++ "{" ++ q "agent2_confidence" ++ ": 0.87}".

(** What the [try] block of [score_agent2] does with the completion:
    [Ok (Some score)] when it returns a score, [Ok None] when control
    falls out of the [if]. *)
Definition parse_score `{PyRuntime} (raw_score : string) : res (option pyfloat) :=
  parsed <- extract_json_from_text raw_score ;;
  match parsed with
  | PDict d =>
      match dict_get d "agent2_confidence" with
      | Some v => val <- py_float v ;; Ok (Some (clamp01 val))
      | None => Ok None
      end
  | _ => Ok None
  end.

(** The score, or [PNone] for Python's [None]. *)
Definition score_agent2 `{PyRuntime} `{Collaborators}
    (agent2_output patient_data renal_out : pyval) : pyval :=
  let raw_score := call_llm (score_prompt agent2_output patient_data renal_out) in
  match parse_score raw_score with
  | Ok (Some score) => PFloat score
  | Ok None | Raise _ => PNone
  end.

(** ** _coerce_feedback_shape *)

Definition is_list (v : pyval) : bool :=
  match v with
  | PList _ => true
  | _ => false
  end.

Definition _coerce_feedback_shape `{PyRuntime} (obj : pyval)
  : res (pyval * pyval * pyfloat) :=
  issues <- py_get obj "issues" (PList []) ;;
  recs <- py_get obj "recommendations" (PList []) ;;
  conf <- py_get obj "confidence" (PFloat (FFin (1 # 2))) ;;
  let issues := if is_list issues then issues else PList [PStr (py_str issues)] in
  let recs := if is_list recs then recs else PList [PStr (py_str recs)] in
  let conf := match py_float conf with
              | Ok f => f
              | Raise _ => FFin (1 # 2)
              end in
  let conf := clamp01 conf in
  Ok (issues, recs, conf).

(** ** run_review_agent *)

(** The elements a [for] loop or a comprehension draws from a value. *)
Definition py_iter (v : pyval) : res (list pyval) :=
  match v with
  | PList l => Ok l
  | PDict d => Ok (map (fun kv => PStr (fst kv)) d)
  | PStr s => Ok (map (fun c => PStr (String c EmptyString)) (chars s))
  | _ => Raise TypeError
  end.

(** [c.get("status") == "missing" and c.get("priority") == "optional"];
    the second [get] is evaluated only when the first test holds. *)
Definition is_optional_missing (c : pyval) : res bool :=
  status <- py_get c "status" PNone ;;
  if py_eq_str status "missing" then
    priority <- py_get c "priority" PNone ;;
    Ok (py_eq_str priority "optional")
  else Ok false.

(** The comprehension [[c for c in checks if not (...)]]. *)
Fixpoint keep_checks (checks : list pyval) : res (list pyval) :=
  match checks with
  | [] => Ok []
  | c :: rest =>
      drop <- is_optional_missing c ;;
      kept <- keep_checks rest ;;
      Ok (if drop then kept else c :: kept)
  end.

(** The assignment to [renal_out["checks"]]: the tool output with its
    optional and missing checks removed. *)
Definition filter_renal_checks (renal_out : pyval) : res pyval :=
  checks <- py_get renal_out "checks" (PList []) ;;
  items <- py_iter checks ;;
  kept <- keep_checks items ;;
  match renal_out with
  | PDict d => Ok (PDict (dict_set d "checks" (PList kept)))
  | _ => Raise TypeError
  end.

Definition review_prompt `{PyRuntime}
    (raw_patient_data patient_data renal_out agent2_output : pyval) : string :=
  "You are a clinical imaging protocol reviewer." ++ nl
  ++ "Given patient data, renal tool output, and protocol suggestions from another agent," ++ nl
  ++ "verify appropriateness, suggest changes, and output JSON with: issues, recommendations, confidence." ++ nl ++ nl
  ++ "Patient data:" ++ nl ++ json_dumps raw_patient_data ++ nl ++ nl
  ++ "Normalized patient data:" ++ nl ++ json_dumps patient_data ++ nl ++ nl
  ++ "Renal tool output:" ++ nl ++ json_dumps renal_out ++ nl ++ nl
  ++ "Agent 2 output:" ++ nl ++ json_dumps agent2_output ++ nl ++ nl.

(** [max(0.0, min(1.0, conf - hall_analysis["recommendation"]["confidence_reduction"]))]. *)
Definition apply_penalty `{PyRuntime} (conf : pyfloat) (hall_analysis : pyval)
  : res pyfloat :=
  recommendation <- py_getitem hall_analysis "recommendation" ;;
  reduction <- py_getitem recommendation "confidence_reduction" ;;
  r <- float_operand reduction ;;
  Ok (clamp01 (fsub conf r)).

Definition feedback_payload (issues recs : pyval) (conf : pyfloat) : pyval :=
  PDict [("issues", issues); ("recommendations", recs); ("confidence", PFloat conf)].

Definition run_review_agent `{PyRuntime} `{Collaborators}
    (raw_patient_data agent2_output : pyval) : res pyval :=
  (* Normalize patient data *)
  patient_data <- match raw_patient_data with
                  | PDict d => Ok (PDict (normalize_fields d))
                  | _ => Raise AttributeError
                  end ;;
  (* Run renal tool; keep only non-optional missing checks *)
  renal_out <- filter_renal_checks (run_renal_tool patient_data) ;;
  (* Get Agent 2's confidence score *)
  let agent2_confidence := score_agent2 agent2_output patient_data renal_out in
  let llm_raw :=
    call_llm (review_prompt raw_patient_data patient_data renal_out agent2_output) in
  extracted <- extract_json_from_text llm_raw ;;
  let parsed := if py_truthy extracted then extracted else PDict [] in
  (* Coerce into expected shape *)
  '(issues, recs, conf) <- _coerce_feedback_shape parsed ;;
  (* Run hallucination analysis on feedback and adjust confidence *)
  let hall_analysis :=
    detect_and_score_statements (feedback_payload issues recs conf)
                                patient_data
                                (PDict [("renal", renal_out)]) in
  conf <- apply_penalty conf hall_analysis ;;
  (* Compose final structured output *)
  Ok (PDict [ ("issues", issues);
              ("recommendations", recs);
              ("confidence", PFloat conf);
              ("agent2_confidence", agent2_confidence);
              ("timestamp", PStr now_iso);
              ("tool_outputs", PDict [("renal", renal_out)]);
              ("llm_raw", PStr llm_raw);
              ("hallucination_analysis", hall_analysis);
              ("feedback", feedback_payload issues recs conf) ]).

(* ===================================================================== *)
(** * main.py                                                              *)
(* ===================================================================== *)

(** The files the pipeline reads and writes: path and text content. *)
Definition files : Type := list (string * string).

Fixpoint read_text (disk : files) (path : string) : option string :=
  match disk with
  | [] => None
  | (p, content) :: rest => if String.eqb p path then Some content else read_text rest path
  end.

Fixpoint write_text (disk : files) (path content : string) : files :=
  match disk with
  | [] => [(path, content)]
  | (p, c) :: rest =>
      if String.eqb p path then (p, content) :: rest
      else (p, c) :: write_text rest path content
  end.

Definition path_exists (disk : files) (path : string) : bool :=
  match read_text disk path with
  | Some _ => true
  | None => false
  end.

Definition OUT_ENH : string := "temp/enhanced_context.json".
Definition FINAL_JSON : string := "outputs/final.json".
Definition FHIR_BUNDLE : string := "outputs/fhir_bundle.json".

(** ** Encoding a text for a file *)

(** A Python [str] may hold surrogate code points, which [json.loads]
    makes of a [\u] escape of a surrogate that has no partner.  In the bytes
    of the text a surrogate is a byte 237 followed by a byte from 160 on. *)
Fixpoint has_surrogate (cs : list ascii) : bool :=
  match cs with
  | [] => false
  | c :: rest =>
      ((code c =? 237)%N
       && match rest with
          | d :: _ => (160 <=? code d)%N
          | [] => false
          end)
      || has_surrogate rest
  end.

(** A text UTF-8 encodes: one without surrogate. *)
Definition utf8_encodable (s : string) : bool := negb (has_surrogate (chars s)).

(** A text the default encoding of the platform encodes: no encoding has
    the surrogates. *)
Definition text_encodable `{PyRuntime} (s : string) : bool :=
  utf8_encodable s && locale_encodes s.

(** [save_json]: [path.write_text(json.dumps(obj, indent=2,
    ensure_ascii=False))].  The file is opened without [encoding]; a text
    the default encoding cannot encode ends the call, and with it the run,
    in a [UnicodeEncodeError], which nothing in [run_pipeline] catches. *)
Definition save_json `{PyRuntime} (obj : pyval) (path : string) (disk : files)
  : res files :=
  let text := json_dumps_unicode obj in
  if text_encodable text then Ok (write_text disk path text)
  else Raise UnicodeEncodeError.

(** The decimal numeral an f-string prints for a count. *)
Definition decimal (n : nat) : string := NilEmpty.string_of_uint (Nat.to_uint n).

(** The collaborators of the pipeline.  The generation step and the
    collaborators of the review agent may answer differently from one
    iteration to the next: they are indexed by the iteration that calls
    them.  The pipeline's [run_review_agent] is the one of
    [agents/agent3_reviewer.py].  The conversion step gives its result, a
    bundle or an exception, and the disk it leaves, which a step that
    fails may have changed too. *)
Class PipelineCollaborators : Type := {
  run_enhanced_agent2_protocol : pyval -> res pyval;
  run_agent2_2 : nat -> pyval -> pyval -> pyval -> res pyval;
  reviewer_collaborators : nat -> Collaborators;
  convert_with_gemini : string -> string -> files -> res pyval * files
}.

(** The variables of the feedback loop, and the disk. *)
Record LoopState : Type := {
  loop_count : nat;
  review_feedback : pyval;
  final_agent2_output : pyval;
  disk : files
}.

(** [loop_count >= 2 and review_feedback.get("confidence", 0) >= 0.75],
    for the incremented count [n]. *)
Definition exit_condition (n : nat) (review_feedback : pyval) : res bool :=
  if (2 <=? n)%nat then
    confidence <- py_get review_feedback "confidence" (PInt 0) ;;
    py_ge_float confidence (FFin (3 # 4))
  else Ok false.

(** One pass through the body of the [while] loop, from the increment of
    [loop_count] to the exit test: the variables after the pass and whether
    [break] is taken. *)
Definition loop_pass `{PyRuntime} `{PipelineCollaborators}
    (patient_structured enhanced_context : pyval) (st : LoopState)
  : res (pyval * pyval * files * bool) :=
  let n := S (loop_count st) in
  (* Agent 2_2 *)
  output <- run_agent2_2 n patient_structured enhanced_context (review_feedback st) ;;
  disk1 <- save_json output ("outputs/agent2_loop" ++ decimal n ++ ".json") (disk st) ;;
  (* Agent 3 *)
  feedback <- run_review_agent (H0 := reviewer_collaborators n) patient_structured output ;;
  disk2 <- save_json feedback ("outputs/agent3_review_loop" ++ decimal n ++ ".json") disk1 ;;
  (* Exit condition: after min 2 loops, break if confidence >= 0.75 *)
  stop <- exit_condition n feedback ;;
  Ok (output, feedback, disk2, stop).

Definition after_pass (st : LoopState) (output feedback : pyval) (disk' : files)
  : LoopState :=
  {| loop_count := S (loop_count st); review_feedback := feedback;
     final_agent2_output := output; disk := disk' |}.

(** [while loop_count < 6: ...]. *)
Equations? feedback_loop `{PyRuntime} `{PipelineCollaborators}
    (patient_structured enhanced_context : pyval) (st : LoopState)
  : res LoopState by wf (6 - loop_count st) lt :=
  feedback_loop patient_structured enhanced_context st
    with lt_dec (loop_count st) 6 := {
    | right _ => Ok st
    | left _ with loop_pass patient_structured enhanced_context st := {
        | Raise e => Raise e
        | Ok (output, feedback, disk', true) => Ok (after_pass st output feedback disk')
        | Ok (output, feedback, disk', false) =>
            feedback_loop patient_structured enhanced_context
                          (after_pass st output feedback disk') } }.
Proof.
  change (6 - S (loop_count st) < 6 - loop_count st). lia.
Qed.

(** The shared context of the run: the result of the APS1 step, or, when
    that has none, the one found on disk. *)
Definition obtain_enhanced_context `{PyRuntime} `{PipelineCollaborators}
    (patient_structured : pyval) (disk0 : files) : res (pyval * files) :=
  enh_result <- run_enhanced_agent2_protocol patient_structured ;;
  enhanced_context <- py_get enh_result "enhanced_context" PNone ;;
  let enhanced_context :=
    if negb (py_truthy enhanced_context) && path_exists disk0 OUT_ENH then
      match (content <- match read_text disk0 OUT_ENH with
                        | Some t => json_loads t
                        | None => Raise RuntimeError
                        end ;;
             py_get content "enhanced_context" (PStr "")) with
      | Ok v => v
      | Raise _ => PStr ""
      end
    else enhanced_context in
  if negb (py_truthy enhanced_context) then Raise RuntimeError
  else
    disk1 <- (if negb (path_exists disk0 OUT_ENH)
              then save_json (PDict [("enhanced_context", enhanced_context)]) OUT_ENH disk0
              else Ok disk0) ;;
    Ok (enhanced_context, disk1).

Definition run_pipeline `{PyRuntime} `{PipelineCollaborators}
    (patient_input : pyval) (disk0 : files) : res (pyval * files) :=
  let patient_structured := patient_input in
  '(enhanced_context, disk1) <- obtain_enhanced_context patient_structured disk0 ;;
  (* Feedback loop *)
  st <- feedback_loop patient_structured enhanced_context
          {| loop_count := 0; review_feedback := PNone;
             final_agent2_output := PNone; disk := disk1 |} ;;
  (* Save final output from Agent 2_2 *)
  disk2 <- save_json (final_agent2_output st) FINAL_JSON (disk st) ;;
  (* A failure of the FHIR conversion is logged and otherwise ignored: the
     run goes on with the disk the conversion leaves. *)
  let disk3 := snd (convert_with_gemini FINAL_JSON FHIR_BUNDLE disk2) in
  Ok (PDict [ ("final_output", final_agent2_output st);
              ("loops_run", PInt (Z.of_nat (loop_count st))) ], disk3).

(* ===================================================================== *)
(** * Sample runtime, collaborators and inputs                             *)
(* ===================================================================== *)

(** Concrete instances on which the model is evaluated.  The decoder of
    [sample_runtime] is [Json.loads]; its encoders print an empty text, its
    [str] knows the scalars without a fractional part and its [float]
    accepts no string, which is all the sample inputs need. *)
Definition sample_str (v : pyval) : string :=
  match v with
  | PNone => "None"
  | PBool true => "True"
  | PBool false => "False"
  | PStr s => s
  | _ => ""
  end.

(** A runtime with the decoder [Json.loads], on a platform whose default
    encoding is UTF-8.  Its arithmetic rounds nothing: it agrees with the
    float arithmetic wherever the exact result is a float. *)
Definition runtime_with_decoder (dumps dumps_unicode : pyval -> string)
    (str : pyval -> string) (float : string -> option pyfloat) : PyRuntime :=
  {| json_loads := Json.loads; json_dumps := dumps;
     json_dumps_unicode := dumps_unicode; py_str := str; float_of_str := float;
     float_round := FFin; locale_encodes := fun _ => true |}.

Definition sample_runtime : PyRuntime :=
  runtime_with_decoder (fun _ => "") (fun _ => "") sample_str (fun _ => None).

(** The review response of Scenario C. *)
Definition scenario_C_text : string :=
  "sure, here: {" ++ q "issues" ++ ": [" ++ q "a" ++ "], " ++ q "recommendations"
  ++ ": [" ++ q "b" ++ "], " ++ q "confidence" ++ ": 0.8,}".

Definition check (name status priority : string) : pyval :=
  PDict [("name", PStr name); ("status", PStr status); ("priority", PStr priority)].

Definition sample_tool_output : pyval :=
  PDict [ ("egfr", PInt 58);
          ("checks", PList [ check "creatinine" "ok" "required";
                             check "bmi" "missing" "optional";
                             check "potassium" "missing" "required";
                             check "bun" "flagged" "optional" ]) ].

Definition reduction_report (r : pyval) : pyval :=
  PDict [("recommendation", PDict [("confidence_reduction", r)])].

(** Collaborators whose completion service answers the scoring prompt with
    [score_text] and the review prompt with [review_text]. *)
Definition scripted_collaborators (score_text review_text : string) (reduction : pyval)
  : Collaborators :=
  {| run_renal_tool := fun _ => sample_tool_output;
     call_llm := fun prompt =>
       if starts_with (chars "You are evaluating") (chars prompt)
       then score_text else review_text;
     detect_and_score_statements := fun _ _ _ => reduction_report reduction;
     utcnow_isoformat := "2025-01-01T00:00:00" |}.

Definition sample_collaborators : Collaborators :=
  scripted_collaborators ("{" ++ q "agent2_confidence" ++ ": 0.87}") scenario_C_text
                         (PFloat (FFin (1 # 10))).

Definition sample_patient : pyval :=
  PDict [("Age", PInt 64); (" Serum_Creatinine ", PFloat (FFin (6 # 5))); ("eGFR", PInt 58)].

Definition sample_agent2_output : pyval :=
  PDict [("protocol", PStr "CT abdomen with contrast")].

(** The entry of a script at a position, a fallback past its end. *)
Fixpoint script_at {A : Type} (script : list A) (pos : nat) (fallback : A) : A :=
  match script with
  | [] => fallback
  | x :: rest =>
      match pos with
      | O => x
      | S pos' => script_at rest pos' fallback
      end
  end.

(** The confidence at iteration [k] of a finite script. *)
Definition scripted_confidence (script : list Q) (fallback : Q) (k : nat) : pyfloat :=
  FFin (script_at script (k - 1) fallback).

(** A pipeline whose k-th review answers with the k-th text of [script]
    ([fallback] past its end) and finds nothing to penalise. *)
Definition scripted_pipeline (script : list string) (fallback : string)
  : PipelineCollaborators :=
  {| run_enhanced_agent2_protocol := fun _ => Ok (PDict [("enhanced_context", PStr "context")]);
     run_agent2_2 := fun k _ _ _ => Ok (PDict [("protocol", PStr "CT"); ("round", PInt (Z.of_nat k))]);
     reviewer_collaborators := fun k =>
       scripted_collaborators "no score" (script_at script (k - 1) fallback) (PInt 0);
     convert_with_gemini := fun _ _ disk0 => (Raise RuntimeError, disk0) |}.

Definition confidence_text (c : string) : string :=
  "{" ++ q "issues" ++ ": [], " ++ q "confidence" ++ ": " ++ c ++ "}".

(** The floats of a decoded value rounded to binary64: [json.loads] gives
    a decimal numeral the float nearest to it. *)
Fixpoint round_floats (v : pyval) : pyval :=
  match v with
  | PFloat (FFin q) => PFloat (round_binary64 q)
  | PList items => PList (map round_floats items)
  | PDict entries => PDict (map (fun kv => let '(k, x) := kv in (k, round_floats x)) entries)
  | _ => v
  end.

(** The sample runtime with binary64 floats: the decoder and the
    subtraction round to the nearest float. *)
Definition binary64_runtime : PyRuntime :=
  {| json_loads := fun s => v <- Json.loads s ;; Ok (round_floats v);
     json_dumps := fun _ => "";
     json_dumps_unicode := fun _ => "";
     py_str := sample_str;
     float_of_str := fun _ => None;
     float_round := round_binary64;
     locale_encodes := fun _ => true |}.

(** Collaborators whose review states the confidence 0.8 and whose
    analysis reports the reduction 0.1. *)
Definition penalised_collaborators : Collaborators :=
  scripted_collaborators "no score" (confidence_text "0.8")
                         (PFloat (round_binary64 (1 # 10))).

(** Scenario A: confidences 0.3 and 0.9 (0.3 ever after). *)
Definition scenario_A_pipeline : PipelineCollaborators :=
  scripted_pipeline [confidence_text "0.3"; confidence_text "0.9"] (confidence_text "0.3").

Definition scenario_A_confidence : nat -> pyfloat :=
  scripted_confidence [(3 # 10)%Q; (9 # 10)%Q] (3 # 10)%Q.

(** Scenario B: confidence 0.9, then 0.2 at every later iteration. *)
Definition scenario_B_pipeline : PipelineCollaborators :=
  scripted_pipeline [confidence_text "0.9"] (confidence_text "0.2").

(* ===================================================================== *)
(** * Notions used in the statements                                       *)
(* ===================================================================== *)

(** The texts [extract_json_from_text] hands to the decoder for [text],
    in the order of the attempts. *)
Definition parse_attempts (text : string) : list string :=
  let stripped := stripped_text text in
  stripped ::
  match search_brace_block stripped with
  | Some candidate =>
      [candidate; remove_trailing_commas candidate;
       remove_trailing_commas (text_flatten candidate)]
      ++ match first_balanced_object candidate with
         | Some partial => [partial]
         | None => []
         end
  | None => []
  end.

Definition is_str (v : pyval) : bool :=
  match v with
  | PStr _ => true
  | _ => false
  end.

(** A sequence of strings. *)
Definition is_str_list (v : pyval) : bool :=
  match v with
  | PList items => forallb is_str items
  | _ => false
  end.

(** The declared shape of ReviewFeedback:
    [issues] and [recommendations] sequences of strings, [confidence] a
    float of the unit interval. *)
Definition ReviewFeedback_shape (fb : pyval * pyval * pyfloat) : Prop :=
  let '(issues, recs, conf) := fb in
  is_str_list issues = true /\ is_str_list recs = true /\ in_unit_interval conf.

(** A check record whose status is missing and whose priority is optional. *)
Definition missing_and_optional (c : pyval) : bool :=
  match c with
  | PDict d =>
      py_eq_str (dict_get_default d "status" PNone) "missing"
      && py_eq_str (dict_get_default d "priority" PNone) "optional"
  | _ => false
  end.

(** The value of the last entry of [x] whose key [normalize_fields] files
    under [k]. *)
Definition last_value_filed_under (k : string) (x : pydict) : option pyval :=
  option_map snd (find (fun kv => String.eqb (canonical_key (fst kv)) k) (rev x)).

(** The confidence of iteration [k] reaches the threshold 0.75. *)
Definition confident (conf : nat -> pyfloat) (k : nat) : bool :=
  fge (conf k) (FFin (3 # 4)).

(** [n] is the first iteration from the second on whose confidence reaches
    the threshold, or 6 when none of the first six does. *)
Definition stops_at (conf : nat -> pyfloat) (n : nat) : Prop :=
  n <= 6
  /\ ((2 <= n /\ confident conf n = true
       /\ forall j, 2 <= j < n -> confident conf j = false)
      \/ (n = 6 /\ forall j, 2 <= j <= 6 -> confident conf j = false)).

(** The first iteration from the second on whose confidence reaches the
    threshold, 6 when none of the first six does. *)
Definition stop_iteration (conf : nat -> pyfloat) : nat :=
  if confident conf 2 then 2
  else if confident conf 3 then 3
  else if confident conf 4 then 4
  else if confident conf 5 then 5
  else 6.

(** A value [save_json] can write. *)
Definition saves `{PyRuntime} (obj : pyval) : bool :=
  text_encodable (json_dumps_unicode obj).

(** The exit test of the feedback loop on the feedback of a pass:
    [review_feedback.get("confidence", 0) >= 0.75]. *)
Definition confidence_reached (feedback : pyval) : res bool :=
  confidence <- py_get feedback "confidence" (PInt 0) ;;
  py_ge_float confidence (FFin (3 # 4)).

Definition has_comma (s : string) : bool := existsb (fun c => is_char c ",") (chars s).

(** A text made of [n] copies of a text. *)
Fixpoint repeat_text (n : nat) (s : string) : string :=
  match n with
  | O => ""
  | S n' => s ++ repeat_text n' s
  end.

(** The sample runtime with a decoder that has room for 994 values nested
    in one another: what the default recursion limit of 1000 leaves to a
    call made from a function of a script. *)
Definition recursion_limited_runtime : PyRuntime :=
  {| json_loads := Json.loads_limited 994;
     json_dumps := @json_dumps sample_runtime;
     json_dumps_unicode := @json_dumps_unicode sample_runtime;
     py_str := @py_str sample_runtime;
     float_of_str := @float_of_str sample_runtime;
     float_round := @float_round sample_runtime;
     locale_encodes := @locale_encodes sample_runtime |}.

(** What [_coerce_feedback_shape] makes of the [issues] or
    [recommendations] entry of its argument, case by case. *)
Definition coerced_sequence `{PyRuntime} (entry : option pyval) : pyval :=
  match entry with
  | None => PList []
  | Some (PList l) => PList l
  | Some v => PList [PStr (py_str v)]
  end.

(** What [_coerce_feedback_shape] makes of the [confidence] entry. *)
Definition coerced_confidence `{PyRuntime} (entry : option pyval) : pyfloat :=
  match entry with
  | None => FFin (1 # 2)
  | Some v =>
      match py_float v with
      | Ok f => clamp01 f
      | Raise _ => FFin (1 # 2)
      end
  end.

(** The review of the sample candidate by the sample collaborators. *)
Definition sample_review : pyval :=
  Eval vm_compute in
    match run_review_agent (H := sample_runtime) (H0 := sample_collaborators)
                           sample_patient sample_agent2_output with
    | Ok r => r
    | Raise _ => PNone
    end.

(** Collaborators whose scoring completion rates the candidate 1.7. *)
Definition overrating_collaborators : Collaborators :=
  scripted_collaborators ("{" ++ q "agent2_confidence" ++ ": 1.7}") scenario_C_text
                         (PFloat (FFin (1 # 10))).

(* ===================================================================== *)
(** * agents/fhir_converter.py                                             *)
(* ===================================================================== *)

(** [s.split(sep)] for a separator that is not empty: the text is cut at
    the occurrences of [sep] found from left to right, an occurrence being
    looked for again only past the previous one.  [skip] counts the
    characters of the current occurrence still to be dropped. *)
Fixpoint split_on_from (sep cur : list ascii) (skip : nat) (cs : list ascii)
  : list (list ascii) :=
  match cs with
  | [] => [rev cur]
  | c :: rest =>
      match skip with
      | S k => split_on_from sep cur k rest
      | O =>
          if starts_with sep cs
          then rev cur :: split_on_from sep [] (pred (length sep)) rest
          else split_on_from sep (c :: cur) 0 rest
      end
  end.

(** [text.split("```")]. *)
Definition str_split_fence (s : string) : list string :=
  map of_chars (split_on_from fence [] 0 (chars s)).

(** [s.startswith(prefix)]. *)
Definition str_startswith (s prefix : string) : bool :=
  starts_with (chars prefix) (chars s).

(** The text the converter goes on with once the fences are dealt with:
    when the stripped text starts with a fence, the first piece between
    fences that, stripped, starts with an opening brace; the stripped text
    when there is no such piece or no leading fence. *)
Definition unfenced_text (text : string) : string :=
  let text := str_strip text in
  if str_startswith text "```" then
    match find (fun piece => str_startswith (str_strip piece) "{") (str_split_fence text) with
    | Some piece => str_strip piece
    | None => text
    end
  else text.

(** [_extract_json_from_text] of the converter.  Its [re.search] with the
    pattern of an opening brace, anything (flag DOTALL) and a closing brace
    finds the same span as [search_brace_block]. *)
Definition _extract_json_from_text `{PyRuntime} (text : string) : res pyval :=
  let text := unfenced_text text in
  except_JSONDecodeError (json_loads text)
    match search_brace_block text with
    | Some m => except_JSONDecodeError (json_loads m) (Raise ValueError)
    | None => Raise ValueError
    end.

(** The services [convert_with_gemini] relies on: the text of the response
    of the generation service to a prompt ([_call_genai_model] and the
    reading of its [text]), and the validation of a mapping as a
    [FHIRBundle], which gives the validated bundle as a mapping, [None]
    standing for pydantic's [ValidationError].  [json.dump] hands the text
    of a value to the file piece by piece; [dump_before_failure] is what
    the file has received when a piece cannot be encoded. *)
Class FhirServices : Type := {
  genai_response_text : string -> res string;
  validate_FHIRBundle : pydict -> option pyval;
  dump_before_failure : pyval -> string
}.

Definition fhir_prompt `{PyRuntime} (final_data : pyval) : string :=
  nl ++ "Convert the following JSON into an OpenFHIR-compatible Bundle (R4) in JSON format." ++ nl
  ++ "- Use CarePlan for " ++ q "recommendations" ++ " and " ++ q "rationale" ++ "." ++ nl
  ++ "- Use PlanDefinition for each " ++ q "protocol_selection" ++ "." ++ nl
  ++ "- Wrap everything in a Bundle (type=collection)." ++ nl
  ++ "- Ensure resourceType, id, and required FHIR fields are included." ++ nl
  ++ "- Return only the JSON for the Bundle (no commentary)." ++ nl ++ nl
  ++ "Input JSON:" ++ nl ++ json_dumps final_data ++ nl.

(** [try: body  except ValueError: raise RuntimeError];
    [JSONDecodeError] and [UnicodeEncodeError] are subclasses of
    [ValueError]. *)
Definition ValueError_as_RuntimeError {A : Type} (body : res A) : res A :=
  match body with
  | Raise ValueError | Raise JSONDecodeError | Raise UnicodeEncodeError =>
      Raise RuntimeError
  | other => other
  end.

(** The bundle [convert_with_gemini] validates, from the text of the
    input file: the steps before the output file is opened. *)
Definition validated_bundle `{PyRuntime} `{FhirServices} (final_text : string)
  : res pyval :=
  final_data <- json_loads final_text ;;
  raw_text <- genai_response_text (fhir_prompt final_data) ;;
  fhir_dict <- ValueError_as_RuntimeError (_extract_json_from_text raw_text) ;;
  match fhir_dict with
  | PDict d =>
      match validate_FHIRBundle d with
      | Some bundle => Ok bundle
      | None => Raise RuntimeError
      end
  | _ => Raise TypeError
  end.

(** [with open(output_path, "w", encoding="utf-8") as f: json.dump(bundle,
    f, indent=2, ensure_ascii=False)].  Opening the file empties or creates
    it; a bundle whose text has a surrogate ends the dump in a
    [UnicodeEncodeError], the file holding what was written before. *)
Definition dump_bundle `{PyRuntime} `{FhirServices}
    (bundle : pyval) (output_path : string) (disk0 : files) : res pyval * files :=
  let text := json_dumps_unicode bundle in
  if utf8_encodable text then (Ok bundle, write_text disk0 output_path text)
  else (Raise UnicodeEncodeError,
        write_text disk0 output_path (dump_before_failure bundle)).

(** [convert_with_gemini], from the text read from the file at
    [final_json_path]: the returned bundle or the exception, and the disk
    afterwards. *)
Definition convert_with_gemini_from `{PyRuntime} `{FhirServices}
    (final_text output_path : string) (disk0 : files) : res pyval * files :=
  match validated_bundle final_text with
  | Ok bundle => dump_bundle bundle output_path disk0
  | Raise e => (Raise e, disk0)
  end.

(* ===================================================================== *)
(** * Further notions used in the statements                               *)
(* ===================================================================== *)

(** The collaborators [c] with another conversion step. *)
Definition with_conversion (c : PipelineCollaborators)
    (convert : string -> string -> files -> res pyval * files)
  : PipelineCollaborators :=
  {| run_enhanced_agent2_protocol := @run_enhanced_agent2_protocol c;
     run_agent2_2 := @run_agent2_2 c;
     reviewer_collaborators := @reviewer_collaborators c;
     convert_with_gemini := convert |}.

(** The conversion step of the pipeline is the converter of
    [agents/fhir_converter.py]: it fails at once, the disk left alone, when
    the input file cannot be read, and is the converter on the text read
    otherwise. *)
Definition conversion_is_converter `{PyRuntime} `{FhirServices} `{PipelineCollaborators}
  : Prop :=
  forall (final_json_path output_path : string) (disk0 : files),
    (exists e, convert_with_gemini final_json_path output_path disk0 = (Raise e, disk0))
    \/ (exists final_text,
          convert_with_gemini final_json_path output_path disk0
          = convert_with_gemini_from final_text output_path disk0).

(** The first occurrences of the elements of a list, in their order. *)
Fixpoint first_occurrences (seen keys : list string) : list string :=
  match keys with
  | [] => []
  | k :: rest =>
      if existsb (String.eqb k) seen then first_occurrences seen rest
      else k :: first_occurrences (k :: seen) rest
  end.

Definition is_comma (c : ascii) : bool := is_char c ",".
Definition is_backquote (c : ascii) : bool := is_char c "`".
Definition is_brace (c : ascii) : bool := is_char c "{" || is_char c "}".

(** A text without line boundary. *)
Definition single_line (s : string) : bool :=
  forallb (fun c => negb (is_line_boundary c || Ascii.eqb c CR)) (chars s).

(** A mapping whose values are all strings. *)
Definition all_values_str (d : pydict) : bool :=
  forallb (fun kv => is_str (snd kv)) d.

(** The value of a run, without the disk. *)
Definition returned_value {A B : Type} (r : res (A * B)) : res A :=
  match r with
  | Ok (a, _) => Ok a
  | Raise e => Raise e
  end.

(** A value that is a mapping. *)
Definition is_mapping (v : pyval) : bool :=
  match v with
  | PDict _ => true
  | _ => false
  end.

(** A text that holds no backquote, no brace. *)
Definition no_backquote (cs : list ascii) : bool :=
  forallb (fun c => negb (is_backquote c)) cs.
Definition no_brace (cs : list ascii) : bool :=
  forallb (fun c => negb (is_brace c)) cs.

(** A language tag after an opening fence: a text that starts with a
    character other than whitespace and holds no brace and no backquote. *)
Definition is_language_tag (tag : string) : bool :=
  match chars tag with
  | c :: _ => negb (is_space c)
  | [] => false
  end && no_brace (chars tag) && no_backquote (chars tag).

(** The candidate and the feedback at the end of the k-th pass of the
    feedback loop, when every pass up to it returns: each generation is
    given the feedback of the pass before, the first one [None]. *)
Fixpoint pass_results `{PyRuntime} `{PipelineCollaborators}
    (patient ctx : pyval) (k : nat) : res (pyval * pyval) :=
  match k with
  | O => Ok (PNone, PNone)
  | S k' =>
      '(_, previous_feedback) <- pass_results patient ctx k' ;;
      output <- run_agent2_2 k patient ctx previous_feedback ;;
      feedback <- run_review_agent (H0 := reviewer_collaborators k) patient output ;;
      Ok (output, feedback)
  end.

Definition agent2_loop_path (k : nat) : string :=
  "outputs/agent2_loop" ++ decimal k ++ ".json".
Definition agent3_review_loop_path (k : nat) : string :=
  "outputs/agent3_review_loop" ++ decimal k ++ ".json".

(** A runtime whose [float] reads the decimal numbers of the JSON grammar,
    for the evaluation of [load_patient_data] on numeric fields. *)
Definition decimal_float (s : string) : option pyfloat :=
  match Json.number_of_run (chars s) with
  | Some (PInt z) => Some (FFin (inject_Z z))
  | Some (PFloat f) => Some f
  | _ => None
  end.

Definition decimal_runtime : PyRuntime :=
  runtime_with_decoder (fun _ => "") (fun _ => "") sample_str decimal_float.

(** A payload: an object with a confidence of 0.9. *)
Definition sample_payload : string := "{" ++ q "confidence" ++ ": 0.9}".

(** Collaborators whose review completion is [review_text] and whose
    hallucination analysis reports [report]. *)
Definition reporting_collaborators (review_text : string) (report : pyval)
  : Collaborators :=
  {| run_renal_tool := fun _ => sample_tool_output;
     call_llm := fun prompt =>
       if starts_with (chars "You are evaluating") (chars prompt)
       then "no score" else review_text;
     detect_and_score_statements := fun _ _ _ => report;
     utcnow_isoformat := "2025-01-01T00:00:00" |}.

(** Services for the evaluation of the converter: the generation service
    answers [response]; a mapping is a valid bundle when it has an [entry]
    list. *)
Definition sample_fhir_services (response : string) : FhirServices :=
  {| genai_response_text := fun _ => Ok response;
     validate_FHIRBundle := fun d =>
       match dict_get d "entry" with
       | Some (PList entries) =>
           Some (PDict [("resourceType", PStr "Bundle"); ("type", PStr "collection");
                        ("entry", PList entries)])
       | _ => None
       end;
     dump_before_failure := fun _ => "{" |}.

(** A runtime whose encoders print an empty object, which the decoder
    reads back. *)
Definition object_runtime : PyRuntime :=
  runtime_with_decoder (fun _ => "{}") (fun _ => "{}") sample_str (fun _ => None).

(** A text that is one surrogate, and a runtime whose second encoder
    prints it. *)
Definition lone_surrogate : string :=
  String (ascii_of_N 237) (String (ascii_of_N 160) (String (ascii_of_N 128) "")).

Definition surrogate_runtime : PyRuntime :=
  runtime_with_decoder (fun _ => "{}") (fun _ => q lone_surrogate) sample_str
                       (fun _ => None).

(** A bundle with no entry, as a response of the generation service. *)
Definition sample_bundle_text : string :=
  "{" ++ q "resourceType" ++ ": " ++ q "Bundle" ++ ", " ++ q "entry" ++ ": []}".

(** Scenario A with the converter as its conversion step, the generation
    service answering [response]. *)
Definition converting_pipeline (response : string) : PipelineCollaborators :=
  with_conversion scenario_A_pipeline
    (fun final_json_path output_path disk0 =>
       match read_text disk0 final_json_path with
       | Some final_text =>
           convert_with_gemini_from (H := object_runtime)
             (H0 := sample_fhir_services response) final_text output_path disk0
       | None => (Raise RuntimeError, disk0)
       end).

(** Scenario A with an APS1 step that answers without a context. *)
Definition pipeline_without_context : PipelineCollaborators :=
  {| run_enhanced_agent2_protocol := fun _ => Ok (PDict [("status", PStr "failed")]);
     run_agent2_2 := @run_agent2_2 scenario_A_pipeline;
     reviewer_collaborators := @reviewer_collaborators scenario_A_pipeline;
     convert_with_gemini := @convert_with_gemini scenario_A_pipeline |}.

(* ===================================================================== *)
(** * Floats and the clamp                                                 *)
(* ===================================================================== *)

Lemma Qlt_bool_true (x y : Q) : Qlt_bool x y = true <-> (x < y)%Q.
Proof.
  unfold Qlt_bool. rewrite negb_true_iff, <- not_true_iff_false, Qle_bool_iff.
  split; [apply Qnot_le_lt | apply Qlt_not_le].
Qed.

Lemma Qlt_bool_false (x y : Q) : Qlt_bool x y = false <-> (y <= x)%Q.
Proof.
  unfold Qlt_bool. rewrite negb_false_iff. apply Qle_bool_iff.
Qed.

(** Whatever the float, NaN and the infinities included, the clamp yields
    a finite number of the unit interval. *)
Lemma clamp01_unit (v : pyfloat) : in_unit_interval (clamp01 v).
Proof.
  destruct v as [|[|]|x]; cbn; try lra.
  unfold clamp01, py_min, py_max, flt.
  destruct (Qlt_bool x 1) eqn:H1.
  - destruct (Qlt_bool 0 x) eqn:H0; cbn.
    + apply Qlt_bool_true in H1, H0. lra.
    + lra.
  - cbn. lra.
Qed.

(** On a finite float the clamp is the clamp of the rationals. *)
Lemma clamp01_finite (x : Q) :
  exists y, clamp01 (FFin x) = FFin y /\ (y == Qmax 0 (Qmin 1 x))%Q.
Proof.
  unfold clamp01, py_min, py_max, flt.
  destruct (Qlt_bool x 1) eqn:H1.
  - apply Qlt_bool_true in H1.
    destruct (Qlt_bool 0 x) eqn:H0.
    + apply Qlt_bool_true in H0. exists x. split; [reflexivity|].
      rewrite (Q.min_r 1 x) by lra. rewrite Q.max_r by lra. reflexivity.
    + apply Qlt_bool_false in H0. exists 0%Q. split; [reflexivity|].
      rewrite (Q.min_r 1 x) by lra. rewrite Q.max_l by lra. reflexivity.
  - apply Qlt_bool_false in H1. exists 1%Q. split; [reflexivity|].
    rewrite (Q.min_l 1 x) by lra. rewrite Q.max_r by lra. reflexivity.
Qed.

Lemma fle_finite (x y : Q) : fle (FFin x) (FFin y) = true <-> (x <= y)%Q.
Proof.
  unfold fle, flt. rewrite negb_true_iff. apply Qlt_bool_false.
Qed.

(** The clamp of a float that does not exceed a number of the unit
    interval does not exceed it either. *)
Lemma clamp01_le (v : pyfloat) (q : Q) :
  (0 <= q <= 1)%Q -> fle v (FFin q) = true -> fle (clamp01 v) (FFin q) = true.
Proof.
  intros Hq Hv. destruct v as [|[|]|y]; try discriminate Hv.
  - apply fle_finite. lra.
  - apply fle_finite in Hv.
    destruct (clamp01_finite y) as (y' & -> & Hy').
    apply fle_finite. rewrite Hy'.
    apply Q.max_lub; [lra |].
    pose proof (Q.le_min_r 1 y). lra.
Qed.

(** A float that compares [>= 0.0]: a finite non-negative number or the
    positive infinity. *)
Lemma fge_zero_cases (r : pyfloat) :
  fge r (FFin 0) = true ->
  r = FInf false \/ exists x, r = FFin x /\ (0 <= x)%Q.
Proof.
  destruct r as [|[|]|x]; cbn; try discriminate; [now left |].
  intros Hge. right. exists x. split; [reflexivity |].
  apply negb_true_iff, Qlt_bool_false in Hge. exact Hge.
Qed.

(* ===================================================================== *)
(** * The feedback coercion                                                *)
(* ===================================================================== *)

Section Coercion.
Context `{PyRuntime}.

Lemma coerced_sequence_is_list entry : is_list (coerced_sequence entry) = true.
Proof. destruct entry as [[]|]; reflexivity. Qed.

Lemma coerced_confidence_unit entry : in_unit_interval (coerced_confidence entry).
Proof.
  destruct entry as [v|]; cbn; [|lra].
  destruct (py_float v); [apply clamp01_unit | cbn; lra].
Qed.

Lemma coerce_feedback_shape_dict (d : pydict) :
  _coerce_feedback_shape (PDict d)
  = Ok (coerced_sequence (dict_get d "issues"),
        coerced_sequence (dict_get d "recommendations"),
        coerced_confidence (dict_get d "confidence")).
Proof.
  unfold _coerce_feedback_shape, py_get, dict_get_default, coerced_sequence,
    coerced_confidence. cbn.
  destruct (dict_get d "issues") as [[]|];
    destruct (dict_get d "recommendations") as [[]|];
    destruct (dict_get d "confidence") as [v|]; cbn;
    try destruct (py_float _); reflexivity.
Qed.

Lemma coerce_feedback_shape_inv obj issues recs conf :
  _coerce_feedback_shape obj = Ok (issues, recs, conf) ->
  is_list issues = true /\ is_list recs = true /\ in_unit_interval conf.
Proof.
  destruct obj; try discriminate.
  rewrite coerce_feedback_shape_dict. intros [= <- <- <-].
  auto using coerced_sequence_is_list, coerced_confidence_unit.
Qed.

(** C6 (as amended).  For every mapping, complete or not, well typed or
    not, [_coerce_feedback_shape] returns: a list entry for [issues] or
    [recommendations] is passed on as it is, whatever its elements, any
    other value becomes the one-element list of its string form, and a
    missing entry the empty list; [confidence] becomes a finite float of
    [0,1], the clamp of [float(value)], or 0.5 when the entry is missing
    or [float] raises. *)
Theorem coerce_feedback_shape_sequences_and_unit_confidence (d : pydict) :
  exists issues recs conf,
    _coerce_feedback_shape (PDict d) = Ok (issues, recs, conf)
    /\ issues = coerced_sequence (dict_get d "issues")
    /\ recs = coerced_sequence (dict_get d "recommendations")
    /\ conf = coerced_confidence (dict_get d "confidence")
    /\ is_list issues = true /\ is_list recs = true
    /\ in_unit_interval conf.
Proof.
  eexists _, _, _. split; [apply coerce_feedback_shape_dict |].
  repeat split;
    auto using coerced_sequence_is_list; apply coerced_confidence_unit.
Qed.
End Coercion.

(** C6, counterexample.  A list of numbers under [issues] is returned as it
    is, so the result does not have the declared shape of ReviewFeedback,
    whose [issues] is a sequence of strings. *)
Lemma coerce_feedback_shape_keeps_non_string_items :
  exists fb,
    _coerce_feedback_shape (H := sample_runtime) (PDict [("issues", PList [PInt 1])]) = Ok fb
    /\ fb = (PList [PInt 1], PList [], FFin (1 # 2))
    /\ ~ ReviewFeedback_shape fb.
Proof.
  eexists. split; [reflexivity |]. split; [reflexivity |].
  cbn. intros [Hissues _]. discriminate Hissues.
Qed.

(* ===================================================================== *)
(** * The review agent                                                     *)
(* ===================================================================== *)

Ltac inv_bind H :=
  match type of H with
  | bind ?r _ = Ok _ =>
      let a := fresh "a" in
      let E := fresh "E" in
      destruct r as [a|] eqn:E; cbn [bind] in H; [|discriminate H]
  end.

(** ** The filter of the tool output *)

Lemma is_optional_missing_spec c b :
  is_optional_missing c = Ok b -> b = missing_and_optional c.
Proof.
  destruct c; try discriminate. cbn.
  destruct (py_eq_str (dict_get_default entries "status" PNone) "missing"); cbn.
  - intros [= <-]. reflexivity.
  - intros [= <-]. reflexivity.
Qed.

Lemma keep_checks_filter checks kept :
  keep_checks checks = Ok kept ->
  kept = filter (fun c => negb (missing_and_optional c)) checks.
Proof.
  revert kept. induction checks as [|c rest IH]; intros kept Hk.
  - injection Hk as <-. reflexivity.
  - cbn [keep_checks] in Hk. inv_bind Hk. inv_bind Hk.
    injection Hk as <-.
    apply is_optional_missing_spec in E. subst a.
    rewrite (IH _ eq_refl). cbn [filter].
    destruct (missing_and_optional c); reflexivity.
Qed.

Lemma filter_renal_checks_inv tool_out renal_out :
  filter_renal_checks tool_out = Ok renal_out ->
  exists tool_d checks,
    tool_out = PDict tool_d
    /\ py_iter (dict_get_default tool_d "checks" (PList [])) = Ok checks
    /\ renal_out =
         PDict (dict_set tool_d "checks"
                  (PList (filter (fun c => negb (missing_and_optional c)) checks))).
Proof.
  unfold filter_renal_checks. intros Hf.
  destruct tool_out as [| | | | | |tool_d]; try discriminate Hf.
  cbn [py_get bind] in Hf. inv_bind Hf. inv_bind Hf.
  injection Hf as <-.
  apply keep_checks_filter in E0. subst.
  exists tool_d, a. auto.
Qed.

(** ** A run of the review agent that returns *)

Section Review.
Context `{PyRuntime} `{Collaborators}.

Lemma run_review_agent_inv raw agent2_output result :
  run_review_agent raw agent2_output = Ok result ->
  exists d renal_out extracted issues recs base final,
    let patient := PDict (normalize_fields d) in
    let llm_raw := call_llm (review_prompt raw patient renal_out agent2_output) in
    let hall := detect_and_score_statements (feedback_payload issues recs base)
                  patient (PDict [("renal", renal_out)]) in
    raw = PDict d
    /\ filter_renal_checks (run_renal_tool patient) = Ok renal_out
    /\ extract_json_from_text llm_raw = Ok extracted
    /\ _coerce_feedback_shape (if py_truthy extracted then extracted else PDict [])
       = Ok (issues, recs, base)
    /\ apply_penalty base hall = Ok final
    /\ result =
         PDict [ ("issues", issues);
                 ("recommendations", recs);
                 ("confidence", PFloat final);
                 ("agent2_confidence", score_agent2 agent2_output patient renal_out);
                 ("timestamp", PStr now_iso);
                 ("tool_outputs", PDict [("renal", renal_out)]);
                 ("llm_raw", PStr llm_raw);
                 ("hallucination_analysis", hall);
                 ("feedback", feedback_payload issues recs final) ].
Proof.
  unfold run_review_agent. intros Hr.
  destruct raw as [| | | | | |d]; try discriminate Hr.
  cbn [bind] in Hr.
  inv_bind Hr. inv_bind Hr. inv_bind Hr.
  destruct a1 as [[issues recs] base].
  inv_bind Hr. injection Hr as <-.
  exists d, a, a0, issues, recs, base, a1. cbn zeta. auto 10.
Qed.

(** C9.  Every mapping [run_review_agent] returns has a [feedback]
    sub-mapping whose keys are exactly [issues], [recommendations] and
    [confidence], with the values of the top-level fields of the same
    names. *)
Theorem returned_feedback_mirrors_top_level (raw agent2_output result : pyval) :
  run_review_agent raw agent2_output = Ok result ->
  exists fields issues recs conf,
    result = PDict fields
    /\ dict_get fields "feedback"
       = Some (PDict [("issues", issues); ("recommendations", recs); ("confidence", conf)])
    /\ dict_get fields "issues" = Some issues
    /\ dict_get fields "recommendations" = Some recs
    /\ dict_get fields "confidence" = Some conf.
Proof.
  intros Hr. apply run_review_agent_inv in Hr.
  destruct Hr as (d & renal_out & extracted & issues & recs & base & final & Hr).
  cbn zeta in Hr. destruct Hr as (_ & _ & _ & _ & _ & ->).
  eexists _, issues, recs, (PFloat final). repeat split.
Qed.

(** C8.  When [run_review_agent] returns, the check records of the tool
    output whose status is missing and whose priority is optional have
    been removed, and the others kept as they were and in their order,
    in the tool output that the scoring call, the review prompt, the
    hallucination analysis and the returned mapping receive. *)
Theorem optional_missing_checks_filtered_downstream (raw agent2_output result : pyval) :
  run_review_agent raw agent2_output = Ok result ->
  exists d tool_d checks issues recs base,
    let patient := PDict (normalize_fields d) in
    let kept := filter (fun c => negb (missing_and_optional c)) checks in
    let renal_out := PDict (dict_set tool_d "checks" (PList kept)) in
    raw = PDict d
    /\ run_renal_tool patient = PDict tool_d
    /\ py_iter (dict_get_default tool_d "checks" (PList [])) = Ok checks
    /\ (forall c, In c kept <-> In c checks /\ missing_and_optional c = false)
    /\ py_getitem result "tool_outputs" = Ok (PDict [("renal", renal_out)])
    /\ py_getitem result "agent2_confidence"
       = Ok (score_agent2 agent2_output patient renal_out)
    /\ py_getitem result "llm_raw"
       = Ok (PStr (call_llm (review_prompt raw patient renal_out agent2_output)))
    /\ py_getitem result "hallucination_analysis"
       = Ok (detect_and_score_statements (feedback_payload issues recs base)
               patient (PDict [("renal", renal_out)])).
Proof.
  intros Hr. apply run_review_agent_inv in Hr.
  destruct Hr as (d & renal_out & extracted & issues & recs & base & final & Hr).
  cbn zeta in Hr. destruct Hr as (-> & Hfilter & _ & _ & _ & ->).
  apply filter_renal_checks_inv in Hfilter.
  destruct Hfilter as (tool_d & checks & Htool & Hiter & ->).
  exists d, tool_d, checks, issues, recs, base. cbn zeta.
  repeat match goal with |- _ /\ _ => split end; auto.
  intros c. rewrite filter_In, negb_true_iff. reflexivity.
Qed.

End Review.

Lemma sample_review_run :
  run_review_agent (H := sample_runtime) (H0 := sample_collaborators)
                   sample_patient sample_agent2_output = Ok sample_review.
Proof. vm_compute. reflexivity. Qed.

Lemma returned_feedback_mirrors_top_level_witness :
  exists fields issues recs conf,
    sample_review = PDict fields
    /\ dict_get fields "feedback"
       = Some (PDict [("issues", issues); ("recommendations", recs); ("confidence", conf)])
    /\ dict_get fields "issues" = Some issues
    /\ dict_get fields "recommendations" = Some recs
    /\ dict_get fields "confidence" = Some conf.
Proof.
  apply (returned_feedback_mirrors_top_level
           (H := sample_runtime) (H0 := sample_collaborators)
           sample_patient sample_agent2_output).
  vm_compute. reflexivity.
Defined.

Lemma optional_missing_checks_filtered_downstream_witness :
  run_review_agent (H := sample_runtime) (H0 := sample_collaborators)
                   sample_patient sample_agent2_output = Ok sample_review
  /\ exists d tool_d checks issues recs base,
      let patient := PDict (normalize_fields d) in
      let kept := filter (fun c => negb (missing_and_optional c)) checks in
      let renal_out := PDict (dict_set tool_d "checks" (PList kept)) in
      sample_patient = PDict d
      /\ run_renal_tool (Collaborators := sample_collaborators) patient = PDict tool_d
      /\ py_iter (dict_get_default tool_d "checks" (PList [])) = Ok checks
      /\ (forall c, In c kept <-> In c checks /\ missing_and_optional c = false)
      /\ py_getitem sample_review "tool_outputs" = Ok (PDict [("renal", renal_out)])
      /\ py_getitem sample_review "agent2_confidence"
         = Ok (score_agent2 (H := sample_runtime) (H0 := sample_collaborators)
                 sample_agent2_output patient renal_out)
      /\ py_getitem sample_review "llm_raw"
         = Ok (PStr (call_llm (Collaborators := sample_collaborators)
                       (review_prompt (H := sample_runtime)
                          sample_patient patient renal_out sample_agent2_output)))
      /\ py_getitem sample_review "hallucination_analysis"
         = Ok (detect_and_score_statements (Collaborators := sample_collaborators)
                 (feedback_payload issues recs base) patient (PDict [("renal", renal_out)])).
Proof.
  assert (Hrun : run_review_agent (H := sample_runtime) (H0 := sample_collaborators)
                   sample_patient sample_agent2_output = Ok sample_review)
    by (vm_compute; reflexivity).
  split; [exact Hrun |].
  exact (optional_missing_checks_filtered_downstream
           (H := sample_runtime) (H0 := sample_collaborators) _ _ Hrun).
Defined.

Section Binary64.
Local Open Scope Q_scope.

Lemma pow2_pos e : 0 < pow2 e.
Proof. unfold pow2. apply Qpower_0_lt. reflexivity. Qed.

Lemma pow2_le a b : (a <= b)%Z -> pow2 a <= pow2 b.
Proof. intros Hab. unfold pow2. apply Qpower_le_compat_l; [exact Hab | discriminate]. Qed.

Lemma pow2_lt_inv a b : pow2 a < pow2 b -> (a < b)%Z.
Proof. intros Hab. unfold pow2 in Hab. eapply Qpower_lt_compat_l_inv; [exact Hab | reflexivity]. Qed.

Lemma pow2_plus a b : pow2 (a + b) == pow2 a * pow2 b.
Proof. unfold pow2. apply Qpower_plus. discriminate. Qed.

Lemma pow2_inject (k : Z) : (0 <= k)%Z -> inject_Z (2 ^ k) == pow2 k.
Proof. intros Hk. unfold pow2. now rewrite Zpower_Qpower. Qed.

(** *** Rounding to an integer *)

Lemma round_half_even_bounds x :
  (Qfloor x <= round_half_even x <= Qfloor x + 1)%Z.
Proof.
  unfold round_half_even.
  destruct (x - inject_Z (Qfloor x) ?= 1 # 2); [destruct (Z.even _) | |]; lia.
Qed.

Lemma round_half_even_ge (k : Z) x : inject_Z k <= x -> (k <= round_half_even x)%Z.
Proof.
  intros Hk. pose proof (round_half_even_bounds x) as [Hlow _].
  assert (k <= Qfloor x)%Z; [|lia].
  rewrite <- (Qfloor_Z k). now apply Qfloor_resp_le.
Qed.

Lemma round_half_even_le (k : Z) x : x <= inject_Z k -> (round_half_even x <= k)%Z.
Proof.
  intros Hk. pose proof (round_half_even_bounds x) as [_ Hup].
  assert (Hf : (Qfloor x <= k)%Z).
  { rewrite <- (Qfloor_Z k). now apply Qfloor_resp_le. }
  destruct (Z.eq_dec (Qfloor x) k) as [E|Hne]; [|lia].
  assert (Hx : x == inject_Z k).
  { apply Qle_antisym; [exact Hk |]. rewrite <- E. apply Qfloor_le. }
  unfold round_half_even. rewrite E.
  assert (Hc : (x - inject_Z k ?= 1 # 2) = Lt).
  { apply (proj1 (Qlt_alt _ _)). rewrite Hx. lra. }
  rewrite Hc. lia.
Qed.

Lemma round_half_even_mono x y : x <= y -> (round_half_even x <= round_half_even y)%Z.
Proof.
  intros Hxy.
  pose proof (Qfloor_resp_le _ _ Hxy) as Hf.
  pose proof (round_half_even_bounds x) as [Hxl Hxu].
  pose proof (round_half_even_bounds y) as [Hyl Hyu].
  destruct (Z.eq_dec (Qfloor x) (Qfloor y)) as [E|Hne]; [|lia].
  unfold round_half_even in *. rewrite <- E in *.
  destruct (x - inject_Z (Qfloor x) ?= 1 # 2) eqn:Hx;
    destruct (y - inject_Z (Qfloor x) ?= 1 # 2) eqn:Hy;
    try (destruct (Z.even (Qfloor x))); try lia; exfalso;
    repeat match goal with
           | C : (_ ?= _) = Eq |- _ => apply Qeq_alt in C
           | C : (_ ?= _) = Lt |- _ => apply Qlt_alt in C
           | C : (_ ?= _) = Gt |- _ => apply Qgt_alt in C
           end; lra.
Qed.

(** *** The binary logarithm *)

Lemma Zlog2_bounds (n : positive) :
  inject_Z (2 ^ Z.log2 (Zpos n)) <= inject_Z (Zpos n)
  /\ inject_Z (Zpos n) < inject_Z (2 ^ (Z.log2 (Zpos n) + 1)).
Proof.
  pose proof (Z.log2_spec (Zpos n) eq_refl) as [Hl Hu].
  rewrite <- Z.add_1_r in Hu.
  split; [now rewrite <- Zle_Qle | now rewrite <- Zlt_Qlt].
Qed.

Lemma ilog2_spec q : 0 < q -> pow2 (ilog2 q) <= q /\ q < pow2 (ilog2 q + 1).
Proof.
  intros Hq. destruct q as [n d]. 
  assert (Hn : (0 < n)%Z) by (unfold Qlt in Hq; cbn in Hq; lia).
  destruct n as [|n|n]; try lia.
  unfold ilog2. cbn [Qnum Qden].
  set (ln := Z.log2 (Zpos n)). set (ld := Z.log2 (Zpos d)).
  pose proof (Zlog2_bounds n) as [Hn1 Hn2]. fold ln in Hn1, Hn2.
  pose proof (Zlog2_bounds d) as [Hd1 Hd2]. fold ld in Hd1, Hd2.
  assert (Hln : (0 <= ln)%Z) by apply Z.log2_nonneg.
  assert (Hld : (0 <= ld)%Z) by apply Z.log2_nonneg.
  rewrite pow2_inject in Hn1, Hn2, Hd1, Hd2 by lia.
  assert (Hq' : Zpos n # d == inject_Z (Zpos n) / inject_Z (Zpos d)) by apply Qmake_Qdiv.
  assert (Hdpos : 0 < inject_Z (Zpos d)) by (rewrite <- (Zlt_Qlt 0); lia).
  assert (Hmul : (Zpos n # d) * inject_Z (Zpos d) == inject_Z (Zpos n)).
  { rewrite Hq'. field. intros E. rewrite E in Hdpos. lra. }
  (* 2^(ln - ld - 1) < q < 2^(ln - ld + 1) *)
  assert (Hup : Zpos n # d < pow2 (ln - ld + 1)).
  { apply Qmult_lt_r with (z := inject_Z (Zpos d)); [exact Hdpos |].
    rewrite Hmul.
    apply Qlt_le_trans with (1 := Hn2).
    replace (ln + 1)%Z with ((ln - ld + 1) + ld)%Z by lia.
    rewrite pow2_plus. apply Qmult_le_l; [apply pow2_pos | exact Hd1]. }
  assert (Hlow : pow2 (ln - ld - 1) < Zpos n # d).
  { apply Qmult_lt_r with (z := inject_Z (Zpos d)); [exact Hdpos |].
    rewrite Hmul.
    apply Qlt_le_trans with (2 := Hn1).
    replace ln with ((ln - ld - 1) + (ld + 1))%Z at 2 by lia.
    rewrite pow2_plus. apply Qmult_lt_l; [apply pow2_pos | exact Hd2]. }
  destruct (Qle_bool (pow2 (ln - ld)) (Zpos n # d)) eqn:Hc.
  - apply Qle_bool_iff in Hc. split; assumption.
  - assert (Hlt : Zpos n # d < pow2 (ln - ld)).
    { apply Qnot_le_lt. intros Hle. apply Qle_bool_iff in Hle. congruence. }
    replace (ln - ld - 1 + 1)%Z with (ln - ld)%Z by lia.
    split; [apply Qlt_le_weak; exact Hlow | exact Hlt].
Qed.

Lemma ilog2_mono x y : 0 < x -> x <= y -> (ilog2 x <= ilog2 y)%Z.
Proof.
  intros Hx Hxy.
  destruct (ilog2_spec Hx) as [Hx1 _].
  destruct (@ilog2_spec y) as [_ Hy2]; [lra |].
  assert (Hlt : pow2 (ilog2 x) < pow2 (ilog2 y + 1)) by lra.
  apply pow2_lt_inv in Hlt. lia.
Qed.

(** *** Rounding is monotone *)

Lemma binary64_exponent_mono x y :
  0 < x -> x <= y -> (binary64_exponent x <= binary64_exponent y)%Z.
Proof.
  intros Hx Hxy. unfold binary64_exponent.
  pose proof (ilog2_mono Hx Hxy). lia.
Qed.

Lemma Qdiv_pow2_le x y e : x <= y -> x / pow2 e <= y / pow2 e.
Proof.
  intros Hxy. unfold Qdiv. apply Qmult_le_compat_r; [exact Hxy |].
  apply Qinv_le_0_compat. apply Qlt_le_weak, pow2_pos.
Qed.

Lemma rounded_value_upper q :
  0 < q -> rounded_value q <= pow2 (binary64_exponent q + 53).
Proof.
  intros Hq. unfold rounded_value.
  set (e := binary64_exponent q).
  destruct (ilog2_spec Hq) as [_ Hup].
  assert (He : (ilog2 q + 1 <= e + 53)%Z) by (unfold e, binary64_exponent; lia).
  assert (Hscaled : q / pow2 e <= inject_Z (2 ^ 53)).
  { rewrite pow2_inject by lia.
    apply Qle_shift_div_r; [apply pow2_pos |].
    rewrite <- pow2_plus. rewrite Z.add_comm.
    apply Qlt_le_weak. apply Qlt_le_trans with (1 := Hup). now apply pow2_le. }
  apply round_half_even_le in Hscaled.
  rewrite Z.add_comm, pow2_plus, <- (pow2_inject (k := 53)) by lia.
  apply Qmult_le_compat_r; [|apply Qlt_le_weak, pow2_pos].
  now rewrite <- Zle_Qle.
Qed.

Lemma rounded_value_lower q :
  0 < q -> (-1074 < binary64_exponent q)%Z ->
  pow2 (binary64_exponent q + 52) <= rounded_value q.
Proof.
  intros Hq Hnormal. unfold rounded_value.
  set (e := binary64_exponent q) in *.
  destruct (ilog2_spec Hq) as [Hlow _].
  assert (He : (ilog2 q = e + 52)%Z) by (unfold e, binary64_exponent in *; lia).
  assert (Hscaled : inject_Z (2 ^ 52) <= q / pow2 e).
  { rewrite pow2_inject by lia.
    apply Qle_shift_div_l; [apply pow2_pos |].
    rewrite <- pow2_plus. rewrite Z.add_comm, <- He. exact Hlow. }
  apply round_half_even_ge in Hscaled.
  rewrite Z.add_comm, pow2_plus, <- (pow2_inject (k := 52)) by lia.
  apply Qmult_le_compat_r; [|apply Qlt_le_weak, pow2_pos].
  now rewrite <- Zle_Qle.
Qed.

Lemma rounded_value_nonneg q : 0 < q -> 0 <= rounded_value q.
Proof.
  intros Hq. unfold rounded_value.
  apply Qmult_le_0_compat; [|apply Qlt_le_weak, pow2_pos].
  rewrite <- (Zle_Qle 0). apply (@round_half_even_ge 0).
  apply Qle_shift_div_l; [apply pow2_pos |]. change (inject_Z 0) with 0. lra.
Qed.

Lemma rounded_value_mono x y : 0 < x -> x <= y -> rounded_value x <= rounded_value y.
Proof.
  intros Hx Hxy.
  assert (Hy : 0 < y) by lra.
  pose proof (binary64_exponent_mono Hx Hxy) as He.
  destruct (Z.eq_dec (binary64_exponent x) (binary64_exponent y)) as [E|Hne].
  - unfold rounded_value. rewrite E.
    apply Qmult_le_compat_r; [|apply Qlt_le_weak, pow2_pos].
    rewrite <- Zle_Qle. apply round_half_even_mono. now apply Qdiv_pow2_le.
  - apply Qle_trans with (1 := rounded_value_upper Hx).
    apply Qle_trans with (2 := rounded_value_lower Hy ltac:(unfold binary64_exponent in *; lia)).
    apply pow2_le. lia.
Qed.

Lemma round_positive_mono x y :
  0 < x -> x <= y -> fle (round_positive x) (round_positive y) = true.
Proof.
  intros Hx Hxy. pose proof (rounded_value_mono Hx Hxy) as Hv.
  unfold round_positive. fold (rounded_value x). fold (rounded_value y).
  destruct (Qle_bool (pow2 1024) (rounded_value y)) eqn:Hy.
  - destruct (Qle_bool (pow2 1024) (rounded_value x)); reflexivity.
  - destruct (Qle_bool (pow2 1024) (rounded_value x)) eqn:Hox.
    + exfalso. apply Qle_bool_iff in Hox.
      assert (Hoy : Qle_bool (pow2 1024) (rounded_value y) = true)
        by (apply Qle_bool_iff; lra).
      congruence.
    + apply fle_finite. now rewrite !Qred_correct.
Qed.

Lemma round_positive_nonneg q : 0 < q -> fle (FFin 0) (round_positive q) = true.
Proof.
  intros Hq. unfold round_positive. fold (rounded_value q).
  destruct (Qle_bool (pow2 1024) (rounded_value q)); [reflexivity |].
  apply fle_finite. rewrite Qred_correct. now apply rounded_value_nonneg.
Qed.

Lemma fle_fneg a b : fle (fneg a) (fneg b) = fle b a.
Proof.
  destruct a as [|[|]|x], b as [|[|]|y]; try reflexivity.
  cbn [fneg]. unfold fle, flt. f_equal. unfold Qlt_bool. f_equal.
  apply eq_true_iff_eq. rewrite !Qle_bool_iff. split; intros; lra.
Qed.

Lemma fle_trans_zero a b :
  fle a (FFin 0) = true -> fle (FFin 0) b = true -> fle a b = true.
Proof.
  destruct a as [|[|]|x], b as [|[|]|y]; try reflexivity; try discriminate.
  rewrite !fle_finite. intros. lra.
Qed.

(** Rounding to binary64 is monotone. *)
Lemma round_binary64_mono x y :
  x <= y -> fle (round_binary64 x) (round_binary64 y) = true.
Proof.
  intros Hxy. unfold round_binary64.
  destruct (x ?= 0) eqn:Cx; destruct (y ?= 0) eqn:Cy;
    repeat match goal with
           | C : (_ ?= _) = Eq |- _ => apply Qeq_alt in C
           | C : (_ ?= _) = Lt |- _ => apply Qlt_alt in C
           | C : (_ ?= _) = Gt |- _ => apply Qgt_alt in C
           end; try (exfalso; lra).
  - reflexivity.
  - apply round_positive_nonneg. lra.
  - change (FFin 0) with (fneg (FFin 0)). rewrite fle_fneg.
    apply round_positive_nonneg. lra.
  - rewrite fle_fneg. apply round_positive_mono; lra.
  - apply fle_trans_zero.
    + change (FFin 0) with (fneg (FFin 0)). rewrite fle_fneg.
      apply round_positive_nonneg. lra.
    + apply round_positive_nonneg. lra.
  - apply round_positive_mono; lra.
Qed.
End Binary64.

Section Penalty.
Context `{PyRuntime}.

(** Subtracting a float that is not negative, the positive infinity
    included, and clamping does not raise a float of the unit interval,
    when the rounding of the arithmetic is monotone and leaves floats as
    they are. *)
Lemma penalty_does_not_increase (q : Q) (r : pyfloat) :
  (forall x y, (x <= y)%Q -> fle (float_round x) (float_round y) = true) ->
  float_round q = FFin q ->
  (0 <= q <= 1)%Q ->
  fge r (FFin 0) = true ->
  fle (clamp01 (fsub (FFin q) r)) (FFin q) = true.
Proof.
  intros Hmono Hfloat Hq Hge.
  destruct (fge_zero_cases r Hge) as [->|(x & -> & Hx)].
  - apply fle_finite. lra.
  - apply clamp01_le; [exact Hq |].
    unfold fsub, fsub_rounded. rewrite <- Hfloat. apply Hmono. lra.
Qed.
End Penalty.

(** C4.  In every review that returns, the confidence returned is the
    penalty step applied to the confidence [c] that
    [_coerce_feedback_shape] made of the reviewer's answer, a float of
    [0,1], and to the number [r] found under [confidence_reduction] in the
    report of the hallucination analysis of that very feedback: it is the
    float difference [c - r] clamped to [0,1].  It lies in [0,1] whatever
    [r] is; and for [r] not negative, the positive infinity included, it
    does not exceed [c], the rounding of the float subtraction being
    monotone and [c] being a float. *)
Theorem final_confidence_is_clamped_difference `{PyRuntime} `{Collaborators}
    (raw agent2_output result : pyval) :
  run_review_agent raw agent2_output = Ok result ->
  exists d renal_out extracted issues recs c recommendation reduction r final,
    let patient := PDict (normalize_fields d) in
    let hall := detect_and_score_statements (feedback_payload issues recs c)
                  patient (PDict [("renal", renal_out)]) in
    raw = PDict d
    /\ filter_renal_checks (run_renal_tool patient) = Ok renal_out
    /\ extract_json_from_text
         (call_llm (review_prompt raw patient renal_out agent2_output)) = Ok extracted
    /\ _coerce_feedback_shape (if py_truthy extracted then extracted else PDict [])
       = Ok (issues, recs, c)
    /\ in_unit_interval c
    /\ py_getitem hall "recommendation" = Ok recommendation
    /\ py_getitem recommendation "confidence_reduction" = Ok reduction
    /\ float_operand reduction = Ok r
    /\ final = clamp01 (fsub c r)
    /\ py_getitem result "confidence" = Ok (PFloat final)
    /\ in_unit_interval final
    /\ (fge r (FFin 0) = true ->
        (forall x y, (x <= y)%Q -> fle (float_round x) (float_round y) = true) ->
        (forall q, c = FFin q -> float_round q = FFin q) ->
        fle final c = true).
Proof.
  intros Hr. apply run_review_agent_inv in Hr.
  destruct Hr as (d & renal_out & extracted & issues & recs & c & final & Hr).
  cbn zeta in Hr. destruct Hr as (-> & Hrenal & Hextract & Hcoerce & Hpen & ->).
  pose proof (coerce_feedback_shape_inv _ Hcoerce) as (_ & _ & Hc).
  unfold apply_penalty in Hpen.
  inv_bind Hpen. inv_bind Hpen. inv_bind Hpen. injection Hpen as <-.
  exists d, renal_out, extracted, issues, recs, c, a, a0, a1, (clamp01 (fsub c a1)).
  cbn zeta.
  repeat match goal with |- _ /\ _ => split end; auto using clamp01_unit.
  intros Hge Hmono Hfloat.
  destruct c as [| |q]; try contradiction.
  apply penalty_does_not_increase; auto.
Qed.

Lemma final_confidence_is_clamped_difference_witness :
  exists result c r final,
    run_review_agent (H := binary64_runtime) (H0 := penalised_collaborators)
      sample_patient sample_agent2_output = Ok result
    /\ c = round_binary64 (4 # 5)
    /\ r = round_binary64 (1 # 10)
    /\ final = clamp01 (fsub (H := binary64_runtime) c r)
    /\ final = FFin (6305039478318695 # 9007199254740992)
    /\ py_getitem result "confidence" = Ok (PFloat final)
    /\ in_unit_interval final
    /\ fle final c = true.
Proof.
  destruct (run_review_agent (H := binary64_runtime) (H0 := penalised_collaborators)
              sample_patient sample_agent2_output) as [result|e] eqn:Hrun;
    [|vm_compute in Hrun; discriminate Hrun].
  destruct (final_confidence_is_clamped_difference
              (H := binary64_runtime) (H0 := penalised_collaborators) _ _ Hrun)
    as (d & renal_out & extracted & issues & recs & c & recommendation & reduction
        & r & final & Hw).
  cbn zeta in Hw.
  destruct Hw as (_ & _ & Hextract & Hcoerce & Hc & Hrec & Hred & Hop & Hfinal & Hconf
                  & Hunit & Hle).
  assert (Hr : r = round_binary64 (1 # 10)).
  { cbn in Hrec. injection Hrec as <-. cbn in Hred. injection Hred as <-.
    cbn in Hop. now injection Hop as <-. }
  assert (Hcv : c = round_binary64 (4 # 5)).
  { vm_compute in Hextract. injection Hextract as <-.
    vm_compute in Hcoerce. injection Hcoerce as _ _ <-.
    vm_compute. reflexivity. }
  exists result, c, r, final.
  repeat match goal with |- _ /\ _ => split end; auto.
  - rewrite Hfinal, Hcv, Hr. vm_compute. reflexivity.
  - apply Hle.
    + rewrite Hr. vm_compute. reflexivity.
    + intros x y Hxy. now apply round_binary64_mono.
    + intros q Hq. rewrite Hcv in Hq. vm_compute in Hq. injection Hq as <-.
      vm_compute. reflexivity.
Defined.

(* ===================================================================== *)
(** * The model score                                                      *)
(* ===================================================================== *)

(** C3 (as amended).  [score_agent2] returns [None] when no mapping with
    the key [agent2_confidence] is recovered from the completion or when
    [float] raises on the value found; in every other case, an
    out-of-range value included, it returns the value clamped into [0,1].
    A score it returns is always a finite number of [0,1]. *)
Theorem score_agent2_clamped_or_absent `{PyRuntime} `{Collaborators}
    (agent2_output patient_data renal_out : pyval) :
  score_agent2 agent2_output patient_data renal_out
  = match extract_json_from_text
            (call_llm (score_prompt agent2_output patient_data renal_out)) with
    | Ok (PDict d) =>
        match dict_get d "agent2_confidence" with
        | Some v =>
            match py_float v with
            | Ok val => PFloat (clamp01 val)
            | Raise _ => PNone
            end
        | None => PNone
        end
    | _ => PNone
    end
  /\ match score_agent2 agent2_output patient_data renal_out with
     | PNone => True
     | PFloat score => in_unit_interval score
     | _ => False
     end.
Proof.
  unfold score_agent2, parse_score.
  destruct (extract_json_from_text _) as [[| | | | | |d]|]; cbn; auto.
  destruct (dict_get d "agent2_confidence") as [v|]; cbn; auto.
  destruct (py_float v) as [val|]; cbn; auto using clamp01_unit.
Qed.

(** C3, counterexample.  A completion that rates the candidate 1.7, out of
    range, is not treated as unavailable: the score is 1.0, not [None]. *)
Lemma score_agent2_out_of_range_is_clamped :
  extract_json_from_text (H := sample_runtime) ("{" ++ q "agent2_confidence" ++ ": 1.7}")
  = Ok (PDict [("agent2_confidence", PFloat (FFin (17 # 10)))])
  /\ score_agent2 (H := sample_runtime) (H0 := overrating_collaborators)
       sample_agent2_output sample_patient sample_tool_output
     = PFloat (FFin 1)
  /\ score_agent2 (H := sample_runtime) (H0 := overrating_collaborators)
       sample_agent2_output sample_patient sample_tool_output
     <> PNone.
Proof.
  split; [vm_compute; reflexivity |].
  split; [vm_compute; reflexivity |].
  vm_compute. discriminate.
Qed.

(* ===================================================================== *)
(** * Text lemmas                                                          *)
(* ===================================================================== *)

Lemma chars_of_chars (cs : list ascii) : chars (of_chars cs) = cs.
Proof. apply list_ascii_of_string_of_list_ascii. Qed.

Lemma of_chars_chars (s : string) : of_chars (chars s) = s.
Proof. apply string_of_list_ascii_of_string. Qed.

Lemma ltrim_incl cs c : In c (ltrim cs) -> In c cs.
Proof.
  induction cs as [|d rest IH]; cbn; [tauto |].
  destruct (is_space d); cbn; tauto.
Qed.

Lemma rtrim_incl cs c : In c (rtrim cs) -> In c cs.
Proof.
  induction cs as [|d rest IH]; cbn; [tauto |].
  destruct (rtrim rest) as [|e kept].
  - destruct (is_space d); cbn; tauto.
  - cbn in *. tauto.
Qed.

Lemma has_comma_strip (s : string) :
  has_comma s = false -> has_comma (str_strip s) = false.
Proof.
  unfold has_comma, str_strip. rewrite chars_of_chars.
  intros Hno. apply not_true_iff_false. intros Hyes.
  apply existsb_exists in Hyes. destruct Hyes as (c & Hin & Hc).
  apply rtrim_incl, ltrim_incl in Hin.
  assert (existsb (fun c => is_char c ",") (chars s) = true)
    by (apply existsb_exists; eauto).
  congruence.
Qed.

Lemma split_comma_from_no_comma cur cs :
  existsb (fun c => is_char c ",") cs = false ->
  split_comma_from cur cs = [(rev cur ++ cs)%list].
Proof.
  revert cur. induction cs as [|c rest IH]; intros cur Hno; cbn.
  - now rewrite app_nil_r.
  - cbn in Hno. apply orb_false_iff in Hno. destruct Hno as [Hc Hrest].
    rewrite Hc, IH by exact Hrest. cbn. now rewrite <- app_assoc.
Qed.

Lemma str_split_comma_no_comma (s : string) :
  has_comma s = false -> str_split_comma s = [s].
Proof.
  intros Hno. unfold str_split_comma.
  rewrite split_comma_from_no_comma by exact Hno.
  cbn. now rewrite of_chars_chars.
Qed.

(* ===================================================================== *)
(** * load_patient_data                                                    *)
(* ===================================================================== *)

(** C10 (as amended).  On a text that holds no comma, what
    [load_patient_data] does is decided by the decoder on the stripped
    text: the decoded value when it returns one; the mapping with the
    single key [raw_text] and the stripped text as its value when it raises
    a [JSONDecodeError]; and a failure with the decoder's exception when it
    raises another one, which [except json.JSONDecodeError] does not
    catch. *)
Theorem load_patient_data_free_text `{PyRuntime} (file_text : string) :
  has_comma file_text = false ->
  match json_loads (str_strip file_text) with
  | Ok v => load_patient_data file_text = Ok v
  | Raise JSONDecodeError =>
      load_patient_data file_text
      = Ok (PDict [("raw_text", PStr (str_strip file_text))])
  | Raise e => load_patient_data file_text = Raise e
  end.
Proof.
  intros Hno. unfold load_patient_data.
  destruct (json_loads (str_strip file_text)) as [v|[]];
    cbn [except_JSONDecodeError]; try reflexivity.
  rewrite str_split_comma_no_comma by (apply has_comma_strip; exact Hno).
  reflexivity.
Qed.

(* ===================================================================== *)
(** * extract_json_from_text                                               *)
(* ===================================================================== *)
Lemma except_JSONDecodeError_caught {A} (body handler : res A) :
  handler <> Raise JSONDecodeError ->
  except_JSONDecodeError body handler <> Raise JSONDecodeError.
Proof.
  intros Hh. destruct body as [a|[]]; cbn; try discriminate. exact Hh.
Qed.

Lemma from_first_lbrace_head cs b rest :
  from_first_lbrace cs = Some (b :: rest) -> is_char b "{" = true.
Proof.
  induction cs as [|c cs IH]; [discriminate |].
  cbn [from_first_lbrace]. destruct (is_char c "{") eqn:Hc; [|exact IH].
  intros [= <- _]. exact Hc.
Qed.

Section Extract.
Context `{PyRuntime}.

Lemma brace_count_stage_caught candidate :
  brace_count_stage candidate <> Raise JSONDecodeError.
Proof.
  unfold brace_count_stage.
  destruct (from_first_lbrace _); [|discriminate].
  destruct (first_balanced_object _); [|discriminate].
  apply except_JSONDecodeError_caught. discriminate.
Qed.

Lemma extract_json_from_text_caught text :
  extract_json_from_text text <> Raise JSONDecodeError.
Proof.
  unfold extract_json_from_text.
  destruct (String.eqb text ""); [discriminate |].
  apply except_JSONDecodeError_caught.
  destruct (search_brace_block _); [|discriminate].
  repeat apply except_JSONDecodeError_caught.
  apply brace_count_stage_caught.
Qed.

Lemma search_brace_block_has_lbrace s candidate :
  search_brace_block s = Some candidate ->
  exists cs, from_first_lbrace (chars candidate) = Some cs.
Proof.
  unfold search_brace_block.
  destruct (from_first_lbrace (chars s)) as [[|b rest]|] eqn:E; try discriminate.
  destruct (through_last_rbrace rest) as [p|]; try discriminate.
  intros [= <-].
  change (String b (of_chars p)) with (of_chars (b :: p)). rewrite chars_of_chars.
  apply from_first_lbrace_head in E.
  cbn [from_first_lbrace]. rewrite E. eauto.
Qed.

(** C2 (as amended).  [extract_json_from_text] never lets a
    [JSONDecodeError] out.  When the decoder fails on every text the
    repair chain submits, the result is the fixed safe default (confidence
    0.5, [approved] false) if the stripped text holds a brace span, an
    opening brace followed later by a closing one; without such a span,
    and so for a text without braces and for the empty text, it is
    [None]. *)
Theorem extract_unrecoverable_text (text : string) :
  extract_json_from_text text <> Raise JSONDecodeError
  /\ ((forall s, In s (parse_attempts text) -> json_loads s = Raise JSONDecodeError) ->
      extract_json_from_text text
      = Ok (match search_brace_block (stripped_text text) with
            | Some _ => SAFE_DEFAULT
            | None => PNone
            end)).
Proof.
  split; [apply extract_json_from_text_caught |].
  intros Hfail. unfold extract_json_from_text.
  destruct (String.eqb text "") eqn:Hempty.
  - apply String.eqb_eq in Hempty. subst text. reflexivity.
  - unfold parse_attempts in Hfail.
    rewrite (Hfail (stripped_text text)) by (left; reflexivity).
    cbn [except_JSONDecodeError].
    destruct (search_brace_block (stripped_text text)) as [candidate|] eqn:Hspan;
      [|reflexivity].
    rewrite (Hfail candidate) by (cbn; auto).
    rewrite (Hfail (remove_trailing_commas candidate)) by (cbn; auto).
    rewrite (Hfail (remove_trailing_commas (text_flatten candidate))) by (cbn; auto).
    cbn [except_JSONDecodeError].
    unfold brace_count_stage.
    destruct (search_brace_block_has_lbrace _ Hspan) as [cs ->].
    destruct (first_balanced_object candidate) as [partial|]; [|reflexivity].
    rewrite (Hfail partial) by (cbn; auto 6).
    reflexivity.
Qed.
End Extract.

Lemma extract_unrecoverable_text_witness :
  extract_json_from_text (H := sample_runtime) "{oops}" = Ok SAFE_DEFAULT.
Proof.
  apply (proj2 (extract_unrecoverable_text (H := sample_runtime) "{oops}")).
  intros s Hin. vm_compute in Hin.
  repeat (destruct Hin as [<-|Hin]; [vm_compute; reflexivity |]).
  destruct Hin.
Defined.

Lemma load_patient_data_free_text_witness :
  load_patient_data (H := sample_runtime) "  chest pain on exertion "
  = Ok (PDict [("raw_text", PStr "chest pain on exertion")]).
Proof.
  pose proof (load_patient_data_free_text (H := sample_runtime)
                "  chest pain on exertion " ltac:(vm_compute; reflexivity)) as Hfree.
  assert (Hjson : json_loads (PyRuntime := sample_runtime)
                    (str_strip "  chest pain on exertion ") = Raise JSONDecodeError)
    by (vm_compute; reflexivity).
  rewrite Hjson in Hfree. exact Hfree.
Defined.

(** C10, counterexample.  A text of two thousand opening brackets is no
    valid JSON and holds no comma; a decoder under the default recursion
    limit ends in a [RecursionError] on it, and so does
    [load_patient_data], instead of returning the [raw_text] mapping. *)
Lemma load_patient_data_fails_on_deep_nesting :
  Json.loads (repeat_text 2000 "[") = Raise JSONDecodeError
  /\ has_comma (repeat_text 2000 "[") = false
  /\ str_strip (repeat_text 2000 "[") = repeat_text 2000 "["
  /\ load_patient_data (H := recursion_limited_runtime) (repeat_text 2000 "[")
     = Raise RecursionError.
Proof. repeat split; vm_compute; reflexivity. Qed.

(** C2, counterexample.  On a text without braces the decoder fails, no
    brace span is found, and the result is [None], not the safe default. *)
Lemma extract_without_braces_returns_None :
  Json.loads (stripped_text "no json here") = Raise JSONDecodeError
  /\ search_brace_block (stripped_text "no json here") = None
  /\ extract_json_from_text (H := sample_runtime) "no json here" = Ok PNone
  /\ extract_json_from_text (H := sample_runtime) "no json here" <> Ok SAFE_DEFAULT.
Proof.
  repeat split; try (vm_compute; reflexivity).
  vm_compute. discriminate.
Qed.

(** C7.  On the review response of Scenario C, an object with a trailing
    comma after some prose, whatever the rest of the runtime: the brace
    span is the object, the decoder refuses it as it is, and the result is
    the mapping of the object without the comma. *)
Theorem extract_scenario_C
    (dumps dumps_unicode str : pyval -> string) (float : string -> option pyfloat) :
  let object_text :=
    ("{" ++ q "issues" ++ ": [" ++ q "a" ++ "], " ++ q "recommendations" ++ ": ["
     ++ q "b" ++ "], " ++ q "confidence" ++ ": 0.8,}")%string in
  scenario_C_text = ("sure, here: " ++ object_text)%string
  /\ search_brace_block (stripped_text scenario_C_text) = Some object_text
  /\ Json.loads object_text = Raise JSONDecodeError
  /\ extract_json_from_text (H := runtime_with_decoder dumps dumps_unicode str float)
       scenario_C_text
     = Ok (PDict [ ("issues", PList [PStr "a"]);
                   ("recommendations", PList [PStr "b"]);
                   ("confidence", PFloat (FFin (4 # 5))) ]).
Proof.
  cbv zeta. repeat split; vm_compute; reflexivity.
Qed.

(* ===================================================================== *)
(** * normalize_fields                                                     *)
(* ===================================================================== *)

(** ** lower and strip *)

Lemma lower_char_idem c : lower_char (lower_char c) = lower_char c.
Proof.
  destruct c as [[] [] [] [] [] [] [] []]; reflexivity.
Qed.

Lemma is_space_lower_char c : is_space (lower_char c) = is_space c.
Proof.
  destruct c as [[] [] [] [] [] [] [] []]; reflexivity.
Qed.

Lemma ltrim_map_lower cs : ltrim (map lower_char cs) = map lower_char (ltrim cs).
Proof.
  induction cs as [|c rest IH]; [reflexivity |].
  cbn. rewrite is_space_lower_char. destruct (is_space c); [exact IH | reflexivity].
Qed.

Lemma rtrim_map_lower cs : rtrim (map lower_char cs) = map lower_char (rtrim cs).
Proof.
  induction cs as [|c rest IH]; [reflexivity |].
  cbn. rewrite IH, is_space_lower_char.
  destruct (rtrim rest); cbn; [destruct (is_space c) |]; reflexivity.
Qed.

Lemma rtrim_idem cs : rtrim (rtrim cs) = rtrim cs.
Proof.
  induction cs as [|c rest IH]; [reflexivity |].
  cbn. destruct (rtrim rest) as [|k kept] eqn:E.
  - destruct (is_space c) eqn:Hc; cbn; [reflexivity |]. now rewrite Hc.
  - cbn [rtrim] in *. now rewrite IH.
Qed.

Lemma ltrim_rtrim_ltrim cs : ltrim (rtrim (ltrim cs)) = rtrim (ltrim cs).
Proof.
  induction cs as [|c rest IH]; [reflexivity |].
  cbn [ltrim]. destruct (is_space c) eqn:Hc; [exact IH |].
  cbn [rtrim]. destruct (rtrim rest); rewrite ?Hc; cbn [ltrim]; now rewrite Hc.
Qed.

Lemma strip_lower_idem (k : string) :
  str_strip (str_lower (str_strip (str_lower k))) = str_strip (str_lower k).
Proof.
  unfold str_strip, str_lower.
  rewrite !list_ascii_of_string_of_list_ascii. f_equal.
  rewrite <- rtrim_map_lower, <- ltrim_map_lower, map_map.
  rewrite (map_ext _ lower_char lower_char_idem).
  rewrite ltrim_rtrim_ltrim. apply rtrim_idem.
Qed.

(** ** Dictionaries *)

Lemma dict_get_set d k v k' :
  dict_get (dict_set d k v) k' = if String.eqb k k' then Some v else dict_get d k'.
Proof.
  induction d as [|[k0 v0] rest IH]; cbn.
  - reflexivity.
  - destruct (String.eqb_spec k0 k) as [->|Hne]; cbn.
    + destruct (String.eqb k k'); reflexivity.
    + rewrite IH. destruct (String.eqb_spec k0 k') as [->|]; [|reflexivity].
      destruct (String.eqb_spec k k'); [congruence | reflexivity].
Qed.

Lemma dict_set_fresh d k v :
  ~ In k (dict_keys d) -> dict_set d k v = d ++ [(k, v)].
Proof.
  unfold dict_keys.
  induction d as [|[k0 v0] rest IH]; cbn; intros Hfresh; [reflexivity |].
  destruct (String.eqb_spec k0 k) as [->|_]; [tauto |].
  rewrite IH by tauto. reflexivity.
Qed.

Lemma dict_set_present d k v :
  In k (dict_keys d) -> dict_keys (dict_set d k v) = dict_keys d.
Proof.
  unfold dict_keys.
  induction d as [|[k0 v0] rest IH]; cbn; intros Hin; [tauto |].
  destruct (String.eqb_spec k0 k) as [->|Hne]; cbn; [reflexivity |].
  rewrite IH; [reflexivity |]. destruct Hin; [contradiction | assumption].
Qed.

Lemma dict_set_keys d k v :
  dict_keys (dict_set d k v)
  = if in_dec string_dec k (dict_keys d) then dict_keys d else dict_keys d ++ [k].
Proof.
  destruct (in_dec string_dec k (dict_keys d)) as [Hin|Hout].
  - now apply dict_set_present.
  - rewrite dict_set_fresh by exact Hout. unfold dict_keys. now rewrite map_app.
Qed.

Lemma find_snoc {A} (f : A -> bool) (l : list A) (a : A) :
  find f (l ++ [a])
  = match find f l with
    | Some y => Some y
    | None => if f a then Some a else None
    end.
Proof.
  induction l as [|b l IH]; cbn; [reflexivity |].
  destruct (f b); [reflexivity | exact IH].
Qed.

Lemma NoDup_snoc {A} (l : list A) (a : A) :
  NoDup l -> ~ In a l -> NoDup (l ++ [a]).
Proof.
  induction l as [|b l IH]; cbn; intros Hnd Hout.
  - constructor; [tauto | constructor].
  - inversion Hnd as [|? ? Hb Hl]; subst. constructor.
    + intros Hin. apply in_app_or in Hin. destruct Hin as [Hin|[->|[]]]; tauto.
    + apply IH; tauto.
Qed.

(** ** The normaliser *)

Lemma alias_lookup_In table k c :
  alias_lookup table k = Some c -> In (k, c) table.
Proof.
  induction table as [|[a c0] rest IH]; [discriminate |].
  cbn. destruct (String.eqb_spec a k) as [->|_].
  - intros [= ->]. now left.
  - auto.
Qed.

Lemma canonical_names_are_fixed :
  Forall (fun ac => canonical_key (snd ac) = snd ac) FIELD_ALIASES.
Proof. repeat constructor. Qed.

Lemma canonical_key_idem k : canonical_key (canonical_key k) = canonical_key k.
Proof.
  unfold canonical_key at 2 3.
  destruct (alias_lookup FIELD_ALIASES (str_strip (str_lower k))) as [c|] eqn:E.
  - apply alias_lookup_In in E.
    exact (proj1 (Forall_forall _ _) canonical_names_are_fixed _ E).
  - unfold canonical_key. rewrite strip_lower_idem, E. reflexivity.
Qed.

(** The keys of a normalised mapping are distinct and canonical. *)
Lemma fold_file_entry_keys x acc :
  NoDup (dict_keys acc) ->
  (forall k, In k (dict_keys acc) -> canonical_key k = k) ->
  NoDup (dict_keys (fold_left file_entry x acc))
  /\ (forall k, In k (dict_keys (fold_left file_entry x acc)) -> canonical_key k = k).
Proof.
  revert acc. induction x as [|[k v] x IH]; intros acc Hnd Hfix; [auto |].
  cbn [fold_left]. apply IH; unfold file_entry; cbn [fst snd];
    rewrite dict_set_keys;
    destruct (in_dec string_dec (canonical_key k) (dict_keys acc)) as [Hin|Hout];
    auto.
  - now apply NoDup_snoc.
  - intros k' Hin. apply in_app_or in Hin. destruct Hin as [Hin|[<-|[]]]; auto.
    apply canonical_key_idem.
Qed.

Lemma fold_file_entry_canonical d acc :
  NoDup (dict_keys acc ++ dict_keys d) ->
  (forall k, In k (dict_keys d) -> canonical_key k = k) ->
  fold_left file_entry d acc = acc ++ d.
Proof.
  revert acc. induction d as [|[k v] d IH]; intros acc Hnd Hfix.
  - now rewrite app_nil_r.
  - cbn [fold_left]. unfold file_entry at 2. cbn [fst snd].
    rewrite (Hfix k) by now left.
    rewrite dict_set_fresh.
    + rewrite IH.
      * now rewrite <- app_assoc.
      * unfold dict_keys in *. rewrite map_app, <- app_assoc. exact Hnd.
      * intros k' Hin. apply Hfix. now right.
    + intros Hin. apply NoDup_remove_2 in Hnd. apply Hnd.
      apply in_or_app. now left.
Qed.

Lemma normalize_fields_idem x :
  normalize_fields (normalize_fields x) = normalize_fields x.
Proof.
  destruct (@fold_file_entry_keys x [] (NoDup_nil _)) as [Hnd Hfix];
    [intros k [] |].
  change (normalize_fields x) with (fold_left file_entry x []) in *.
  change (normalize_fields (fold_left file_entry x []))
    with (fold_left file_entry (fold_left file_entry x []) []).
  now rewrite fold_file_entry_canonical.
Qed.

Lemma fold_file_entry_get x acc k :
  dict_get (fold_left file_entry x acc) k
  = match find (fun kv => String.eqb (canonical_key (fst kv)) k) (rev x) with
    | Some kv => Some (snd kv)
    | None => dict_get acc k
    end.
Proof.
  revert acc. induction x as [|kv x IH]; intros acc; [reflexivity |].
  cbn [fold_left rev]. rewrite IH, find_snoc.
  destruct (find _ (rev x)); [reflexivity |].
  unfold file_entry. rewrite dict_get_set.
  destruct (String.eqb (canonical_key (fst kv)) k); reflexivity.
Qed.

Lemma normalize_fields_get x k :
  dict_get (normalize_fields x) k = last_value_filed_under k x.
Proof.
  change (normalize_fields x) with (fold_left file_entry x []).
  rewrite fold_file_entry_get. unfold last_value_filed_under.
  destruct (find _ (rev x)); reflexivity.
Qed.

(** C5.  [normalize_fields] is a total function on mappings and is
    idempotent; every key of the alias table is filed under its canonical
    name; a key whose lower-cased and trimmed form is not in the table is
    filed under that form; and the value found under a key of the result
    is, untouched, the value of the last entry filed under it. *)
Theorem normalize_fields_idempotent_and_canonical :
  (forall x, normalize_fields (normalize_fields x) = normalize_fields x)
  /\ Forall (fun ac => forall v, normalize_fields [(fst ac, v)] = [(snd ac, v)])
            FIELD_ALIASES
  /\ (forall k v,
        alias_lookup FIELD_ALIASES (str_strip (str_lower k)) = None ->
        normalize_fields [(k, v)] = [(str_strip (str_lower k), v)])
  /\ (forall x k, dict_get (normalize_fields x) k = last_value_filed_under k x).
Proof.
  split; [exact normalize_fields_idem |].
  split; [repeat constructor |].
  split; [| exact normalize_fields_get].
  intros k v Hnone. unfold normalize_fields. cbn. unfold canonical_key.
  now rewrite Hnone.
Qed.

Lemma normalize_fields_idempotent_and_canonical_witness :
  normalize_fields [(" Age ", PInt 64)] = [("age", PInt 64)].
Proof.
  apply (proj1 (proj2 (proj2 normalize_fields_idempotent_and_canonical)) " Age " (PInt 64)).
  vm_compute. reflexivity.
Defined.

(* ===================================================================== *)
(** * The feedback loop                                                    *)
(* ===================================================================== *)

Lemma read_text_write_text disk path content path' :
  read_text (write_text disk path content) path'
  = if String.eqb path path' then Some content else read_text disk path'.
Proof.
  induction disk as [|[p c] rest IH]; cbn.
  - reflexivity.
  - destruct (String.eqb_spec p path) as [->|Hne]; cbn.
    + destruct (String.eqb path path'); reflexivity.
    + rewrite IH. destruct (String.eqb_spec p path') as [->|]; [|reflexivity].
      destruct (String.eqb_spec path path'); [congruence | reflexivity].
Qed.

Lemma path_exists_write_text disk path content path' :
  path_exists (write_text disk path content) path'
  = String.eqb path path' || path_exists disk path'.
Proof.
  unfold path_exists. rewrite read_text_write_text.
  destruct (String.eqb path path'); reflexivity.
Qed.

Lemma exit_condition_true n feedback :
  exit_condition n feedback = Ok true -> 2 <= n.
Proof.
  unfold exit_condition. destruct (2 <=? n)%nat eqn:E; [|discriminate].
  intros _. now apply Nat.leb_le.
Qed.

Lemma exit_condition_from_second n feedback :
  2 <= n -> exit_condition n feedback = confidence_reached feedback.
Proof.
  intros Hn. unfold exit_condition. apply Nat.leb_le in Hn. now rewrite Hn.
Qed.

Lemma confidence_reached_float (d : pydict) (c : pyfloat) :
  dict_get d "confidence" = Some (PFloat c) ->
  confidence_reached (PDict d) = Ok (fge c (FFin (3 # 4))).
Proof.
  intros Hc. unfold confidence_reached, py_get, dict_get_default.
  now rewrite Hc.
Qed.

Lemma stop_iteration_stops (conf : nat -> pyfloat) : stops_at conf (stop_iteration conf).
Proof.
  unfold stops_at, stop_iteration.
  destruct (confident conf 2) eqn:H2;
    [split; [lia |]; left; repeat split; auto; intros j Hj; lia |].
  destruct (confident conf 3) eqn:H3;
    [split; [lia |]; left; repeat split; auto; intros j Hj;
     replace j with 2 by lia; assumption |].
  destruct (confident conf 4) eqn:H4;
    [split; [lia |]; left; repeat split; auto; intros j Hj;
     assert (j = 2 \/ j = 3) as [->| ->] by lia; assumption |].
  destruct (confident conf 5) eqn:H5;
    [split; [lia |]; left; repeat split; auto; intros j Hj;
     assert (j = 2 \/ j = 3 \/ j = 4) as [->|[->| ->]] by lia; assumption |].
  split; [lia |].
  destruct (confident conf 6) eqn:H6.
  - left. repeat split; auto. intros j Hj.
    assert (j = 2 \/ j = 3 \/ j = 4 \/ j = 5) as [->|[->|[->| ->]]] by lia; assumption.
  - right. split; [reflexivity |]. intros j Hj.
    assert (j = 2 \/ j = 3 \/ j = 4 \/ j = 5 \/ j = 6) as [->|[->|[->|[->| ->]]]] by lia;
      assumption.
Qed.

Section SaveJson.
Context `{PyRuntime}.

Lemma save_json_inv obj path disk disk' :
  save_json obj path disk = Ok disk' ->
  saves obj = true /\ disk' = write_text disk path (json_dumps_unicode obj).
Proof.
  unfold save_json, saves.
  destruct (text_encodable (json_dumps_unicode obj)); [|discriminate].
  intros [= <-]. auto.
Qed.

Lemma save_json_saves obj path disk :
  saves obj = true ->
  save_json obj path disk = Ok (write_text disk path (json_dumps_unicode obj)).
Proof. unfold save_json, saves. now intros ->. Qed.
End SaveJson.

Section Loop.
Context `{PyRuntime} `{PipelineCollaborators}.
Variables patient ctx : pyval.

Lemma feedback_loop_step st :
  feedback_loop patient ctx st
  = if lt_dec (loop_count st) 6 then
      match loop_pass patient ctx st with
      | Raise e => Raise e
      | Ok (output, feedback, disk', true) => Ok (after_pass st output feedback disk')
      | Ok (output, feedback, disk', false) =>
          feedback_loop patient ctx (after_pass st output feedback disk')
      end
    else Ok st.
Proof.
  simp feedback_loop.
  destruct (lt_dec (loop_count st) 6); cbn; [|reflexivity].
  destruct (loop_pass patient ctx st) as [[[[output feedback] disk'] []]|]; reflexivity.
Qed.

(** Induction over the passes of a loop that returns. *)
Lemma feedback_loop_returns_ind (P : LoopState -> LoopState -> Prop) :
  (forall st, ~ loop_count st < 6 -> P st st) ->
  (forall st output feedback disk',
      loop_count st < 6 ->
      loop_pass patient ctx st = Ok (output, feedback, disk', true) ->
      P st (after_pass st output feedback disk')) ->
  (forall st output feedback disk' st',
      loop_count st < 6 ->
      loop_pass patient ctx st = Ok (output, feedback, disk', false) ->
      feedback_loop patient ctx (after_pass st output feedback disk') = Ok st' ->
      P (after_pass st output feedback disk') st' ->
      P st st') ->
  forall st st', feedback_loop patient ctx st = Ok st' -> P st st'.
Proof.
  intros Hdone Hbreak Hnext.
  assert (Hgen : forall m st st', 6 - loop_count st <= m ->
                   feedback_loop patient ctx st = Ok st' -> P st st').
  { induction m as [|m IH]; intros st st' Hm; rewrite feedback_loop_step;
      destruct (lt_dec (loop_count st) 6) as [Hlt|Hge];
      try (intros [= <-]; now apply Hdone); try lia.
    destruct (loop_pass patient ctx st) as [[[[output feedback] disk'] [|]]|] eqn:Hpass;
      try discriminate.
    - intros [= <-]. now apply Hbreak.
    - intros Hloop. apply (Hnext _ _ _ _ _ Hlt Hpass Hloop).
      apply IH; [cbn [after_pass loop_count]; lia | exact Hloop]. }
  intros st st'. now apply (Hgen (6 - loop_count st)).
Qed.

Lemma loop_pass_inv st output feedback disk' stop :
  loop_pass patient ctx st = Ok (output, feedback, disk', stop) ->
  run_agent2_2 (S (loop_count st)) patient ctx (review_feedback st) = Ok output
  /\ run_review_agent (H0 := reviewer_collaborators (S (loop_count st))) patient output
     = Ok feedback
  /\ exit_condition (S (loop_count st)) feedback = Ok stop
  /\ saves output = true /\ saves feedback = true
  /\ disk' = write_text
               (write_text (disk st) (agent2_loop_path (S (loop_count st)))
                  (json_dumps_unicode output))
               (agent3_review_loop_path (S (loop_count st)))
               (json_dumps_unicode feedback).
Proof.
  unfold loop_pass. intros Hp.
  inv_bind Hp. inv_bind Hp. inv_bind Hp. inv_bind Hp. inv_bind Hp.
  injection Hp as <- <- <- <-.
  repeat match goal with
         | E : save_json _ _ _ = Ok _ |- _ =>
             apply save_json_inv in E; destruct E as [? ->]
         end.
  auto 10.
Qed.

(** When the passes so far are those of [pass_results], one more pass is
    the next of them. *)
Lemma loop_pass_next st output feedback disk' stop :
  loop_pass patient ctx st = Ok (output, feedback, disk', stop) ->
  pass_results patient ctx (loop_count st)
  = Ok (final_agent2_output st, review_feedback st) ->
  pass_results patient ctx (S (loop_count st)) = Ok (output, feedback).
Proof.
  intros Hpass Hres. apply loop_pass_inv in Hpass.
  destruct Hpass as (Hgen & Hrev & _).
  cbn [pass_results]. rewrite Hres. cbn [bind]. rewrite Hgen. cbn [bind].
  now rewrite Hrev.
Qed.

(** The state of a loop that returns: the count is at most 6 and, when
    the loop was entered below 6, at least 2; candidate and feedback are
    those of the last pass. *)
Lemma feedback_loop_last_pass st st' :
  feedback_loop patient ctx st = Ok st' ->
  loop_count st <= 6 ->
  pass_results patient ctx (loop_count st)
  = Ok (final_agent2_output st, review_feedback st) ->
  pass_results patient ctx (loop_count st')
  = Ok (final_agent2_output st', review_feedback st')
  /\ loop_count st <= loop_count st' <= 6
  /\ (loop_count st < 6 -> 2 <= loop_count st').
Proof.
  intros Hloop. pattern st, st'. revert st st' Hloop.
  apply feedback_loop_returns_ind.
  - intros st Hge Hle Hres. repeat split; auto; lia.
  - intros st output feedback disk' Hlt Hpass _ Hres.
    pose proof (loop_pass_next _ Hpass Hres) as Hnext.
    apply loop_pass_inv in Hpass. destruct Hpass as (_ & _ & Hexit & _).
    cbn [after_pass loop_count final_agent2_output review_feedback].
    repeat split; try lia; [exact Hnext |].
    intros _. now apply exit_condition_true in Hexit.
  - intros st output feedback disk' st' Hlt Hpass _ IH _ Hres.
    pose proof (loop_pass_next _ Hpass Hres) as Hnext.
    cbn [after_pass loop_count final_agent2_output review_feedback] in IH.
    destruct IH as (Hlast & Hle & Hlow); [lia | exact Hnext |].
    repeat split; auto; lia.
Qed.

(** The passes of a loop that returns: the passes before the last one did
    not reach the threshold, and a last pass before the sixth did. *)
Lemma feedback_loop_first_stop st st' :
  feedback_loop patient ctx st = Ok st' ->
  pass_results patient ctx (loop_count st)
  = Ok (final_agent2_output st, review_feedback st) ->
  (forall k, 2 <= k <= loop_count st ->
     exists output fb, pass_results patient ctx k = Ok (output, fb)
                       /\ confidence_reached fb = Ok false) ->
  loop_count st <= loop_count st'
  /\ (loop_count st < 6 -> loop_count st < loop_count st')
  /\ (loop_count st < loop_count st' < 6 ->
      confidence_reached (review_feedback st') = Ok true)
  /\ (forall k, 2 <= k < loop_count st' ->
        exists output fb, pass_results patient ctx k = Ok (output, fb)
                          /\ confidence_reached fb = Ok false).
Proof.
  intros Hloop. pattern st, st'. revert st st' Hloop.
  apply feedback_loop_returns_ind.
  - intros st Hge Hres Hbefore.
    split; [lia |]. split; [lia |]. split; [lia |].
    intros k Hk. apply Hbefore. lia.
  - intros st output feedback disk' Hlt Hpass Hres Hbefore.
    apply loop_pass_inv in Hpass. destruct Hpass as (_ & _ & Hexit & _).
    cbn [after_pass loop_count review_feedback].
    split; [lia |]. split; [lia |]. split.
    + intros _. pose proof (exit_condition_true _ _ Hexit) as Htwo.
      now rewrite <- (exit_condition_from_second feedback Htwo).
    + intros k Hk. apply Hbefore. lia.
  - intros st output feedback disk' st' Hlt Hpass _ IH Hres Hbefore.
    pose proof (loop_pass_next _ Hpass Hres) as Hnext.
    apply loop_pass_inv in Hpass. destruct Hpass as (_ & _ & Hexit & _).
    cbn [after_pass loop_count final_agent2_output review_feedback] in IH.
    destruct IH as (Hle & Hgrow & Hstop & Hearlier); [exact Hnext | |].
    + intros k Hk. destruct (Nat.eq_dec k (S (loop_count st))) as [->|Hne].
      * exists output, feedback. split; [exact Hnext |].
        rewrite <- (exit_condition_from_second feedback (proj1 Hk)). exact Hexit.
      * apply Hbefore. lia.
    + split; [lia |]. split; [lia |]. split; [|exact Hearlier].
      intros Hk. apply Hstop. lia.
Qed.

(** The disk of a loop that returns: nothing is removed, and the two
    artifacts of every pass made are there. *)
Lemma feedback_loop_artifacts st st' :
  feedback_loop patient ctx st = Ok st' ->
  (forall p, path_exists (disk st) p = true -> path_exists (disk st') p = true)
  /\ (forall k, loop_count st < k <= loop_count st' ->
        path_exists (disk st') (agent2_loop_path k) = true
        /\ path_exists (disk st') (agent3_review_loop_path k) = true).
Proof.
  intros Hloop. pattern st, st'. revert st st' Hloop.
  assert (Hpass_disk : forall st output feedback disk' stop,
            loop_pass patient ctx st = Ok (output, feedback, disk', stop) ->
            (forall p, path_exists (disk st) p = true -> path_exists disk' p = true)
            /\ path_exists disk' (agent2_loop_path (S (loop_count st))) = true
            /\ path_exists disk' (agent3_review_loop_path (S (loop_count st))) = true).
  { intros st output feedback disk' stop Hpass.
    apply loop_pass_inv in Hpass. destruct Hpass as (_ & _ & _ & _ & _ & ->).
    split; [|split].
    - intros p Hp. rewrite !path_exists_write_text, Hp. now rewrite !orb_true_r.
    - rewrite !path_exists_write_text, String.eqb_refl. now rewrite orb_true_r.
    - rewrite path_exists_write_text, String.eqb_refl. reflexivity. }
  apply feedback_loop_returns_ind.
  - intros st _. split; [auto | intros k Hk; lia].
  - intros st output feedback disk' _ Hpass.
    destruct (Hpass_disk _ _ _ _ _ Hpass) as (Hkeep & H2 & H3).
    cbn [after_pass loop_count disk]. split; [exact Hkeep |].
    intros k Hk. replace k with (S (loop_count st)) by lia. auto.
  - intros st output feedback disk' st' _ Hpass _ [Hkeep' Hnew].
    destruct (Hpass_disk _ _ _ _ _ Hpass) as (Hkeep & H2 & H3).
    cbn [after_pass loop_count disk] in *. split; [auto |].
    intros k Hk. destruct (Nat.eq_dec k (S (loop_count st))) as [->|Hne].
    + auto.
    + apply Hnew. lia.
Qed.

(** A loop whose passes return and can be saved, with the confidences
    [conf], up to the iteration [stop_iteration conf], returns there. *)
Variable conf : nat -> pyfloat.

Hypothesis passes_return :
  forall k, 1 <= k <= stop_iteration conf ->
    exists output d,
      pass_results patient ctx k = Ok (output, PDict d)
      /\ dict_get d "confidence" = Some (PFloat (conf k))
      /\ saves output = true /\ saves (PDict d) = true.

Lemma loop_pass_returns st :
  loop_count st < stop_iteration conf ->
  pass_results patient ctx (loop_count st)
  = Ok (final_agent2_output st, review_feedback st) ->
  exists output feedback disk',
    loop_pass patient ctx st
    = Ok (output, feedback, disk',
          (2 <=? S (loop_count st))%nat && confident conf (S (loop_count st)))
    /\ pass_results patient ctx (S (loop_count st)) = Ok (output, feedback).
Proof.
  intros Hlt Hres.
  destruct (passes_return (k := S (loop_count st))) as (output & d & Hnext & Hconf & Hs1 & Hs2);
    [lia |].
  pose proof Hnext as Hnext'.
  cbn [pass_results] in Hnext. rewrite Hres in Hnext. cbn [bind] in Hnext.
  inv_bind Hnext. inv_bind Hnext. injection Hnext as -> ->.
  exists output, (PDict d). eexists.
  unfold loop_pass.
  match goal with E : run_agent2_2 _ _ _ _ = Ok _ |- _ => rewrite E end.
  cbn [bind]. rewrite save_json_saves by exact Hs1. cbn [bind].
  match goal with E : run_review_agent _ _ = Ok _ |- _ => rewrite E end.
  cbn [bind]. rewrite save_json_saves by exact Hs2. cbn [bind].
  unfold exit_condition.
  destruct (2 <=? S (loop_count st))%nat; cbn [bind andb].
  - fold (confidence_reached (PDict d)). rewrite (confidence_reached_float _ Hconf).
    cbn [bind]. unfold confident. auto.
  - auto.
Qed.

Lemma feedback_loop_stops m : forall st,
  loop_count st + S m = stop_iteration conf ->
  pass_results patient ctx (loop_count st)
  = Ok (final_agent2_output st, review_feedback st) ->
  exists st', feedback_loop patient ctx st = Ok st'
              /\ loop_count st' = stop_iteration conf.
Proof.
  pose proof (stop_iteration_stops conf) as (Hsix & Hstop).
  assert (Hfirst : forall j, 2 <= j < stop_iteration conf -> confident conf j = false).
  { destruct Hstop as [(_ & _ & Hfirst)|(_ & Hnone)]; [exact Hfirst |].
    intros j Hj. apply Hnone. lia. }
  assert (Hlast : stop_iteration conf < 6 ->
                  2 <= stop_iteration conf
                  /\ confident conf (stop_iteration conf) = true).
  { destruct Hstop as [(Htwo & Hconf & _)|(Hn & _)]; [auto | lia]. }
  induction m as [|m IH]; intros st Hcount Hres; rewrite feedback_loop_step;
    (destruct (lt_dec (loop_count st) 6) as [_|Hge]; [|lia]);
    (destruct (@loop_pass_returns st) as (output & feedback & disk' & -> & Hnext);
     [lia | exact Hres |]).
  - destruct ((2 <=? S (loop_count st))%nat && confident conf (S (loop_count st)))
      eqn:Hflag.
    + eexists. split; [reflexivity |]. cbn [after_pass loop_count]. lia.
    + rewrite feedback_loop_step.
      destruct (lt_dec (loop_count (after_pass st output feedback disk')) 6) as [Hlt|_].
      * exfalso. cbn [after_pass loop_count] in Hlt.
        destruct Hlast as [Htwo Hconf]; [lia |].
        replace (S (loop_count st)) with (stop_iteration conf) in Hflag by lia.
        rewrite Hconf, andb_true_r in Hflag. apply Nat.leb_gt in Hflag. lia.
      * eexists. split; [reflexivity |]. cbn [after_pass loop_count]. lia.
  - assert (Hflag : (2 <=? S (loop_count st))%nat && confident conf (S (loop_count st))
                    = false).
    { destruct (2 <=? S (loop_count st))%nat eqn:Htwo; [|reflexivity].
      apply Nat.leb_le in Htwo. cbn [andb]. apply Hfirst. lia. }
    rewrite Hflag. apply IH.
    + cbn [after_pass loop_count]. lia.
    + cbn [after_pass loop_count final_agent2_output review_feedback]. exact Hnext.
Qed.
End Loop.

Section Pipeline.
Context `{PyRuntime} `{PipelineCollaborators}.

Lemma run_pipeline_inv patient disk0 result disk' :
  run_pipeline patient disk0 = Ok (result, disk') ->
  exists ctx disk1 st,
    obtain_enhanced_context patient disk0 = Ok (ctx, disk1)
    /\ feedback_loop patient ctx
         {| loop_count := 0; review_feedback := PNone;
            final_agent2_output := PNone; disk := disk1 |} = Ok st
    /\ saves (final_agent2_output st) = true
    /\ result = PDict [ ("final_output", final_agent2_output st);
                        ("loops_run", PInt (Z.of_nat (loop_count st))) ]
    /\ disk' = snd (convert_with_gemini FINAL_JSON FHIR_BUNDLE
                      (write_text (disk st) FINAL_JSON
                         (json_dumps_unicode (final_agent2_output st)))).
Proof.
  unfold run_pipeline. intros Hr.
  inv_bind Hr. destruct a as [ctx disk1]. inv_bind Hr. inv_bind Hr.
  injection Hr as <- <-.
  match goal with E : save_json _ _ _ = Ok _ |- _ =>
    apply save_json_inv in E; destruct E as [Hsaved ->] end.
  eauto 10.
Qed.
End Pipeline.



(* ===================================================================== *)
(** * Evaluations of the model                                             *)
(* ===================================================================== *)

Example strip_code_fences_ex :
  strip_code_fences ("```json" ++ nl ++ "{}" ++ nl ++ "```") = "{}".
Proof. reflexivity. Qed.

Example search_brace_block_ex :
  search_brace_block "a {b} c } d" = Some "{b} c }".
Proof. reflexivity. Qed.

Example remove_trailing_commas_ex :
  remove_trailing_commas "[1, 2, ] , {3 ,}" = "[1, 2 ] , {3 }".
Proof. reflexivity. Qed.

Example json_loads_object :
  Json.loads ("{" ++ q "a" ++ ": [1, -2.50, true, null], " ++ q "b" ++ ": {}, "
              ++ q "a" ++ " : " ++ q "xA\n" ++ "} ")
  = Ok (PDict [("a", PStr ("xA" ++ nl)); ("b", PDict [])]).
Proof. vm_compute. reflexivity. Qed.

Example json_loads_numbers :
  map Json.loads ["0.8"; "-0"; "1e2"; "12E-1"; "01"; "1."; "-"; ".5"; "2 3"; ""; "[1,]"]
  = [Ok (PFloat (FFin (4 # 5))); Ok (PInt 0); Ok (PFloat (FFin 100));
     Ok (PFloat (FFin (6 # 5))); Raise JSONDecodeError; Raise JSONDecodeError;
     Raise JSONDecodeError; Raise JSONDecodeError; Raise JSONDecodeError;
     Raise JSONDecodeError; Raise JSONDecodeError].
Proof. vm_compute. reflexivity. Qed.

Example q_text : chars (q "a") = [quote; "a"%char; quote].
Proof. reflexivity. Qed.

Example extract_fenced_object :
  extract_json_from_text (H := sample_runtime)
    ("Here you go:" ++ nl ++ "```json" ++ nl ++ "{" ++ q "confidence" ++ ": 1}" ++ nl
     ++ "```" ++ nl ++ "Hope this helps.")
  = Ok (PDict [("confidence", PInt 1)]).
Proof. vm_compute. reflexivity. Qed.

Example score_agent2_not_a_number :
  parse_score (H := sample_runtime) ("{" ++ q "agent2_confidence" ++ ": NaN}")
  = Ok (Some (FFin 1)).
Proof. vm_compute. reflexivity. Qed.

Example normalize_fields_overwrites :
  normalize_fields [(" Potassium ", PInt 1); ("K_mmol_L", PInt 2); ("Age", PInt 3)]
  = [("potassium_mmol_l", PInt 2); ("age", PInt 3)].
Proof. vm_compute. reflexivity. Qed.

Example load_patient_data_csv :
  load_patient_data (H := sample_runtime) ("age, egfr" ++ nl ++ "64, 58")
  = Ok (PDict [("age", PStr "64"); ("egfr", PStr "58")]).
Proof. vm_compute. reflexivity. Qed.

Example load_patient_data_one_line_of_names :
  load_patient_data (H := sample_runtime) "age, egfr" = Raise IndexError.
Proof. vm_compute. reflexivity. Qed.

Example scenario_A_run :
  option_map fst
    match run_pipeline (H := sample_runtime) (H0 := scenario_A_pipeline) sample_patient [] with
    | Ok r => Some r
    | Raise _ => None
    end
  = Some (PDict [ ("final_output", PDict [("protocol", PStr "CT"); ("round", PInt 2)]);
                  ("loops_run", PInt 2) ]).
Proof. vm_compute. reflexivity. Qed.

Example scenario_B_run :
  option_map fst
    match run_pipeline (H := sample_runtime) (H0 := scenario_B_pipeline) sample_patient [] with
    | Ok r => Some r
    | Raise _ => None
    end
  = Some (PDict [ ("final_output", PDict [("protocol", PStr "CT"); ("round", PInt 6)]);
                  ("loops_run", PInt 6) ]).
Proof. vm_compute. reflexivity. Qed.

(* ===================================================================== *)
(** * More on normalize_fields                                             *)
(* ===================================================================== *)

Lemma canonical_names_are_no_aliases :
  Forall (fun ac => alias_lookup FIELD_ALIASES (str_strip (str_lower (snd ac))) = None)
         FIELD_ALIASES.
Proof. repeat constructor. Qed.

(** A key that [canonical_key] leaves alone is lower-cased and trimmed and
    is no alias. *)
Lemma canonical_key_fixed_point k :
  canonical_key k = k ->
  str_strip (str_lower k) = k /\ alias_lookup FIELD_ALIASES k = None.
Proof.
  unfold canonical_key.
  destruct (alias_lookup FIELD_ALIASES (str_strip (str_lower k))) as [c|] eqn:E.
  - intros ->. pose proof (alias_lookup_In _ _ E) as Hin.
    pose proof (proj1 (Forall_forall _ _) canonical_names_are_no_aliases _ Hin) as Hno.
    cbn [snd] in Hno. congruence.
  - intros Hk. rewrite Hk in E. auto.
Qed.

(** X1.  The keys of a normalised mapping are pairwise distinct, and each
    of them is lower-cased, trimmed and no alias spelling: a second
    normalisation has nothing left to rename. *)
Theorem normalize_fields_keys_canonical (x : pydict) :
  NoDup (dict_keys (normalize_fields x))
  /\ Forall (fun k => str_strip (str_lower k) = k
                      /\ alias_lookup FIELD_ALIASES k = None
                      /\ canonical_key k = k)
            (dict_keys (normalize_fields x)).
Proof.
  destruct (@fold_file_entry_keys x [] (NoDup_nil _)) as [Hnd Hfix];
    [intros k [] |].
  split; [exact Hnd |].
  apply Forall_forall. intros k Hin.
  specialize (Hfix k Hin).
  destruct (canonical_key_fixed_point Hfix). auto.
Qed.

Lemma fold_file_entry_distinct x acc :
  NoDup (dict_keys acc ++ map canonical_key (dict_keys x)) ->
  fold_left file_entry x acc
  = acc ++ map (fun kv => (canonical_key (fst kv), snd kv)) x.
Proof.
  revert acc. induction x as [|[k v] x IH]; intros acc Hnd.
  - cbn. now rewrite app_nil_r.
  - cbn [fold_left map fst snd]. unfold file_entry at 2. cbn [fst snd].
    cbn [dict_keys map fst] in Hnd.
    rewrite dict_set_fresh.
    + rewrite IH.
      * now rewrite <- app_assoc.
      * unfold dict_keys in *. rewrite map_app, <- app_assoc. exact Hnd.
    + intros Hin. apply NoDup_remove_2 in Hnd. apply Hnd.
      apply in_or_app. now left.
Qed.

(** X2.  When no two keys of the input are filed under the same name,
    normalisation renames the keys in place: no entry is lost, the order
    and the values are kept. *)
Theorem normalize_fields_without_collision (x : pydict) :
  NoDup (map canonical_key (dict_keys x)) ->
  normalize_fields x = map (fun kv => (canonical_key (fst kv), snd kv)) x.
Proof.
  intros Hnd. unfold normalize_fields.
  now rewrite fold_file_entry_distinct.
Qed.

Lemma normalize_fields_without_collision_witness :
  normalize_fields [(" Age ", PInt 64); ("eGFR", PInt 58); ("K_mEq_L", PFloat (FFin (9 # 2)))]
  = map (fun kv => (canonical_key (fst kv), snd kv))
        [(" Age ", PInt 64); ("eGFR", PInt 58); ("K_mEq_L", PFloat (FFin (9 # 2)))].
Proof.
  apply normalize_fields_without_collision.
  vm_compute. repeat constructor; cbn; intuition discriminate.
Defined.

Lemma existsb_eqb_In k (l : list string) : existsb (String.eqb k) l = true <-> In k l.
Proof.
  rewrite existsb_exists. split.
  - intros (y & Hin & Hy). apply String.eqb_eq in Hy. now subst.
  - intros Hin. exists k. split; [exact Hin | apply String.eqb_refl].
Qed.

Lemma first_occurrences_seen_ext keys : forall s1 s2,
  (forall k, In k s1 <-> In k s2) ->
  first_occurrences s1 keys = first_occurrences s2 keys.
Proof.
  induction keys as [|k rest IH]; intros s1 s2 Hext; [reflexivity |].
  cbn [first_occurrences].
  assert (Hsame : existsb (String.eqb k) s1 = existsb (String.eqb k) s2).
  { apply eq_true_iff_eq. rewrite !existsb_eqb_In. apply Hext. }
  rewrite Hsame. destruct (existsb (String.eqb k) s2).
  - now apply IH.
  - f_equal. apply IH. intros k'. cbn. now rewrite Hext.
Qed.

Lemma first_occurrences_length seen keys :
  length (first_occurrences seen keys) <= length keys.
Proof.
  revert seen. induction keys as [|k rest IH]; intros seen; cbn; [lia |].
  destruct (existsb (String.eqb k) seen); cbn.
  - specialize (IH seen). lia.
  - specialize (IH (k :: seen)). lia.
Qed.

Lemma fold_file_entry_key_order x acc :
  dict_keys (fold_left file_entry x acc)
  = dict_keys acc
    ++ first_occurrences (dict_keys acc) (map canonical_key (dict_keys x)).
Proof.
  revert acc. induction x as [|[k v] x IH]; intros acc.
  - cbn. now rewrite app_nil_r.
  - cbn [fold_left dict_keys map fst first_occurrences]. rewrite IH.
    unfold file_entry. cbn [fst snd]. rewrite dict_set_keys.
    fold (dict_keys acc). fold (dict_keys x).
    destruct (in_dec string_dec (canonical_key k) (dict_keys acc)) as [Hin|Hout].
    + rewrite (proj2 (existsb_eqb_In _ _) Hin). reflexivity.
    + destruct (existsb (String.eqb (canonical_key k)) (dict_keys acc)) eqn:E.
      * apply existsb_eqb_In in E. contradiction.
      * rewrite <- app_assoc. cbn [app]. do 2 f_equal.
        apply first_occurrences_seen_ext. intros k'.
        rewrite in_app_iff. cbn. tauto.
Qed.

(** X3.  The keys of a normalised mapping are the names under which the
    input keys are filed, each at the place of its first occurrence; the
    result never has more entries than the input. *)
Theorem normalize_fields_key_order (x : pydict) :
  dict_keys (normalize_fields x)
  = first_occurrences [] (map canonical_key (dict_keys x))
  /\ length (normalize_fields x) <= length x.
Proof.
  assert (Hkeys : dict_keys (normalize_fields x)
                  = first_occurrences [] (map canonical_key (dict_keys x)))
    by apply (fold_file_entry_key_order x []).
  split; [exact Hkeys |].
  assert (Hlen : length (dict_keys (normalize_fields x)) <= length x).
  { rewrite Hkeys. etransitivity; [apply first_occurrences_length |].
    unfold dict_keys. now rewrite !length_map. }
  unfold dict_keys in Hlen. now rewrite length_map in Hlen.
Qed.

(* ===================================================================== *)
(** * More on the repair of trailing commas                                *)
(* ===================================================================== *)

Lemma drop_trailing_commas_keeps_others cs :
  filter (fun c => negb (is_comma c)) (drop_trailing_commas cs)
  = filter (fun c => negb (is_comma c)) cs.
Proof.
  induction cs as [|c rest IH]; [reflexivity |].
  cbn [drop_trailing_commas]. fold (is_comma c).
  destruct (is_comma c) eqn:Hc; cbn [andb].
  - destruct (closer_after_spaces rest); cbn [filter]; rewrite Hc; cbn [negb]; exact IH.
  - cbn [filter]. rewrite Hc. cbn [negb]. now rewrite IH.
Qed.

Lemma drop_trailing_commas_length cs :
  length (drop_trailing_commas cs) <= length cs.
Proof.
  induction cs as [|c rest IH]; cbn [drop_trailing_commas length]; [lia |].
  destruct (is_char c "," && closer_after_spaces rest); cbn [length]; lia.
Qed.

Lemma of_chars_length cs : String.length (of_chars cs) = length cs.
Proof.
  induction cs as [|c rest IH]; cbn; [reflexivity | now rewrite <- IH].
Qed.

(** X4.  The repair of trailing commas deletes commas and nothing else:
    the other characters of the text are all kept, in their order, and the
    text never grows. *)
Theorem remove_trailing_commas_only_deletes_commas (s : string) :
  filter (fun c => negb (is_comma c)) (chars (remove_trailing_commas s))
  = filter (fun c => negb (is_comma c)) (chars s)
  /\ String.length (remove_trailing_commas s) <= String.length s.
Proof.
  unfold remove_trailing_commas. rewrite chars_of_chars. split.
  - apply drop_trailing_commas_keeps_others.
  - rewrite <- (of_chars_chars s) at 2.
    rewrite !of_chars_length.
    apply drop_trailing_commas_length.
Qed.
(* ===================================================================== *)
(** * More on extract_json_from_text                                       *)
(* ===================================================================== *)

Lemma except_JSONDecodeError_Ok {A} (body handler : res A) (a : A) :
  except_JSONDecodeError body handler = Ok a ->
  body = Ok a \/ (body = Raise JSONDecodeError /\ handler = Ok a).
Proof.
  destruct body as [b|[]]; cbn; intros E; try discriminate E; auto.
Qed.

(** X5.  A value [extract_json_from_text] returns is [None], the safe
    default, or what the decoder made of one of the texts the repair chain
    submitted to it: the function makes up no other data. *)
Theorem extract_json_from_text_provenance `{PyRuntime} (text : string) (v : pyval) :
  extract_json_from_text text = Ok v ->
  v = PNone \/ v = SAFE_DEFAULT
  \/ exists s, In s (parse_attempts text) /\ json_loads s = Ok v.
Proof.
  unfold extract_json_from_text, parse_attempts.
  destruct (String.eqb text ""); [intros [= <-]; auto |].
  intros Hv.
  apply except_JSONDecodeError_Ok in Hv. destruct Hv as [Hv|[_ Hv]].
  { right. right. exists (stripped_text text). split; [now left | exact Hv]. }
  destruct (search_brace_block (stripped_text text)) as [candidate|];
    [|injection Hv as <-; auto].
  apply except_JSONDecodeError_Ok in Hv. destruct Hv as [Hv|[_ Hv]].
  { right. right. exists candidate. split; [cbn; auto | exact Hv]. }
  apply except_JSONDecodeError_Ok in Hv. destruct Hv as [Hv|[_ Hv]].
  { right. right. exists (remove_trailing_commas candidate).
    split; [cbn; auto | exact Hv]. }
  apply except_JSONDecodeError_Ok in Hv. destruct Hv as [Hv|[_ Hv]].
  { right. right. exists (remove_trailing_commas (text_flatten candidate)).
    split; [cbn; auto | exact Hv]. }
  unfold brace_count_stage in Hv.
  destruct (from_first_lbrace (chars candidate)); [|injection Hv as <-; auto].
  destruct (first_balanced_object candidate) as [partial|];
    [|injection Hv as <-; auto].
  apply except_JSONDecodeError_Ok in Hv. destruct Hv as [Hv|[_ Hv]].
  - right. right. exists partial. split; [cbn; auto 6 | exact Hv].
  - injection Hv as <-. auto.
Qed.

Lemma extract_json_from_text_provenance_witness :
  PDict [ ("issues", PList [PStr "a"]); ("recommendations", PList [PStr "b"]);
          ("confidence", PFloat (FFin (4 # 5))) ] = PNone
  \/ PDict [ ("issues", PList [PStr "a"]); ("recommendations", PList [PStr "b"]);
             ("confidence", PFloat (FFin (4 # 5))) ] = SAFE_DEFAULT
  \/ exists s, In s (parse_attempts scenario_C_text)
               /\ json_loads (PyRuntime := sample_runtime) s
                  = Ok (PDict [ ("issues", PList [PStr "a"]);
                                ("recommendations", PList [PStr "b"]);
                                ("confidence", PFloat (FFin (4 # 5))) ]).
Proof.
  apply (extract_json_from_text_provenance (H := sample_runtime) scenario_C_text).
  vm_compute. reflexivity.
Defined.

(** ** Texts without backquotes, fenced texts *)

Lemma chars_app (a b : string) : chars (a ++ b)%string = chars a ++ chars b.
Proof.
  unfold chars. induction a as [|c a IH]; cbn; [reflexivity | now f_equal].
Qed.

Lemma starts_with_fence_cons c cs :
  is_backquote c = false -> starts_with fence (c :: cs) = false.
Proof.
  intros Hc. change (is_backquote c) with (Ascii.eqb c "`") in Hc.
  change (starts_with fence (c :: cs))
    with (Ascii.eqb "`" c && starts_with (chars "``") cs).
  rewrite Ascii.eqb_sym, Hc. reflexivity.
Qed.

Lemma starts_with_fence_nil : starts_with fence [] = false.
Proof. reflexivity. Qed.

(** After the spaces at the head of a text without backquotes comes no
    fence. *)
Lemma no_fence_after_spaces cs :
  no_backquote cs = true ->
  starts_with fence (skipn (count_spaces cs) cs) = false.
Proof.
  induction cs as [|c rest IH]; [reflexivity |].
  cbn [no_backquote forallb]. intros Hno.
  apply andb_true_iff in Hno. destruct Hno as [Hc Hrest].
  apply negb_true_iff in Hc.
  cbn [count_spaces]. destruct (is_space c); cbn [skipn].
  - apply IH. exact Hrest.
  - now apply starts_with_fence_cons.
Qed.

Lemma fence_match_len_no_backquote flag cs :
  no_backquote cs = true -> fence_match_len flag cs = 0.
Proof.
  intros Hno. unfold fence_match_len.
  assert (Hhead : starts_with fence cs = false).
  { destruct cs as [|c rest]; [reflexivity |].
    cbn [no_backquote forallb] in Hno. apply andb_true_iff in Hno.
    destruct Hno as [Hc _]. apply negb_true_iff in Hc.
    now apply starts_with_fence_cons. }
  rewrite Hhead, andb_false_r, no_fence_after_spaces by exact Hno.
  reflexivity.
Qed.

(** The removal of the fences leaves a text without backquotes alone. *)
Lemma sub_fences_no_backquote cs : forall flag,
  no_backquote cs = true -> sub_fences flag 0 cs = cs.
Proof.
  induction cs as [|c rest IH]; intros flag Hno; [reflexivity |].
  cbn [sub_fences]. rewrite fence_match_len_no_backquote by exact Hno.
  cbn [no_backquote forallb] in Hno. apply andb_true_iff in Hno.
  f_equal. apply IH. tauto.
Qed.

Lemma rtrim_fixed_cons c cs :
  rtrim (c :: cs) = c :: cs ->
  (cs = [] /\ is_space c = false) \/ (cs <> [] /\ rtrim cs = cs).
Proof.
  cbn [rtrim]. destruct (rtrim cs) as [|k kept] eqn:E.
  - destruct (is_space c); [discriminate |]. intros [= <-]. auto.
  - intros [= <-]. right. split; [discriminate | reflexivity].
Qed.

(** A text that ends with no space and holds no backquote: after the
    spaces at any of its positions comes one of its characters, so no
    fence. *)
Lemma no_fence_inside body rest :
  body <> [] -> rtrim body = body -> no_backquote body = true ->
  starts_with fence (skipn (count_spaces (body ++ rest)) (body ++ rest)) = false.
Proof.
  induction body as [|c body IH]; [congruence |].
  intros _ Htight Hno.
  cbn [no_backquote forallb] in Hno. apply andb_true_iff in Hno.
  destruct Hno as [Hc Hno]. apply negb_true_iff in Hc.
  cbn [app count_spaces].
  destruct (rtrim_fixed_cons Htight) as [[-> Hsp]|[Hne Htight']].
  - rewrite Hsp. cbn [skipn]. now apply starts_with_fence_cons.
  - destruct (is_space c); cbn [skipn].
    + now apply IH.
    + now apply starts_with_fence_cons.
Qed.

Lemma closing_fence_removed flag :
  sub_fences flag 0 (LF :: fence) = [].
Proof. destruct flag; reflexivity. Qed.

(** The pass of the fence removal over a payload followed by a line feed
    and the closing fence. *)
Lemma sub_fences_payload body : forall flag,
  (body = [] \/ (body <> [] /\ rtrim body = body)) ->
  no_backquote body = true ->
  sub_fences flag 0 (body ++ LF :: fence) = body.
Proof.
  induction body as [|c body IH]; intros flag Htight Hno.
  - apply closing_fence_removed.
  - destruct Htight as [Hnil|[Hne Htight]]; [discriminate Hnil |].
    assert (Hlen : fence_match_len flag ((c :: body) ++ LF :: fence) = 0).
    { unfold fence_match_len.
      rewrite (no_fence_inside (LF :: fence) Hne Htight Hno).
      cbn [no_backquote forallb] in Hno. apply andb_true_iff in Hno.
      destruct Hno as [Hc _]. apply negb_true_iff in Hc.
      cbn [app]. rewrite starts_with_fence_cons by exact Hc.
      rewrite andb_false_r.
      reflexivity. }
    cbn [app] in *. cbn [sub_fences]. rewrite Hlen.
    f_equal. apply IH.
    + destruct (rtrim_fixed_cons Htight) as [[-> _]|[Hne' Htight']]; auto.
    + cbn [no_backquote forallb] in Hno. apply andb_true_iff in Hno. tauto.
Qed.

Lemma count_spaces_tight body rest :
  body <> [] -> ltrim body = body -> count_spaces (body ++ rest) = 0.
Proof.
  destruct body as [|c body]; [congruence |]. intros _. cbn.
  destruct (is_space c) eqn:Hc; [|reflexivity].
  intros Hl. exfalso.
  assert (Hlen : length (ltrim body) <= length body).
  { clear. induction body as [|d body IH]; cbn; [lia |].
    destruct (is_space d); cbn; lia. }
  rewrite Hl in Hlen. cbn in Hlen. lia.
Qed.

Lemma rtrim_app_tight front back :
  back <> [] -> rtrim back = back -> rtrim (front ++ back) = front ++ back.
Proof.
  intros Hne Hback. induction front as [|c front IH]; [exact Hback |].
  cbn [app rtrim]. rewrite IH.
  destruct (front ++ back) eqn:E; [|reflexivity].
  apply app_eq_nil in E. tauto.
Qed.

Lemma sub_fences_drop pre : forall flag rest,
  exists flag', sub_fences flag (length pre) (pre ++ rest) = sub_fences flag' 0 rest.
Proof.
  induction pre as [|c pre IH]; intros flag rest.
  - exists flag. destruct rest; reflexivity.
  - cbn [length app sub_fences]. apply IH.
Qed.

(** A match at the head of the text is dropped and the scan goes on
    behind it. *)
Lemma sub_fences_match flag pre rest :
  pre <> [] ->
  fence_match_len flag (pre ++ rest) = length pre ->
  exists flag', sub_fences flag 0 (pre ++ rest) = sub_fences flag' 0 rest.
Proof.
  destruct pre as [|c pre]; [congruence |]. intros _ Hlen.
  cbn [app sub_fences] in *. rewrite Hlen. cbn [length].
  apply sub_fences_drop.
Qed.

Lemma opening_fence_tagged rest :
  fence_match_len true ((fence ++ chars "json" ++ [LF]) ++ rest) = 8 + count_spaces rest.
Proof. reflexivity. Qed.

Lemma opening_fence_plain rest :
  fence_match_len true ((fence ++ [LF]) ++ rest) = 4 + count_spaces rest.
Proof. reflexivity. Qed.

Section Fences.
Context (body : list ascii).
Hypothesis body_not_empty : body <> [].
Hypothesis body_ltrim : ltrim body = body.
Hypothesis body_rtrim : rtrim body = body.
Hypothesis body_no_backquote : no_backquote body = true.

Lemma strip_fenced (opening : list ascii) :
  rtrim (ltrim (fence ++ opening ++ LF :: body ++ LF :: fence))
  = fence ++ opening ++ LF :: body ++ LF :: fence.
Proof.
  change (ltrim (fence ++ opening ++ LF :: body ++ LF :: fence))
    with (fence ++ opening ++ LF :: body ++ LF :: fence).
  replace (fence ++ opening ++ LF :: body ++ LF :: fence)
    with ((fence ++ opening ++ LF :: body ++ [LF]) ++ fence)
    by (rewrite <- !app_assoc; cbn; now rewrite <- !app_assoc).
  apply rtrim_app_tight; [discriminate | reflexivity].
Qed.

Lemma sub_fences_tagged :
  sub_fences true 0 (fence ++ chars "json" ++ LF :: body ++ LF :: fence) = body.
Proof.
  destruct (@sub_fences_match true (fence ++ chars "json" ++ [LF])
              (body ++ LF :: fence)) as [flag' E].
  - discriminate.
  - rewrite opening_fence_tagged, count_spaces_tight by assumption. reflexivity.
  - etransitivity; [exact E |]. apply sub_fences_payload; auto.
Qed.

Lemma sub_fences_plain :
  sub_fences true 0 (fence ++ LF :: body ++ LF :: fence) = body.
Proof.
  destruct (@sub_fences_match true (fence ++ [LF]) (body ++ LF :: fence))
    as [flag' E].
  - discriminate.
  - rewrite opening_fence_plain, count_spaces_tight by assumption. reflexivity.
  - etransitivity; [exact E |]. apply sub_fences_payload; auto.
Qed.
End Fences.

Lemma ltrim_rtrim_ltrim_eq cs :
  rtrim (ltrim cs) = cs -> ltrim (rtrim (ltrim cs)) = cs.
Proof. intros E. rewrite ltrim_rtrim_ltrim. exact E. Qed.

Lemma str_strip_fixed_chars (s : string) :
  str_strip s = s -> ltrim (chars s) = chars s /\ rtrim (chars s) = chars s.
Proof.
  unfold str_strip. intros Hs.
  assert (Hc : rtrim (ltrim (chars s)) = chars s).
  { rewrite <- Hs at 2. now rewrite chars_of_chars. }
  split.
  - rewrite <- Hc at 1. apply ltrim_rtrim_ltrim_eq. exact Hc.
  - rewrite <- Hc at 1. rewrite rtrim_idem. exact Hc.
Qed.

Lemma stripped_text_no_backquote (s : string) :
  no_backquote (chars s) = true -> stripped_text s = str_strip s.
Proof.
  intros Hno. unfold stripped_text, strip_code_fences.
  rewrite sub_fences_no_backquote; [apply of_chars_chars |].
  unfold str_strip. rewrite chars_of_chars.
  apply forallb_forall. intros c Hin.
  apply rtrim_incl, ltrim_incl in Hin.
  exact (proj1 (forallb_forall _ _) Hno c Hin).
Qed.

Lemma stripped_text_fenced (body : string) (tag : string) :
  tag = "json" \/ tag = "" ->
  body <> "" -> str_strip body = body -> no_backquote (chars body) = true ->
  stripped_text ("```" ++ tag ++ nl ++ body ++ nl ++ "```") = body.
Proof.
  intros Htag Hne Hstrip Hno.
  destruct (str_strip_fixed_chars Hstrip) as [Hl Hr].
  assert (Hbody : chars body <> []).
  { intros E. apply Hne. rewrite <- (of_chars_chars body), E. reflexivity. }
  unfold stripped_text, strip_code_fences, str_strip.
  rewrite !chars_app.
  change (chars "```") with fence. change (chars nl) with [LF].
  destruct Htag as [-> | ->].
  - change ([LF] ++ chars body ++ [LF] ++ fence) with (LF :: chars body ++ LF :: fence).
    rewrite strip_fenced by assumption. rewrite chars_of_chars.
    rewrite sub_fences_tagged by assumption. apply of_chars_chars.
  - change (chars "" ++ [LF] ++ chars body ++ [LF] ++ fence)
      with ([] ++ LF :: chars body ++ LF :: fence).
    rewrite strip_fenced by assumption. rewrite chars_of_chars.
    cbn [app]. rewrite sub_fences_plain by assumption. apply of_chars_chars.
Qed.

(** X6.  A code fence is transparent: on a payload that is not empty,
    has no space at either end and holds no backquote, put between an
    opening fence, tagged [json] or not, and a closing fence, each on a
    line of its own, [extract_json_from_text] returns what it returns on
    the payload itself. *)
Theorem extract_json_from_text_fence_transparent `{PyRuntime} (body : string) :
  body <> "" -> str_strip body = body -> no_backquote (chars body) = true ->
  extract_json_from_text ("```json" ++ nl ++ body ++ nl ++ "```")
  = extract_json_from_text body
  /\ extract_json_from_text ("```" ++ nl ++ body ++ nl ++ "```")
     = extract_json_from_text body.
Proof.
  intros Hne Hstrip Hno.
  assert (Hplain : stripped_text body = body)
    by (rewrite stripped_text_no_backquote by exact Hno; exact Hstrip).
  pose proof (@stripped_text_fenced body "json" (or_introl eq_refl) Hne Hstrip Hno) as Htagged.
  pose proof (@stripped_text_fenced body "" (or_intror eq_refl) Hne Hstrip Hno) as Huntagged.
  apply String.eqb_neq in Hne.
  split; unfold extract_json_from_text; rewrite Hne.
  - change (String.eqb ("```json" ++ nl ++ body ++ nl ++ "```") "") with false.
    cbv iota. change ("```json" ++ nl ++ body ++ nl ++ "```")%string
      with ("```" ++ "json" ++ nl ++ body ++ nl ++ "```")%string.
    rewrite Htagged, Hplain. reflexivity.
  - change (String.eqb ("```" ++ nl ++ body ++ nl ++ "```") "") with false.
    cbv iota. change ("```" ++ nl ++ body ++ nl ++ "```")%string
      with ("```" ++ "" ++ nl ++ body ++ nl ++ "```")%string.
    rewrite Huntagged, Hplain. reflexivity.
Qed.

Lemma extract_json_from_text_fence_transparent_witness :
  extract_json_from_text (H := sample_runtime) ("```json" ++ nl ++ sample_payload ++ nl ++ "```")
  = extract_json_from_text (H := sample_runtime) sample_payload.
Proof.
  apply (proj1 (extract_json_from_text_fence_transparent (H := sample_runtime)
                  (body := sample_payload)
                  ltac:(discriminate) ltac:(reflexivity) ltac:(reflexivity))).
Defined.

(** ** An object inside prose *)

Lemma ltrim_app_keep front c rest :
  is_space c = false ->
  exists front', ltrim (front ++ c :: rest) = front' ++ c :: rest
                 /\ incl front' front.
Proof.
  intros Hc. induction front as [|d front IH]; cbn [app ltrim].
  - rewrite Hc. exists []. split; [reflexivity | apply incl_refl].
  - destruct (is_space d).
    + destruct IH as (front' & -> & Hincl). exists front'.
      split; [reflexivity | now apply incl_tl].
    + exists (d :: front). split; [reflexivity | apply incl_refl].
Qed.

Lemma rtrim_app_keep front c back :
  is_space c = false ->
  exists back', rtrim (front ++ c :: back) = front ++ c :: back'
                /\ incl back' back.
Proof.
  intros Hc. exists (rtrim back). split.
  - induction front as [|d front IH]; cbn [app rtrim].
    + destruct (rtrim back); [now rewrite Hc | reflexivity].
    + rewrite IH. destruct front; reflexivity.
  - intros a. apply rtrim_incl.
Qed.

Lemma from_first_lbrace_skip front rest :
  no_brace front = true ->
  from_first_lbrace (front ++ "{"%char :: rest) = Some ("{"%char :: rest).
Proof.
  induction front as [|c front IH]; [reflexivity |].
  cbn [no_brace forallb app from_first_lbrace]. intros Hno.
  apply andb_true_iff in Hno. destruct Hno as [Hc Hno].
  apply negb_true_iff in Hc. unfold is_brace in Hc.
  apply orb_false_iff in Hc. destruct Hc as [Hc _].
  rewrite Hc. now apply IH.
Qed.

Lemma through_last_rbrace_none back :
  no_brace back = true -> through_last_rbrace back = None.
Proof.
  induction back as [|c back IH]; [reflexivity |].
  cbn [no_brace forallb through_last_rbrace]. intros Hno.
  apply andb_true_iff in Hno. destruct Hno as [Hc Hno].
  apply negb_true_iff in Hc. unfold is_brace in Hc.
  apply orb_false_iff in Hc. destruct Hc as [_ Hc].
  rewrite (IH Hno), Hc. reflexivity.
Qed.

Lemma through_last_rbrace_stop mid back :
  no_brace back = true ->
  through_last_rbrace (mid ++ "}"%char :: back) = Some (mid ++ ["}"%char]).
Proof.
  intros Hno. induction mid as [|c mid IH]; cbn [app through_last_rbrace].
  - now rewrite through_last_rbrace_none.
  - now rewrite IH.
Qed.

Lemma no_brace_incl small big :
  incl small big -> no_brace big = true -> no_brace small = true.
Proof.
  intros Hincl Hno. apply forallb_forall. intros c Hin.
  exact (proj1 (forallb_forall _ _) Hno c (Hincl c Hin)).
Qed.

(** The brace span of an object between two stretches of prose that hold
    no brace is the object, whatever the stripping removes. *)
Lemma search_brace_block_in_prose (prose mid tail : string) :
  no_brace (chars prose) = true -> no_brace (chars tail) = true ->
  search_brace_block (str_strip (prose ++ "{" ++ mid ++ "}" ++ tail))
  = Some ("{" ++ mid ++ "}")%string.
Proof.
  intros Hp Ht. unfold search_brace_block, str_strip.
  rewrite chars_of_chars, !chars_app.
  change (chars "{") with ["{"%char]. change (chars "}") with ["}"%char].
  cbn [app].
  destruct (@ltrim_app_keep (chars prose) "{"%char (chars mid ++ "}"%char :: chars tail)
              eq_refl) as (front & -> & Hfront).
  replace (front ++ "{"%char :: chars mid ++ "}"%char :: chars tail)
    with ((front ++ "{"%char :: chars mid) ++ "}"%char :: chars tail)
    by (now rewrite <- app_assoc).
  destruct (@rtrim_app_keep (front ++ "{"%char :: chars mid) "}"%char (chars tail)
              eq_refl) as (back & -> & Hback).
  rewrite <- app_assoc. cbn [app].
  rewrite from_first_lbrace_skip by (eapply no_brace_incl; eauto).
  rewrite through_last_rbrace_stop by (eapply no_brace_incl; eauto).
  cbn [option_map]. f_equal.
  rewrite <- (of_chars_chars ("{" ++ mid ++ "}")). f_equal.
  rewrite !chars_app. reflexivity.
Qed.

(** X7.  An object inside prose is recovered: when the text holds no
    backquote, the prose before and after the object holds no brace, the
    decoder refuses the text as a whole and accepts the object, the result
    is the decoded object. *)
Theorem extract_json_from_text_object_in_prose `{PyRuntime}
    (prose mid tail : string) (v : pyval) :
  let text := (prose ++ "{" ++ mid ++ "}" ++ tail)%string in
  no_backquote (chars text) = true ->
  no_brace (chars prose) = true -> no_brace (chars tail) = true ->
  json_loads (str_strip text) = Raise JSONDecodeError ->
  json_loads ("{" ++ mid ++ "}") = Ok v ->
  extract_json_from_text text = Ok v.
Proof.
  intros text Hno Hp Ht Hwhole Hobject.
  unfold extract_json_from_text.
  assert (Hne : String.eqb text "" = false).
  { apply String.eqb_neq. intros E.
    assert (Hlen : length (chars text) = 0) by (rewrite E; reflexivity).
    unfold text in Hlen. rewrite !chars_app, !length_app in Hlen.
    cbn in Hlen. lia. }
  rewrite Hne, stripped_text_no_backquote by exact Hno.
  rewrite Hwhole. cbn [except_JSONDecodeError].
  unfold text. rewrite search_brace_block_in_prose by assumption.
  rewrite Hobject. reflexivity.
Qed.

Lemma extract_json_from_text_object_in_prose_witness :
  extract_json_from_text (H := sample_runtime)
    ("Here is my review: " ++ "{" ++ (q "confidence" ++ ": 0.9") ++ "}" ++ " Hope it helps.")
  = Ok (PDict [("confidence", PFloat (FFin (9 # 10)))]).
Proof.
  apply (extract_json_from_text_object_in_prose (H := sample_runtime)
           "Here is my review: " (q "confidence" ++ ": 0.9") " Hope it helps.");
    vm_compute; reflexivity.
Defined.
(* ===================================================================== *)
(** * More on the coercion and the review agent                            *)
(* ===================================================================== *)

Lemma clamp01_finite_cases (x : Q) :
  (clamp01 (FFin x) = FFin x /\ Qlt_bool x 1 = true /\ Qlt_bool 0 x = true)
  \/ clamp01 (FFin x) = FFin 0 \/ clamp01 (FFin x) = FFin 1.
Proof.
  unfold clamp01, py_min, py_max, flt.
  destruct (Qlt_bool x 1) eqn:H1.
  - destruct (Qlt_bool 0 x) eqn:H0; auto.
  - cbn. auto.
Qed.

Lemma clamp01_idem (v : pyfloat) : clamp01 (clamp01 v) = clamp01 v.
Proof.
  destruct v as [|[|]|x]; try reflexivity.
  destruct (clamp01_finite_cases x) as [(E & H1 & H0)|[E|E]]; rewrite E;
    try reflexivity.
  unfold clamp01, py_min, py_max, flt. now rewrite H1, H0.
Qed.

Section CoercionAgain.
Context `{PyRuntime}.

Lemma coerced_sequence_idem entry :
  coerced_sequence (Some (coerced_sequence entry)) = coerced_sequence entry.
Proof. destruct entry as [[]|]; reflexivity. Qed.

Lemma coerced_confidence_idem entry :
  coerced_confidence (Some (PFloat (coerced_confidence entry)))
  = coerced_confidence entry.
Proof.
  unfold coerced_confidence at 1. cbn [py_float].
  unfold coerced_confidence.
  destruct entry as [v|]; [|reflexivity].
  destruct (py_float v); [apply clamp01_idem | reflexivity].
Qed.

(** X8.  The coercion is idempotent: the feedback payload made of the
    three values it returns is coerced to these same values. *)
Theorem coerce_feedback_shape_idempotent (d : pydict) :
  ('(issues, recs, conf) <- _coerce_feedback_shape (PDict d) ;;
   _coerce_feedback_shape (feedback_payload issues recs conf))
  = _coerce_feedback_shape (PDict d).
Proof.
  rewrite coerce_feedback_shape_dict. cbn [bind].
  unfold feedback_payload. rewrite coerce_feedback_shape_dict.
  cbn [dict_get String.eqb Ascii.eqb Bool.eqb].
  now rewrite !coerced_sequence_idem, coerced_confidence_idem.
Qed.
End CoercionAgain.

Lemma apply_penalty_unit `{PyRuntime} (base : pyfloat) (hall : pyval) (final : pyfloat) :
  apply_penalty base hall = Ok final -> in_unit_interval final.
Proof.
  unfold apply_penalty. intros Hp.
  inv_bind Hp. inv_bind Hp. inv_bind Hp.
  injection Hp as <-. apply clamp01_unit.
Qed.

Lemma apply_penalty_inv `{PyRuntime} (base : pyfloat) (hall : pyval) (final : pyfloat) :
  apply_penalty base hall = Ok final ->
  exists recommendation reduction r,
    py_getitem hall "recommendation" = Ok recommendation
    /\ py_getitem recommendation "confidence_reduction" = Ok reduction
    /\ float_operand reduction = Ok r
    /\ final = clamp01 (fsub base r).
Proof.
  unfold apply_penalty. intros Hp.
  inv_bind Hp. inv_bind Hp. inv_bind Hp.
  injection Hp as <-. eauto 8.
Qed.

Section ReviewAgain.
Context `{PyRuntime} `{Collaborators}.

Lemma score_agent2_range (agent2_output patient_data renal_out : pyval) :
  match score_agent2 agent2_output patient_data renal_out with
  | PNone => True
  | PFloat score => in_unit_interval score
  | _ => False
  end.
Proof.
  unfold score_agent2, parse_score.
  destruct (extract_json_from_text _) as [[| | | | | |d]|]; cbn; auto.
  destruct (dict_get d "agent2_confidence") as [v|]; cbn; auto.
  destruct (py_float v) as [val|]; cbn; auto using clamp01_unit.
Qed.

(** X9.  A review response that decodes to something that is true and no
    mapping (a list that is not empty, a number, a string) is not absorbed:
    the review ends in an [AttributeError]. *)
Theorem run_review_agent_non_mapping_response
    (d : pydict) (agent2_output renal_out v : pyval) :
  let patient := PDict (normalize_fields d) in
  filter_renal_checks (run_renal_tool patient) = Ok renal_out ->
  extract_json_from_text
    (call_llm (review_prompt (PDict d) patient renal_out agent2_output)) = Ok v ->
  py_truthy v = true -> is_mapping v = false ->
  run_review_agent (PDict d) agent2_output = Raise AttributeError.
Proof.
  intros patient Hfilter Hextract Htrue Hmap.
  unfold run_review_agent. cbn [bind]. fold patient.
  rewrite Hfilter. cbn [bind]. rewrite Hextract. cbn [bind].
  rewrite Htrue. destruct v; try discriminate Hmap; reflexivity.
Qed.

(** X10.  In every mapping a review returns, [confidence] is a finite
    float of [0,1], whatever the hallucination analysis reports, and
    [agent2_confidence] is [None] or a finite float of [0,1]. *)
Theorem run_review_agent_confidences_in_unit_interval
    (raw agent2_output result : pyval) :
  run_review_agent raw agent2_output = Ok result ->
  exists conf,
    py_getitem result "confidence" = Ok (PFloat conf)
    /\ in_unit_interval conf
    /\ match py_getitem result "agent2_confidence" with
       | Ok PNone => True
       | Ok (PFloat score) => in_unit_interval score
       | _ => False
       end.
Proof.
  intros Hr. apply run_review_agent_inv in Hr.
  destruct Hr as (d & renal_out & extracted & issues & recs & base & final & Hr).
  cbn zeta in Hr. destruct Hr as (_ & _ & _ & _ & Hpen & ->).
  exists final. split; [reflexivity |].
  split; [exact (apply_penalty_unit _ _ Hpen) |].
  cbn [py_getitem dict_get String.eqb Ascii.eqb Bool.eqb].
  apply score_agent2_range.
Qed.

(** X11.  A review is returned only if the report of the hallucination
    analysis, which the returned mapping carries, holds a numeric
    [confidence_reduction] under [recommendation]; the returned confidence
    is then the clamp of the base confidence less that number. *)
Theorem run_review_agent_needs_numeric_reduction
    (raw agent2_output result : pyval) :
  run_review_agent raw agent2_output = Ok result ->
  exists hall recommendation reduction r base,
    py_getitem result "hallucination_analysis" = Ok hall
    /\ py_getitem hall "recommendation" = Ok recommendation
    /\ py_getitem recommendation "confidence_reduction" = Ok reduction
    /\ float_operand reduction = Ok r
    /\ in_unit_interval base
    /\ py_getitem result "confidence" = Ok (PFloat (clamp01 (fsub base r))).
Proof.
  intros Hr. apply run_review_agent_inv in Hr.
  destruct Hr as (d & renal_out & extracted & issues & recs & base & final & Hr).
  cbn zeta in Hr. destruct Hr as (_ & _ & _ & Hcoerce & Hpen & ->).
  apply apply_penalty_inv in Hpen.
  destruct Hpen as (recommendation & reduction & r & Hrec & Hred & Hop & ->).
  apply coerce_feedback_shape_inv in Hcoerce.
  eexists _, recommendation, reduction, r, base.
  repeat match goal with |- _ /\ _ => split end;
    try reflexivity; try assumption; tauto.
Qed.

(** What the coercion makes of a response without recoverable JSON. *)
Lemma coerce_degraded (v : pyval) :
  py_truthy v = false \/ v = SAFE_DEFAULT ->
  _coerce_feedback_shape (if py_truthy v then v else PDict [])
  = Ok (PList [], PList [], FFin (1 # 2)).
Proof.
  intros [Hfalse | ->]; [rewrite Hfalse |]; reflexivity.
Qed.

Lemma parse_score_degraded (text : string) (v : pyval) :
  extract_json_from_text text = Ok v ->
  py_truthy v = false \/ v = SAFE_DEFAULT ->
  parse_score text = Ok None.
Proof.
  intros Hex Hv. unfold parse_score. rewrite Hex. cbn [bind].
  destruct Hv as [Hfalse | ->]; [|reflexivity].
  destruct v as [| | | | | |[|kv m]]; try reflexivity. discriminate Hfalse.
Qed.

(** X12.  When no JSON is recovered from the completions (the extractor
    gives [None], another false value, or the safe default), a review that
    returns is degraded, not aborted: no issue, no recommendation, no
    model score, and the confidence is the penalty applied to 0.5. *)
Theorem run_review_agent_degrades_without_json (raw agent2_output result : pyval) :
  (forall prompt, exists v,
      extract_json_from_text (call_llm prompt) = Ok v
      /\ (py_truthy v = false \/ v = SAFE_DEFAULT)) ->
  run_review_agent raw agent2_output = Ok result ->
  py_getitem result "issues" = Ok (PList [])
  /\ py_getitem result "recommendations" = Ok (PList [])
  /\ py_getitem result "agent2_confidence" = Ok PNone
  /\ exists hall final,
       py_getitem result "hallucination_analysis" = Ok hall
       /\ apply_penalty (FFin (1 # 2)) hall = Ok final
       /\ py_getitem result "confidence" = Ok (PFloat final).
Proof.
  intros Hllm Hr. apply run_review_agent_inv in Hr.
  destruct Hr as (d & renal_out & extracted & issues & recs & base & final & Hr).
  cbn zeta in Hr. destruct Hr as (-> & _ & Hextract & Hcoerce & Hpen & ->).
  destruct (Hllm (review_prompt (PDict d) (PDict (normalize_fields d)) renal_out
                    agent2_output)) as (v & Hv & Hdeg).
  rewrite Hv in Hextract. injection Hextract as <-.
  rewrite (coerce_degraded Hdeg) in Hcoerce.
  injection Hcoerce as <- <- <-.
  assert (Hscore : score_agent2 agent2_output (PDict (normalize_fields d)) renal_out
                   = PNone).
  { unfold score_agent2.
    destruct (Hllm (score_prompt agent2_output (PDict (normalize_fields d)) renal_out))
      as (w & Hw & Hwdeg).
    now rewrite (parse_score_degraded _ Hw Hwdeg). }
  cbn [py_getitem dict_get String.eqb Ascii.eqb Bool.eqb]. rewrite Hscore.
  repeat split. eexists _, final. repeat split. exact Hpen.
Qed.
End ReviewAgain.

Lemma keep_checks_of_kept checks kept :
  keep_checks checks = Ok kept -> keep_checks kept = Ok kept.
Proof.
  revert kept. induction checks as [|c rest IH]; intros kept Hk.
  - injection Hk as <-. reflexivity.
  - cbn [keep_checks] in Hk. inv_bind Hk. inv_bind Hk. injection Hk as <-.
    destruct a.
    + now apply IH.
    + cbn [keep_checks]. rewrite E. cbn [bind]. rewrite (IH _ eq_refl). reflexivity.
Qed.

Lemma dict_set_twice d k v : dict_set (dict_set d k v) k v = dict_set d k v.
Proof.
  induction d as [|[k0 v0] rest IH]; cbn.
  - now rewrite String.eqb_refl.
  - destruct (String.eqb k0 k) eqn:E; cbn; rewrite E; [reflexivity | now rewrite IH].
Qed.

(** X13.  The filter of the tool output is idempotent, and what it
    returns always carries a [checks] list: filtering a filtered output
    changes nothing. *)
Theorem filter_renal_checks_idempotent (tool_out renal_out : pyval) :
  filter_renal_checks tool_out = Ok renal_out ->
  filter_renal_checks renal_out = Ok renal_out
  /\ exists kept, py_getitem renal_out "checks" = Ok (PList kept).
Proof.
  unfold filter_renal_checks at 1. intros Hf.
  destruct tool_out as [| | | | | |tool_d]; try discriminate Hf.
  cbn [py_get bind] in Hf. inv_bind Hf. inv_bind Hf. injection Hf as <-.
  assert (Hget : dict_get (dict_set tool_d "checks" (PList a0)) "checks" = Some (PList a0))
    by (rewrite dict_get_set; now rewrite String.eqb_refl).
  split.
  - unfold filter_renal_checks, py_get, dict_get_default. rewrite Hget.
    cbn [bind py_iter]. rewrite (keep_checks_of_kept _ E0). cbn [bind].
    now rewrite dict_set_twice.
  - exists a0. unfold py_getitem. now rewrite Hget.
Qed.

Lemma run_review_agent_non_mapping_response_witness :
  run_review_agent (H := sample_runtime)
                   (H0 := reporting_collaborators "[1, 2]" (reduction_report (PInt 0)))
                   sample_patient sample_agent2_output
  = Raise AttributeError.
Proof.
  refine (@run_review_agent_non_mapping_response sample_runtime
            (reporting_collaborators "[1, 2]" (reduction_report (PInt 0)))
            [("Age", PInt 64); (" Serum_Creatinine ", PFloat (FFin (6 # 5))); ("eGFR", PInt 58)]
            sample_agent2_output _ (PList [PInt 1; PInt 2]) _ _ _ _);
    vm_compute; reflexivity.
Defined.

Lemma run_review_agent_confidences_in_unit_interval_witness :
  exists conf,
    py_getitem sample_review "confidence" = Ok (PFloat conf)
    /\ in_unit_interval conf
    /\ match py_getitem sample_review "agent2_confidence" with
       | Ok PNone => True
       | Ok (PFloat score) => in_unit_interval score
       | _ => False
       end.
Proof.
  apply (run_review_agent_confidences_in_unit_interval
           (H := sample_runtime) (H0 := sample_collaborators)
           sample_patient sample_agent2_output).
  vm_compute. reflexivity.
Defined.

Lemma run_review_agent_needs_numeric_reduction_witness :
  exists hall recommendation reduction r base,
    py_getitem sample_review "hallucination_analysis" = Ok hall
    /\ py_getitem hall "recommendation" = Ok recommendation
    /\ py_getitem recommendation "confidence_reduction" = Ok reduction
    /\ float_operand reduction = Ok r
    /\ in_unit_interval base
    /\ py_getitem sample_review "confidence"
       = Ok (PFloat (clamp01 (fsub (H := sample_runtime) base r))).
Proof.
  apply (run_review_agent_needs_numeric_reduction
           (H := sample_runtime) (H0 := sample_collaborators)
           sample_patient sample_agent2_output).
  vm_compute. reflexivity.
Defined.

Lemma run_review_agent_degrades_without_json_witness :
  exists result,
    run_review_agent (H := sample_runtime)
      (H0 := reporting_collaborators "I cannot answer." (reduction_report (PFloat (FFin (1 # 5)))))
      sample_patient sample_agent2_output = Ok result
    /\ py_getitem result "issues" = Ok (PList [])
    /\ py_getitem result "confidence" = Ok (PFloat (FFin (3 # 10))).
Proof.
  eexists. split; [vm_compute; reflexivity |].
  destruct (@run_review_agent_degrades_without_json sample_runtime
              (reporting_collaborators "I cannot answer."
                 (reduction_report (PFloat (FFin (1 # 5)))))
              sample_patient sample_agent2_output _
              ltac:(intros prompt; exists PNone; split;
                    [ cbn [call_llm reporting_collaborators];
                      destruct (starts_with _ _); vm_compute; reflexivity
                    | left; reflexivity ])
              ltac:(vm_compute; reflexivity))
    as (Hissues & _ & _ & hall & final & _ & _ & Hconf).
  split; [exact Hissues |]. vm_compute. reflexivity.
Defined.

Lemma filter_renal_checks_idempotent_witness :
  exists renal_out,
    filter_renal_checks sample_tool_output = Ok renal_out
    /\ filter_renal_checks renal_out = Ok renal_out.
Proof.
  eexists. split; [vm_compute; reflexivity |].
  apply (filter_renal_checks_idempotent sample_tool_output).
  vm_compute. reflexivity.
Defined.
(* ===================================================================== *)
(** * More on load_patient_data                                            *)
(* ===================================================================== *)

Lemma ltrim_existsb (p : ascii -> bool) cs :
  (forall c, p c = true -> is_space c = false) ->
  existsb p (ltrim cs) = existsb p cs.
Proof.
  intros Hp. induction cs as [|c rest IH]; [reflexivity |].
  cbn [ltrim]. destruct (is_space c) eqn:Hc; [|reflexivity].
  cbn [existsb]. rewrite IH.
  destruct (p c) eqn:Hpc; [|reflexivity].
  apply Hp in Hpc. congruence.
Qed.

Lemma rtrim_existsb (p : ascii -> bool) cs :
  (forall c, p c = true -> is_space c = false) ->
  existsb p (rtrim cs) = existsb p cs.
Proof.
  intros Hp. induction cs as [|c rest IH]; [reflexivity |].
  cbn [rtrim existsb]. rewrite <- IH.
  destruct (rtrim rest) as [|k kept]; [|reflexivity].
  destruct (is_space c) eqn:Hc; cbn [existsb]; [|reflexivity].
  destruct (p c) eqn:Hpc; [|reflexivity].
  apply Hp in Hpc. congruence.
Qed.

Lemma comma_is_no_space c : is_char c "," = true -> is_space c = false.
Proof.
  intros Hc. apply Ascii.eqb_eq in Hc. subst c. reflexivity.
Qed.

Lemma has_comma_str_strip (s : string) : has_comma (str_strip s) = has_comma s.
Proof.
  unfold has_comma, str_strip. rewrite chars_of_chars.
  rewrite rtrim_existsb, ltrim_existsb by apply comma_is_no_space.
  reflexivity.
Qed.

Lemma split_comma_from_one cs : forall cur,
  1 <= length (split_comma_from cur cs).
Proof.
  induction cs as [|c rest IH]; intros cur; cbn [split_comma_from]; [cbn; lia |].
  destruct (is_char c ","); [cbn [length]; lia | apply IH].
Qed.

Lemma split_comma_from_two cs : forall cur,
  existsb (fun c => is_char c ",") cs = true ->
  2 <= length (split_comma_from cur cs).
Proof.
  induction cs as [|c rest IH]; intros cur; [discriminate |].
  cbn [existsb split_comma_from].
  destruct (is_char c ","); cbn [orb].
  - intros _. cbn [length]. pose proof (split_comma_from_one rest []). lia.
  - apply IH.
Qed.

Lemma splitlines_from_single_line cur cs :
  forallb (fun c => negb (is_line_boundary c || Ascii.eqb c CR)) cs = true ->
  length (splitlines_from cur cs) <= 1.
Proof.
  revert cur. induction cs as [|c rest IH]; intros cur.
  - intros _. cbn. destruct cur; cbn; lia.
  - cbn [forallb splitlines_from]. intros Hno.
    apply andb_true_iff in Hno. destruct Hno as [Hc Hno].
    apply negb_true_iff, orb_false_iff in Hc. destruct Hc as [Hb Hcr].
    rewrite Hcr, Hb. now apply IH.
Qed.

(** X14.  A text of one line that holds a comma, is no JSON and whose
    first field is no number is taken for a table with its header line and
    no line of values: [load_patient_data] ends in an [IndexError]. *)
Theorem load_patient_data_header_only_raises `{PyRuntime} (file_text : string) :
  let text := str_strip file_text in
  json_loads text = Raise JSONDecodeError ->
  has_comma file_text = true ->
  float_of_str (hd "" (map str_strip (str_split_comma text))) = None ->
  single_line text = true ->
  load_patient_data file_text = Raise IndexError.
Proof.
  intros text Hjson Hcomma Hfloat Hline. unfold load_patient_data. fold text.
  rewrite Hjson. cbn [except_JSONDecodeError].
  assert (Hparts : (1 <? length (map str_strip (str_split_comma text)))%nat = true).
  { apply Nat.ltb_lt. unfold str_split_comma. rewrite !length_map.
    apply split_comma_from_two.
    unfold text. fold (has_comma (str_strip file_text)).
    now rewrite has_comma_str_strip. }
  rewrite Hparts, Hfloat.
  pose proof (splitlines_from_single_line [] (chars text) Hline) as Hlen.
  unfold str_splitlines.
  destruct (splitlines_from [] (chars text)) as [|l0 [|l1 ls]]; cbn in *;
    try reflexivity; lia.
Qed.

Lemma load_patient_data_header_only_raises_witness :
  load_patient_data (H := sample_runtime) "chest pain, two days" = Raise IndexError.
Proof.
  apply (load_patient_data_header_only_raises (H := sample_runtime)
           "chest pain, two days"); vm_compute; reflexivity.
Defined.

Lemma dict_set_all_values_str d k s :
  all_values_str d = true -> all_values_str (dict_set d k (PStr s)) = true.
Proof.
  induction d as [|[k0 v0] rest IH]; cbn; [reflexivity |].
  intros Hall. apply andb_true_iff in Hall. destruct Hall as [Hv Hrest].
  destruct (String.eqb k0 k); cbn.
  - exact Hrest.
  - rewrite Hv. cbn. now apply IH.
Qed.

Lemma dict_of_zip_all_values_str header values :
  all_values_str (dict_of_zip header values) = true.
Proof.
  unfold dict_of_zip.
  assert (Hgen : forall pairs acc, all_values_str acc = true ->
            all_values_str
              (fold_left (fun d (kv : string * string) => dict_set d (fst kv) (PStr (snd kv)))
                         pairs acc) = true).
  { induction pairs as [|kv pairs IH]; intros acc Hacc; [exact Hacc |].
    cbn [fold_left]. apply IH. now apply dict_set_all_values_str. }
  now apply Hgen.
Qed.

(** X15.  What [load_patient_data] gives is the decoded text when the
    stripped text is valid JSON, of whatever type, and otherwise a mapping
    whose values are all strings; no [JSONDecodeError] leaves it, and the
    only exception of its own is [IndexError]. *)
Theorem load_patient_data_outcomes `{PyRuntime} (file_text : string) :
  match load_patient_data file_text with
  | Ok v =>
      json_loads (str_strip file_text) = Ok v
      \/ (json_loads (str_strip file_text) = Raise JSONDecodeError
          /\ exists d, v = PDict d /\ all_values_str d = true)
  | Raise e =>
      (e = IndexError /\ json_loads (str_strip file_text) = Raise JSONDecodeError)
      \/ (e <> JSONDecodeError /\ json_loads (str_strip file_text) = Raise e)
  end.
Proof.
  unfold load_patient_data.
  destruct (json_loads (str_strip file_text)) as [v|e] eqn:Hjson; [now left |].
  destruct e; cbn [except_JSONDecodeError];
    try (right; split; [discriminate | reflexivity]).
  assert (Hraw : exists d, PDict [("raw_text", PStr (str_strip file_text))] = PDict d
                           /\ all_values_str d = true)
    by (eexists; split; reflexivity).
  destruct (1 <? length (map str_strip (str_split_comma (str_strip file_text))))%nat;
    [|right; auto].
  destruct (float_of_str _); [right; auto |].
  destruct (str_splitlines (str_strip file_text)) as [|l0 [|l1 ls]];
    try (left; split; reflexivity).
  right. split; [reflexivity |].
  eexists. split; [reflexivity | apply dict_of_zip_all_values_str].
Qed.
(* ===================================================================== *)
(** * More on run_pipeline                                                 *)
(* ===================================================================== *)

Section PipelineAgain.
Context `{PyRuntime} `{PipelineCollaborators}.

(** X16.  Whenever [run_pipeline] returns, [loops_run] lies between 2 and
    6, whatever the reviews hold, and [final_output] is the candidate of
    the last pass made: the one generated from the feedback of the pass
    before it, not the best rated of the run. *)
Theorem run_pipeline_returns_last_candidate
    (patient result : pyval) (disk0 disk' : files) :
  run_pipeline patient disk0 = Ok (result, disk') ->
  exists ctx disk1 n final feedback,
    obtain_enhanced_context patient disk0 = Ok (ctx, disk1)
    /\ 2 <= n <= 6
    /\ pass_results patient ctx n = Ok (final, feedback)
    /\ result = PDict [("final_output", final); ("loops_run", PInt (Z.of_nat n))].
Proof.
  intros Hr. apply run_pipeline_inv in Hr.
  destruct Hr as (ctx & disk1 & st & Hinit & Hloop & _ & -> & _).
  apply feedback_loop_last_pass in Hloop; cbn [loop_count]; [|lia | reflexivity].
  destruct Hloop as (Hlast & Hle & Hlow).
  exists ctx, disk1, (loop_count st), (final_agent2_output st), (review_feedback st).
  repeat split; auto; lia.
Qed.

(** X17.  Whenever [run_pipeline] returns, the disk handed to the FHIR
    conversion holds the returned candidate in [outputs/final.json], the
    two artifacts of every pass made and the shared context, and every
    file that was there before the run; the disk the run leaves is the one
    the conversion leaves of it. *)
Theorem run_pipeline_artifacts (patient result : pyval) (disk0 disk' : files) :
  run_pipeline patient disk0 = Ok (result, disk') ->
  exists final n before_conversion,
    result = PDict [("final_output", final); ("loops_run", PInt (Z.of_nat n))]
    /\ disk' = snd (convert_with_gemini FINAL_JSON FHIR_BUNDLE before_conversion)
    /\ read_text before_conversion FINAL_JSON = Some (json_dumps_unicode final)
    /\ path_exists before_conversion OUT_ENH = true
    /\ (forall k, 1 <= k <= n ->
          path_exists before_conversion (agent2_loop_path k) = true
          /\ path_exists before_conversion (agent3_review_loop_path k) = true)
    /\ (forall p, path_exists disk0 p = true -> path_exists before_conversion p = true).
Proof.
  intros Hr. apply run_pipeline_inv in Hr.
  destruct Hr as (ctx & disk1 & st & Hinit & Hloop & _ & -> & ->).
  apply feedback_loop_artifacts in Hloop. cbn [loop_count disk] in Hloop.
  destruct Hloop as [Hkeep Hnew].
  assert (Hinit_disk : path_exists disk1 OUT_ENH = true
                       /\ forall p, path_exists disk0 p = true -> path_exists disk1 p = true).
  { unfold obtain_enhanced_context in Hinit.
    inv_bind Hinit. inv_bind Hinit.
    destruct (negb (py_truthy _)); [discriminate |].
    inv_bind Hinit. injection Hinit as _ <-.
    destruct (path_exists disk0 OUT_ENH) eqn:Hex; cbn [negb] in *.
    - match goal with E : Ok _ = Ok _ |- _ => injection E as <- end. auto.
    - match goal with E : save_json _ _ _ = Ok _ |- _ =>
        apply save_json_inv in E; destruct E as [_ ->] end.
      split.
      + rewrite path_exists_write_text. now rewrite String.eqb_refl.
      + intros p Hp. rewrite path_exists_write_text, Hp. apply orb_true_r. }
  destruct Hinit_disk as [Hctx Hkeep0].
  exists (final_agent2_output st), (loop_count st),
    (write_text (disk st) FINAL_JSON (json_dumps_unicode (final_agent2_output st))).
  repeat match goal with |- _ /\ _ => split end; try reflexivity.
  - rewrite read_text_write_text. now rewrite String.eqb_refl.
  - rewrite path_exists_write_text. rewrite (Hkeep _ Hctx). apply orb_true_r.
  - intros k Hk. rewrite !path_exists_write_text.
    destruct (Hnew k ltac:(lia)) as [-> ->]. now rewrite !orb_true_r.
  - intros p Hp. rewrite path_exists_write_text.
    rewrite (Hkeep _ (Hkeep0 _ Hp)). apply orb_true_r.
Qed.

(** X18.  The shared context of a run is never empty, and an existing
    [temp/enhanced_context.json] is never rewritten: the disk is left as
    it is when the file is there, even when the APS1 step has just produced
    another context; otherwise the context is the one of the APS1 step and
    the file is created with it. *)
Theorem obtain_enhanced_context_keeps_existing_file
    (patient ctx : pyval) (disk0 disk1 : files) :
  obtain_enhanced_context patient disk0 = Ok (ctx, disk1) ->
  py_truthy ctx = true
  /\ (path_exists disk0 OUT_ENH = true -> disk1 = disk0)
  /\ (path_exists disk0 OUT_ENH = false ->
      (exists enh, run_enhanced_agent2_protocol patient = Ok (PDict enh)
                   /\ dict_get_default enh "enhanced_context" PNone = ctx)
      /\ disk1 = write_text disk0 OUT_ENH
                   (json_dumps_unicode (PDict [("enhanced_context", ctx)]))).
Proof.
  unfold obtain_enhanced_context. intros Hinit.
  inv_bind Hinit. inv_bind Hinit.
  destruct (path_exists disk0 OUT_ENH) eqn:Hfile.
  - destruct (negb (py_truthy _)) eqn:Htrue in Hinit; [discriminate |].
    apply negb_false_iff in Htrue. cbn [negb bind] in Hinit.
    injection Hinit as <- <-.
    split; [exact Htrue |]. split; [reflexivity | discriminate].
  - rewrite andb_false_r in Hinit.
    destruct (negb (py_truthy a0)) eqn:Htrue; [discriminate |].
    apply negb_false_iff in Htrue. cbn [negb] in Hinit.
    inv_bind Hinit. injection Hinit as <- <-.
    match goal with E : save_json _ _ _ = Ok _ |- _ =>
      apply save_json_inv in E; destruct E as [_ ->] end.
    split; [exact Htrue |]. split; [discriminate |].
    intros _. split; [| reflexivity].
    destruct a as [| | | | | |enh]; try discriminate.
    exists enh. split; [reflexivity |].
    cbn [py_get] in *. congruence.
Qed.

(** X19.  Without a context from the APS1 step and without the file on
    disk, the run is aborted with a [RuntimeError] before any pass. *)
Theorem run_pipeline_without_context_raises
    (patient : pyval) (disk0 : files) (enh : pydict) :
  run_enhanced_agent2_protocol patient = Ok (PDict enh) ->
  py_truthy (dict_get_default enh "enhanced_context" PNone) = false ->
  path_exists disk0 OUT_ENH = false ->
  run_pipeline patient disk0 = Raise RuntimeError.
Proof.
  intros Henh Hfalse Hfile. unfold run_pipeline, obtain_enhanced_context.
  rewrite Henh. cbn [bind py_get]. rewrite Hfile, andb_false_r, Hfalse. reflexivity.
Qed.
End PipelineAgain.

Lemma run_pipeline_returns_last_candidate_witness :
  exists ctx disk1 n final feedback,
    obtain_enhanced_context (H := sample_runtime) (H0 := scenario_A_pipeline)
      sample_patient [] = Ok (ctx, disk1)
    /\ 2 <= n <= 6
    /\ pass_results (H := sample_runtime) (H0 := scenario_A_pipeline)
         sample_patient ctx n = Ok (final, feedback)
    /\ PDict [ ("final_output", PDict [("protocol", PStr "CT"); ("round", PInt 2)]);
               ("loops_run", PInt 2) ]
       = PDict [("final_output", final); ("loops_run", PInt (Z.of_nat n))].
Proof.
  eapply (@run_pipeline_returns_last_candidate sample_runtime scenario_A_pipeline
            sample_patient _ [] _).
  vm_compute. reflexivity.
Defined.

Lemma run_pipeline_artifacts_witness :
  exists result disk',
    run_pipeline (H := sample_runtime) (H0 := scenario_A_pipeline) sample_patient []
    = Ok (result, disk')
    /\ exists final n before_conversion,
        result = PDict [("final_output", final); ("loops_run", PInt (Z.of_nat n))]
        /\ disk' = snd (convert_with_gemini (PipelineCollaborators := scenario_A_pipeline)
                          FINAL_JSON FHIR_BUNDLE before_conversion)
        /\ read_text before_conversion FINAL_JSON
           = Some (json_dumps_unicode (PyRuntime := sample_runtime) final)
        /\ path_exists before_conversion OUT_ENH = true
        /\ (forall k, 1 <= k <= n ->
              path_exists before_conversion (agent2_loop_path k) = true
              /\ path_exists before_conversion (agent3_review_loop_path k) = true)
        /\ (forall p, path_exists [] p = true -> path_exists before_conversion p = true).
Proof.
  eexists. eexists. split; [vm_compute; reflexivity |].
  apply (@run_pipeline_artifacts sample_runtime scenario_A_pipeline sample_patient).
  vm_compute. reflexivity.
Defined.

Lemma obtain_enhanced_context_keeps_existing_file_witness :
  let disk0 := [(OUT_ENH, "{}")] in
  py_truthy (PStr "context") = true
  /\ (path_exists disk0 OUT_ENH = true -> disk0 = disk0)
  /\ (path_exists disk0 OUT_ENH = false ->
      (exists enh,
          run_enhanced_agent2_protocol (PipelineCollaborators := scenario_A_pipeline)
            sample_patient = Ok (PDict enh)
          /\ dict_get_default enh "enhanced_context" PNone = PStr "context")
      /\ disk0 = write_text disk0 OUT_ENH
                   (json_dumps_unicode (PyRuntime := sample_runtime)
                      (PDict [("enhanced_context", PStr "context")]))).
Proof.
  apply (@obtain_enhanced_context_keeps_existing_file sample_runtime scenario_A_pipeline
           sample_patient (PStr "context") [(OUT_ENH, "{}")] [(OUT_ENH, "{}")]).
  vm_compute. reflexivity.
Defined.

Lemma run_pipeline_without_context_raises_witness :
  run_pipeline (H := sample_runtime) (H0 := pipeline_without_context) sample_patient []
  = Raise RuntimeError.
Proof.
  apply (@run_pipeline_without_context_raises sample_runtime pipeline_without_context
           sample_patient [] [("status", PStr "failed")]); reflexivity.
Defined.

Section ConversionAgain.
Context `{PyRuntime}.
Variable c : PipelineCollaborators.
Variable convert : string -> string -> files -> res pyval * files.
Variables patient ctx : pyval.

Lemma loop_pass_with_conversion st :
  loop_pass (H0 := with_conversion c convert) patient ctx st
  = loop_pass (H0 := c) patient ctx st.
Proof. reflexivity. Qed.

Lemma feedback_loop_with_conversion m : forall st,
  6 - loop_count st <= m ->
  feedback_loop (H0 := with_conversion c convert) patient ctx st
  = feedback_loop (H0 := c) patient ctx st.
Proof.
  induction m as [|m IH]; intros st Hm;
    rewrite (feedback_loop_step (H0 := with_conversion c convert)),
            (feedback_loop_step (H0 := c));
    destruct (lt_dec (loop_count st) 6) as [Hlt|Hge]; try reflexivity; [lia |].
  rewrite loop_pass_with_conversion.
  destruct (loop_pass patient ctx st) as [[[[output feedback] disk'] [|]]|e];
    try reflexivity.
  apply IH. cbn [after_pass loop_count]. lia.
Qed.
End ConversionAgain.


(* ===================================================================== *)
(** * The extractor of the converter                                       *)
(* ===================================================================== *)

Lemma string_app_assoc (a b c : string) : ((a ++ b) ++ c = a ++ b ++ c)%string.
Proof. induction a as [|x a IH]; cbn; [reflexivity | now rewrite IH]. Qed.

Lemma split_on_from_no_backquote cs : forall cur,
  no_backquote cs = true -> split_on_from fence cur 0 cs = [rev cur ++ cs].
Proof.
  induction cs as [|c rest IH]; intros cur Hno; cbn [split_on_from].
  - now rewrite app_nil_r.
  - cbn [no_backquote forallb] in Hno. apply andb_true_iff in Hno.
    destruct Hno as [Hc Hrest]. apply negb_true_iff in Hc.
    rewrite (@starts_with_fence_cons c _ Hc), (IH _ Hrest).
    cbn [rev]. now rewrite <- app_assoc.
Qed.

Lemma split_on_from_fence cs rest : forall cur,
  no_backquote cs = true ->
  split_on_from fence cur 0 (cs ++ fence ++ rest)
  = (rev cur ++ cs) :: split_on_from fence [] 0 rest.
Proof.
  induction cs as [|c cs IH]; intros cur Hno.
  - rewrite app_nil_r. reflexivity.
  - cbn [no_backquote forallb] in Hno. apply andb_true_iff in Hno.
    destruct Hno as [Hc Hrest]. apply negb_true_iff in Hc.
    cbn [app split_on_from].
    rewrite (@starts_with_fence_cons c _ Hc), (IH _ Hrest).
    cbn [rev]. now rewrite <- app_assoc.
Qed.

Lemma rtrim_head c rest :
  is_space c = false -> exists kept, rtrim (c :: rest) = c :: kept.
Proof.
  intros Hc. cbn [rtrim]. rewrite Hc.
  destruct (rtrim rest) as [|k kept]; eauto.
Qed.

Lemma str_strip_fenced_block (inner : string) :
  str_strip ("```" ++ inner ++ "```") = ("```" ++ inner ++ "```")%string.
Proof.
  unfold str_strip.
  rewrite <- (of_chars_chars ("```" ++ inner ++ "```")) at 2. f_equal.
  rewrite !chars_app. change (chars "```") with fence.
  change (ltrim (fence ++ chars inner ++ fence)) with (fence ++ chars inner ++ fence).
  rewrite app_assoc. apply rtrim_app_tight; [discriminate | reflexivity].
Qed.

(** A single fenced block: the text between the fences when, stripped, it
    starts with an opening brace; the whole text, fences included,
    otherwise. *)
Lemma unfenced_text_block (inner : string) :
  no_backquote (chars inner) = true ->
  unfenced_text ("```" ++ inner ++ "```")
  = if str_startswith (str_strip inner) "{" then str_strip inner
    else ("```" ++ inner ++ "```")%string.
Proof.
  intros Hno. unfold unfenced_text. rewrite str_strip_fenced_block.
  change (str_startswith ("```" ++ inner ++ "```") "```") with true.
  cbn match. unfold str_split_fence.
  rewrite !chars_app. change (chars "```") with fence.
  change (fence ++ chars inner ++ fence) with ([] ++ fence ++ chars inner ++ fence).
  rewrite split_on_from_fence by reflexivity.
  replace (chars inner ++ fence) with (chars inner ++ fence ++ [])
    by (now rewrite app_nil_r).
  rewrite split_on_from_fence by exact Hno.
  cbn [rev app split_on_from map find].
  change (str_startswith (str_strip (of_chars [])) "{") with false. cbn match.
  rewrite of_chars_chars.
  destruct (str_startswith (str_strip inner) "{"); reflexivity.
Qed.

Lemma unfenced_text_no_fence (text : string) :
  no_backquote (chars text) = true -> unfenced_text text = str_strip text.
Proof.
  intros Hno. unfold unfenced_text, str_startswith.
  unfold str_strip at 1. rewrite chars_of_chars.
  assert (Hstrip : no_backquote (rtrim (ltrim (chars text))) = true).
  { apply forallb_forall. intros c Hin.
    apply (proj1 (forallb_forall _ _) Hno).
    apply ltrim_incl, rtrim_incl, Hin. }
  destruct (rtrim (ltrim (chars text))) as [|c rest]; [reflexivity |].
  cbn [no_backquote forallb] in Hstrip. apply andb_true_iff in Hstrip.
  destruct Hstrip as [Hc _]. apply negb_true_iff in Hc.
  change (chars "```") with fence.
  now rewrite (@starts_with_fence_cons c _ Hc).
Qed.

Lemma no_backquote_app a b :
  no_backquote (a ++ b) = no_backquote a && no_backquote b.
Proof. apply forallb_app. Qed.

Lemma no_brace_app a b : no_brace (a ++ b) = no_brace a && no_brace b.
Proof. apply forallb_app. Qed.

(** X21.  The extractor of the converter returns only what the decoder
    makes of the unfenced text or of its brace span, and never lets a
    [JSONDecodeError] out: a text that cannot be decoded gives a
    [ValueError]. *)
Theorem fhir_extract_json_outcomes `{PyRuntime} (text : string) :
  match _extract_json_from_text text with
  | Ok v =>
      exists s, (s = unfenced_text text
                 \/ (json_loads (unfenced_text text) = Raise JSONDecodeError
                     /\ search_brace_block (unfenced_text text) = Some s))
                /\ json_loads s = Ok v
  | Raise e =>
      e <> JSONDecodeError
      /\ (e = ValueError
          \/ json_loads (unfenced_text text) = Raise e
          \/ exists s, search_brace_block (unfenced_text text) = Some s
                       /\ json_loads s = Raise e)
  end.
Proof.
  unfold _extract_json_from_text.
  destruct (json_loads (unfenced_text text)) as [v|e] eqn:Hwhole.
  - exists (unfenced_text text). auto.
  - destruct e; cbn [except_JSONDecodeError];
      try (split; [discriminate | auto]).
    destruct (search_brace_block (unfenced_text text)) as [m|] eqn:Hspan;
      [|split; [discriminate | auto]].
    destruct (json_loads m) as [v|e] eqn:Hm; cbn [except_JSONDecodeError].
    + exists m. auto.
    + destruct e; (split; [discriminate |]); eauto.
Qed.

(** X22.  On a text without backquote, whatever the extractor of the
    converter returns, the extractor of the reviewer returns too: the
    reviewer makes the same two attempts first. *)
Theorem reviewer_extractor_accepts_what_converter_accepts `{PyRuntime}
    (text : string) (v : pyval) :
  no_backquote (chars text) = true ->
  text <> "" ->
  _extract_json_from_text text = Ok v ->
  extract_json_from_text text = Ok v.
Proof.
  intros Hno Hne. unfold _extract_json_from_text, extract_json_from_text.
  apply String.eqb_neq in Hne. rewrite Hne.
  rewrite unfenced_text_no_fence, stripped_text_no_backquote by exact Hno.
  destruct (json_loads (str_strip text)) as [w|[]]; cbn [except_JSONDecodeError];
    try discriminate; [auto |].
  destruct (search_brace_block (str_strip text)) as [m|]; [|discriminate].
  destruct (json_loads m) as [w|[]]; cbn [except_JSONDecodeError];
    try discriminate; auto.
Qed.

Lemma reviewer_extractor_accepts_what_converter_accepts_witness :
  extract_json_from_text (H := sample_runtime) ("Bundle: " ++ sample_payload)
  = Ok (PDict [("confidence", PFloat (FFin (9 # 10)))]).
Proof.
  apply (@reviewer_extractor_accepts_what_converter_accepts sample_runtime
           ("Bundle: " ++ sample_payload)).
  - vm_compute. reflexivity.
  - discriminate.
  - vm_compute. reflexivity.
Defined.

(** X23.  A fence without language tag is transparent to the extractor of
    the converter: when the fenced text holds no backquote and, stripped,
    starts with an opening brace, extracting from the fenced text is
    extracting from the text inside. *)
Theorem fhir_extract_json_plain_fence_transparent `{PyRuntime} (inner : string) :
  no_backquote (chars inner) = true ->
  str_startswith (str_strip inner) "{" = true ->
  _extract_json_from_text ("```" ++ inner ++ "```") = _extract_json_from_text inner.
Proof.
  intros Hno Hbrace. unfold _extract_json_from_text.
  rewrite unfenced_text_block, Hbrace by exact Hno.
  now rewrite unfenced_text_no_fence by exact Hno.
Qed.

Lemma fhir_extract_json_plain_fence_transparent_witness :
  _extract_json_from_text (H := sample_runtime) ("```" ++ (nl ++ sample_payload ++ nl) ++ "```")
  = _extract_json_from_text (H := sample_runtime) (nl ++ sample_payload ++ nl).
Proof.
  apply (@fhir_extract_json_plain_fence_transparent sample_runtime
           (nl ++ sample_payload ++ nl)); vm_compute; reflexivity.
Defined.

(** X24.  A fence with a language tag is not removed: the piece after the
    opening fence starts with the tag, not with a brace, so the decoder is
    first given the whole text, fences included, and the object between
    the fences is reached only through the brace span. *)
Theorem fhir_extract_json_tagged_fence `{PyRuntime} (tag mid : string) :
  let text := ("```" ++ tag ++ nl ++ "{" ++ mid ++ "}" ++ nl ++ "```")%string in
  is_language_tag tag = true ->
  no_backquote (chars mid) = true ->
  unfenced_text text = text
  /\ _extract_json_from_text text
     = except_JSONDecodeError (json_loads text)
         (except_JSONDecodeError (json_loads ("{" ++ mid ++ "}")) (Raise ValueError)).
Proof.
  intros text Htag Hmid.
  unfold is_language_tag in Htag.
  apply andb_true_iff in Htag. destruct Htag as [Htag Htick].
  apply andb_true_iff in Htag. destruct Htag as [Hhead Hbrace].
  destruct (chars tag) as [|c rest] eqn:Echars; [discriminate |].
  apply negb_true_iff in Hhead.
  set (inner := (tag ++ nl ++ "{" ++ mid ++ "}" ++ nl)%string).
  assert (Einner : text = ("```" ++ inner ++ "```")%string).
  { unfold text, inner. now rewrite !string_app_assoc. }
  assert (Eprose : text = (("```" ++ tag ++ nl) ++ "{" ++ mid ++ "}" ++ nl ++ "```")%string).
  { unfold text. now rewrite !string_app_assoc. }
  assert (Hinner : no_backquote (chars inner) = true).
  { unfold inner. rewrite !chars_app, !no_backquote_app, Echars, Htick, Hmid.
    reflexivity. }
  assert (Hstart : str_startswith (str_strip inner) "{" = false).
  { unfold str_startswith, str_strip, inner.
    rewrite chars_of_chars, chars_app, Echars. cbn [app ltrim]. rewrite Hhead.
    destruct (@rtrim_head c (rest ++ chars (nl ++ "{" ++ mid ++ "}" ++ nl)) Hhead)
      as [kept ->].
    cbn [no_brace forallb] in Hbrace. apply andb_true_iff in Hbrace.
    destruct Hbrace as [Hc _]. apply negb_true_iff in Hc.
    unfold is_brace in Hc. apply orb_false_iff in Hc. destruct Hc as [Hc _].
    unfold is_char in Hc.
    change (starts_with (chars "{") (c :: kept))
      with (Ascii.eqb "{" c && true).
    now rewrite Ascii.eqb_sym, Hc. }
  assert (Hunfenced : unfenced_text text = text).
  { rewrite Einner, unfenced_text_block, Hstart by exact Hinner. reflexivity. }
  split; [exact Hunfenced |].
  unfold _extract_json_from_text. rewrite Hunfenced.
  assert (Hstrip : str_strip text = text).
  { rewrite Einner. apply str_strip_fenced_block. }
  assert (Hspan : search_brace_block text = Some ("{" ++ mid ++ "}")%string).
  { rewrite <- Hstrip, Eprose. apply search_brace_block_in_prose; [|reflexivity].
    rewrite !chars_app, !no_brace_app, Echars, Hbrace. reflexivity. }
  rewrite Hspan. reflexivity.
Qed.

Lemma fhir_extract_json_tagged_fence_witness :
  let text := ("```" ++ "json" ++ nl ++ "{" ++ (q "confidence" ++ ": 0.9") ++ "}" ++ nl ++ "```")%string in
  unfenced_text text = text
  /\ _extract_json_from_text (H := sample_runtime) text
     = except_JSONDecodeError (json_loads (PyRuntime := sample_runtime) text)
         (except_JSONDecodeError
            (json_loads (PyRuntime := sample_runtime) ("{" ++ (q "confidence" ++ ": 0.9") ++ "}"))
            (Raise ValueError)).
Proof.
  apply (@fhir_extract_json_tagged_fence sample_runtime "json" (q "confidence" ++ ": 0.9"));
    vm_compute; reflexivity.
Defined.

Example fhir_extract_json_tagged_fence_ex :
  _extract_json_from_text (H := sample_runtime)
    ("```json" ++ nl ++ sample_payload ++ nl ++ "```")
  = Ok (PDict [("confidence", PFloat (FFin (9 # 10)))]).
Proof. vm_compute. reflexivity. Qed.

Example converter_rejects_trailing_comma :
  _extract_json_from_text (H := sample_runtime) scenario_C_text = Raise ValueError
  /\ exists d, extract_json_from_text (H := sample_runtime) scenario_C_text = Ok (PDict d).
Proof. split; [|eexists]; vm_compute; reflexivity. Qed.

(* ===================================================================== *)
(** * The converter                                                        *)
(* ===================================================================== *)

Section ConverterAgain.
Context `{PyRuntime} `{FhirServices}.

Lemma ValueError_as_RuntimeError_Ok {A} (body : res A) (a : A) :
  ValueError_as_RuntimeError body = Ok a -> body = Ok a.
Proof. destruct body as [b|[]]; cbn; congruence. Qed.

Lemma ValueError_as_RuntimeError_Raise {A} (body : res A) (e : exn) :
  ValueError_as_RuntimeError body = Raise e ->
  e <> ValueError /\ e <> JSONDecodeError /\ e <> UnicodeEncodeError
  /\ (body = Raise ValueError -> e = RuntimeError).
Proof.
  destruct body as [b|[]]; cbn; intros E; try discriminate E;
    injection E as <-; repeat split; try discriminate; reflexivity.
Qed.

Lemma validated_bundle_inv final_text bundle :
  validated_bundle final_text = Ok bundle ->
  exists final_data raw d,
    json_loads final_text = Ok final_data
    /\ genai_response_text (fhir_prompt final_data) = Ok raw
    /\ _extract_json_from_text raw = Ok (PDict d)
    /\ validate_FHIRBundle d = Some bundle.
Proof.
  unfold validated_bundle. intros Hbody.
  inv_bind Hbody. inv_bind Hbody. inv_bind Hbody.
  match goal with E : ValueError_as_RuntimeError _ = Ok _ |- _ =>
    apply ValueError_as_RuntimeError_Ok in E end.
  destruct a1 as [| | | | | |d]; try discriminate Hbody.
  destruct (validate_FHIRBundle d) as [b|] eqn:Hvalid; [|discriminate Hbody].
  injection Hbody as <-. eauto 8.
Qed.

(** The converter writes at its output path only, and removes nothing. *)
Lemma convert_with_gemini_from_frame final_text output_path disk0 :
  (forall p, p <> output_path ->
     read_text (snd (convert_with_gemini_from final_text output_path disk0)) p
     = read_text disk0 p)
  /\ (forall p, path_exists disk0 p = true ->
        path_exists (snd (convert_with_gemini_from final_text output_path disk0)) p
        = true).
Proof.
  unfold convert_with_gemini_from, dump_bundle.
  destruct (validated_bundle final_text) as [bundle|e]; [|cbn [snd]; auto].
  destruct (utf8_encodable (json_dumps_unicode bundle)); cbn [snd]; split;
    intros p Hp;
    rewrite ?read_text_write_text, ?path_exists_write_text, ?Hp, ?orb_true_r;
    try reflexivity;
    (destruct (String.eqb_spec output_path p) as [->|_]; [congruence | reflexivity]).
Qed.

(** X25.  The converter writes at its output path only, and not before
    the bundle is validated: a failure up to the validation leaves the disk
    as it was.  Once the bundle is validated, which is the validation of
    the mapping extracted from the response to the prompt built from the
    decoded input, the output file is opened: it holds the dump of the
    returned bundle on success, and what was dumped before the failure when
    the dump ends in a [UnicodeEncodeError]. *)
Theorem convert_with_gemini_writes_validated_bundle_only
    (final_text output_path : string) (disk0 : files) :
  match convert_with_gemini_from final_text output_path disk0 with
  | (Ok bundle, disk') =>
      (exists final_data raw d,
          json_loads final_text = Ok final_data
          /\ genai_response_text (fhir_prompt final_data) = Ok raw
          /\ _extract_json_from_text raw = Ok (PDict d)
          /\ validate_FHIRBundle d = Some bundle)
      /\ utf8_encodable (json_dumps_unicode bundle) = true
      /\ disk' = write_text disk0 output_path (json_dumps_unicode bundle)
  | (Raise e, disk') =>
      (validated_bundle final_text = Raise e /\ disk' = disk0)
      \/ (e = UnicodeEncodeError
          /\ exists bundle,
               validated_bundle final_text = Ok bundle
               /\ utf8_encodable (json_dumps_unicode bundle) = false
               /\ disk' = write_text disk0 output_path (dump_before_failure bundle))
  end
  /\ (forall p, p <> output_path ->
        read_text (snd (convert_with_gemini_from final_text output_path disk0)) p
        = read_text disk0 p).
Proof.
  split; [|apply convert_with_gemini_from_frame].
  unfold convert_with_gemini_from, dump_bundle.
  destruct (validated_bundle final_text) as [bundle|e] eqn:Hbody; [|auto].
  destruct (utf8_encodable (json_dumps_unicode bundle)) eqn:Henc.
  - split; [now apply validated_bundle_inv |]. auto.
  - right. split; [reflexivity |]. exists bundle. auto.
Qed.

(** X26.  Once the input is decoded and the response obtained, a
    conversion that fails raises neither [ValueError] nor
    [JSONDecodeError]: a response from which no JSON can be extracted and a
    mapping that is no bundle both end in a [RuntimeError], nothing being
    written.  The one exception of the [ValueError] family that leaves the
    converter is the [UnicodeEncodeError] of the dump of a validated
    bundle, and it is the one failure that leaves the disk changed. *)
Theorem convert_with_gemini_wraps_parse_errors
    (final_text output_path raw : string) (final_data : pyval) (disk0 : files) (e : exn) :
  json_loads final_text = Ok final_data ->
  genai_response_text (fhir_prompt final_data) = Ok raw ->
  fst (convert_with_gemini_from final_text output_path disk0) = Raise e ->
  e <> ValueError /\ e <> JSONDecodeError
  /\ (_extract_json_from_text raw = Raise ValueError -> e = RuntimeError)
  /\ (forall d, _extract_json_from_text raw = Ok (PDict d) ->
                validate_FHIRBundle d = None -> e = RuntimeError)
  /\ (e <> UnicodeEncodeError ->
      snd (convert_with_gemini_from final_text output_path disk0) = disk0)
  /\ (e = UnicodeEncodeError ->
      exists d bundle,
        _extract_json_from_text raw = Ok (PDict d)
        /\ validate_FHIRBundle d = Some bundle
        /\ utf8_encodable (json_dumps_unicode bundle) = false
        /\ snd (convert_with_gemini_from final_text output_path disk0)
           = write_text disk0 output_path (dump_before_failure bundle)).
Proof.
  unfold convert_with_gemini_from, validated_bundle, dump_bundle.
  intros -> Hraw. cbn [bind]. rewrite Hraw. cbn [bind].
  destruct (_extract_json_from_text raw) as [v|x] eqn:Hextract.
  - cbn [ValueError_as_RuntimeError bind].
    destruct v as [| | | | | |d];
      try (cbn [fst snd]; intros E; injection E as <-;
           repeat match goal with |- _ /\ _ => split end;
           intros; try discriminate; try congruence; reflexivity).
    destruct (validate_FHIRBundle d) as [bundle|] eqn:Hvalid.
    + destruct (utf8_encodable (json_dumps_unicode bundle)) eqn:Henc;
        cbn [fst snd]; intros E; [discriminate E |]. injection E as <-.
      repeat match goal with |- _ /\ _ => split end;
        intros; try discriminate; try congruence.
      exists d, bundle. auto.
    + cbn [fst snd]. intros E. injection E as <-.
      repeat match goal with |- _ /\ _ => split end;
        intros; try discriminate; try congruence; reflexivity.
  - destruct x; cbn [ValueError_as_RuntimeError bind fst snd];
      intros E; injection E as <-;
      repeat match goal with |- _ /\ _ => split end;
      intros; try discriminate; try congruence; reflexivity.
Qed.
End ConverterAgain.

Lemma convert_with_gemini_wraps_parse_errors_witness :
  fst (convert_with_gemini_from (H := sample_runtime)
         (H0 := sample_fhir_services "I cannot build a bundle.")
         "{}" FHIR_BUNDLE [(FINAL_JSON, "{}")])
  = Raise RuntimeError
  /\ snd (convert_with_gemini_from (H := sample_runtime)
            (H0 := sample_fhir_services "I cannot build a bundle.")
            "{}" FHIR_BUNDLE [(FINAL_JSON, "{}")])
     = [(FINAL_JSON, "{}")].
Proof.
  assert (Hfail : fst (convert_with_gemini_from (H := sample_runtime)
                         (H0 := sample_fhir_services "I cannot build a bundle.")
                         "{}" FHIR_BUNDLE [(FINAL_JSON, "{}")])
                  = Raise RuntimeError) by (vm_compute; reflexivity).
  split; [exact Hfail |].
  destruct (@convert_with_gemini_wraps_parse_errors sample_runtime
              (sample_fhir_services "I cannot build a bundle.")
              "{}" FHIR_BUNDLE "I cannot build a bundle." (PDict [])
              [(FINAL_JSON, "{}")] RuntimeError)
    as (_ & _ & _ & _ & Hdisk & _);
    [vm_compute; reflexivity | vm_compute; reflexivity | exact Hfail |].
  apply Hdisk. discriminate.
Defined.

Example convert_with_gemini_from_ex :
  convert_with_gemini_from (H := object_runtime)
    (H0 := sample_fhir_services ("```json" ++ nl ++ sample_bundle_text ++ nl ++ "```"))
    "{}" FHIR_BUNDLE [(FINAL_JSON, "{}")]
  = (Ok (PDict [("resourceType", PStr "Bundle"); ("type", PStr "collection");
                ("entry", PList [])]),
     [(FINAL_JSON, "{}"); (FHIR_BUNDLE, "{}")]).
Proof. vm_compute. reflexivity. Qed.

Example decoded_lone_surrogate :
  exists s, Json.loads (q "\ud800") = Ok (PStr s) /\ utf8_encodable s = false.
Proof. eexists. split; vm_compute; reflexivity. Qed.

Example convert_with_gemini_from_dump_failure :
  convert_with_gemini_from (H := surrogate_runtime)
    (H0 := sample_fhir_services sample_bundle_text)
    "{}" FHIR_BUNDLE [(FINAL_JSON, "{}"); (FHIR_BUNDLE, "an older bundle")]
  = (Raise UnicodeEncodeError, [(FINAL_JSON, "{}"); (FHIR_BUNDLE, "{")]).
Proof. vm_compute. reflexivity. Qed.

Example run_pipeline_save_failure :
  run_pipeline (H := surrogate_runtime) (H0 := scenario_A_pipeline) sample_patient []
  = Raise UnicodeEncodeError.
Proof. vm_compute. reflexivity. Qed.

(* ===================================================================== *)
(** * The pipeline with the converter                                      *)
(* ===================================================================== *)

Section PipelineWithConverter.
Context `{PyRuntime} `{FhirServices} `{PipelineCollaborators}.
Hypothesis Hconverter : conversion_is_converter.

(** X27.  With the converter as its conversion step, whether it succeeds
    or fails, and at whatever step, a run that returns leaves
    [outputs/final.json] holding the dump of the returned candidate: no
    file other than [outputs/fhir_bundle.json] differs from the disk
    handed to the conversion, and no file is removed. *)
Theorem run_pipeline_with_converter (patient result : pyval) (disk0 disk' : files) :
  run_pipeline patient disk0 = Ok (result, disk') ->
  exists final n before_conversion,
    result = PDict [("final_output", final); ("loops_run", PInt (Z.of_nat n))]
    /\ read_text before_conversion FINAL_JSON = Some (json_dumps_unicode final)
    /\ disk' = snd (convert_with_gemini FINAL_JSON FHIR_BUNDLE before_conversion)
    /\ read_text disk' FINAL_JSON = Some (json_dumps_unicode final)
    /\ (forall p, p <> FHIR_BUNDLE -> read_text disk' p = read_text before_conversion p)
    /\ (forall p, path_exists before_conversion p = true -> path_exists disk' p = true).
Proof.
  intros Hr. apply run_pipeline_inv in Hr.
  destruct Hr as (ctx & disk1 & st & _ & _ & _ & -> & ->).
  set (final := final_agent2_output st).
  set (before := write_text (disk st) FINAL_JSON (json_dumps_unicode final)).
  assert (Hfinal : read_text before FINAL_JSON = Some (json_dumps_unicode final)).
  { unfold before. rewrite read_text_write_text. now rewrite String.eqb_refl. }
  assert (Hframe : (forall p, p <> FHIR_BUNDLE ->
                      read_text (snd (convert_with_gemini FINAL_JSON FHIR_BUNDLE before)) p
                      = read_text before p)
                   /\ (forall p, path_exists before p = true ->
                         path_exists (snd (convert_with_gemini FINAL_JSON FHIR_BUNDLE before)) p
                         = true)).
  { destruct (Hconverter FINAL_JSON FHIR_BUNDLE before) as [[e ->]|[final_text ->]].
    - cbn [snd]. auto.
    - apply convert_with_gemini_from_frame. }
  destruct Hframe as [Hother Hkeep].
  exists final, (loop_count st), before.
  repeat match goal with |- _ /\ _ => split end; auto.
  rewrite Hother by discriminate. exact Hfinal.
Qed.
End PipelineWithConverter.

Lemma run_pipeline_with_converter_witness :
  exists result disk',
    run_pipeline (H := object_runtime) (H0 := converting_pipeline sample_bundle_text)
      sample_patient [] = Ok (result, disk')
    /\ exists final n before_conversion,
        result = PDict [("final_output", final); ("loops_run", PInt (Z.of_nat n))]
        /\ read_text before_conversion FINAL_JSON
           = Some (json_dumps_unicode (PyRuntime := object_runtime) final)
        /\ disk' = snd (convert_with_gemini
                          (PipelineCollaborators := converting_pipeline sample_bundle_text)
                          FINAL_JSON FHIR_BUNDLE before_conversion)
        /\ read_text disk' FINAL_JSON
           = Some (json_dumps_unicode (PyRuntime := object_runtime) final)
        /\ (forall p, p <> FHIR_BUNDLE ->
              read_text disk' p = read_text before_conversion p)
        /\ (forall p, path_exists before_conversion p = true ->
              path_exists disk' p = true).
Proof.
  eexists. eexists. split; [vm_compute; reflexivity |].
  refine (@run_pipeline_with_converter object_runtime
            (sample_fhir_services sample_bundle_text)
            (converting_pipeline sample_bundle_text) _ sample_patient _ [] _ _).
  - intros final_json_path output_path disk0.
    cbn [convert_with_gemini converting_pipeline with_conversion].
    destruct (read_text disk0 final_json_path) as [final_text|]; eauto.
  - vm_compute. reflexivity.
Defined.

Example run_pipeline_with_converter_ex :
  option_map (fun r => read_text (snd r) FHIR_BUNDLE)
    match run_pipeline (H := object_runtime) (H0 := converting_pipeline sample_bundle_text)
            sample_patient [] with
    | Ok r => Some r
    | Raise _ => None
    end
  = Some (Some "{}").
Proof. vm_compute. reflexivity. Qed.
